(** * Yandex_exchange: marketplace synchronisation scripts

    A shallow embedding of the Python batch jobs that synchronise a
    retailer's files with the marketplace seller API: the price pipeline
    ([prices.py]), the stock pipeline ([stocks.py]), the orders export
    ([orders.py]) and the confirmations pipeline ([confirmations.py]).

    Conventions of the embedding:
    - a Python exception is a value of [exn]; a function that may raise
      returns [result A] and sequencing is the bind of that monad;
    - [None] is Rocq's [None]; a Python [dict] built from literals or
      decoded from JSON is a [json] value whose object fields are kept
      in insertion order;
    - a pandas float64 cell is an IEEE-754 binary64 number
      ([spec_float] with precision 53), an empty cell being NaN;
    - network traffic and [time.sleep] are recorded in an event log;
    - what the operating system answers to a call that it may refuse
      is a parameter ([os_error]) of the function that makes the
      call. *)

From Stdlib Require Import ZArith List String Ascii Lia DecimalString.
From Stdlib Require Import Floats.SpecFloat.
From stdpp Require Import base option list gmap strings.

Set Warnings "-register-all".

Local Open Scope Z_scope.

(** ** Exceptions and the error monad *)

Inductive exn : Type :=
| ValueError
| IndexError
| OverflowError
| TypeError
| AttributeError
| KeyError (key : string)
| DbfError
| OSError (kind : string).  (* OSError, or its subclass of that name *)

Inductive result (A : Type) : Type :=
| Ok (a : A)
| Raise (e : exn).

Arguments Ok {A} a.
Arguments Raise {A} e.

#[global] Instance result_ret : MRet result := fun A a => Ok a.

#[global] Instance result_bind : MBind result :=
  fun A B f m => match m with Ok a => f a | Raise e => Raise e end.

Definition is_ok {A} (r : result A) : bool :=
  match r with Ok _ => true | Raise _ => false end.

(** ** binary64 arithmetic, as numpy and CPython perform it *)

Module Float64.

Definition prec : Z := 53.
Definition emax : Z := 1024.

Definition float := spec_float.

Definition nan : float := S754_nan.

Definition mul (x y : float) : float := SFmul prec emax x y.

Definition div (x y : float) : float := SFdiv prec emax x y.

(** The float of a Python [int] (exact below 2^53). *)
Definition of_Z (z : Z) : float := binary_normalize prec emax z 0 false.

(** The float a decimal literal [n]e-[k] denotes: the correctly
    rounded quotient of two exactly representable integers. *)
Definition of_decimal (n : Z) (k : Z) : float := div (of_Z n) (of_Z (10 ^ k)).

Definition is_nan (x : float) : bool :=
  match x with S754_nan => true | _ => false end.

Definition is_finite (x : float) : bool :=
  match x with S754_zero _ | S754_finite _ _ _ => true | _ => false end.

(** [Series.fillna(v)]: NaN cells take the value [v]. *)
Definition fillna (v x : float) : float := if is_nan x then v else x.

(** The integer [math.ceil] returns on a finite float. *)
Definition ceilZ (x : float) : Z :=
  match x with
  | S754_finite s m e =>
      let v := cond_Zopp s (Zpos m) in
      if 0 <=? e then v * 2 ^ e else - ((- v) / 2 ^ (- e))
  | _ => 0
  end.

(** [math.ceil(x)]: [float.__ceil__] refuses NaN with ValueError and
    an infinity with OverflowError. *)
Definition ceil (x : float) : result Z :=
  match x with
  | S754_nan => Raise ValueError
  | S754_infinity _ => Raise OverflowError
  | _ => Ok (ceilZ x)
  end.

(** Rounding toward zero, the C cast behind [astype(int)]. *)
Definition truncZ (x : float) : Z :=
  match x with
  | S754_finite s m e =>
      let v := cond_Zopp s (Zpos m) in
      if 0 <=? e then v * 2 ^ e else Z.quot v (2 ^ (- e))
  | _ => 0
  end.

(** A finite float that is a whole number: [pd.read_excel] hands such
    a cell over as a Python [int]. *)
Definition is_whole (x : float) : bool :=
  match x with
  | S754_zero _ => true
  | S754_finite _ m e => (0 <=? e) || (Zpos m mod 2 ^ (- e) =? 0)
  | _ => false
  end.

(** A finite float between -2^63 and 2^63: its integer part fits an
    int64. *)
Definition fits_int64 (x : float) : bool :=
  is_finite x && (- 2 ^ 63 <=? truncZ x) && (truncZ x <? 2 ^ 63).

(** A column of numbers and gaps that pandas loads with dtype float64
    whatever else it holds: one cell is empty or no whole number, and
    every number fits an int64. *)
Definition float64_column (cells : list float) : bool :=
  existsb (fun x => negb (is_whole x)) cells
  && forallb (fun x => is_nan x || fits_int64 x) cells.

End Float64.

(** ** Text of Python values *)

(** [str(n)] for an integer [n]. *)
Definition str_of_Z (z : Z) : string :=
  NilEmpty.string_of_int (Z.to_int z).

(** A SKU cell of a loaded sheet, as [pd.read_excel] returned it: a
    [str], a Python or int64 integer, or NaN. *)
Inductive sku_cell : Type :=
| SkuText (s : string)
| SkuInt (n : Z)
| SkuEmpty.

(** [str(cell)] on such a value, which is also what [astype(str)]
    stores for it. *)
Definition py_str (c : sku_cell) : string :=
  match c with
  | SkuText s => s
  | SkuInt n => str_of_Z n
  | SkuEmpty => "nan"
  end.

Definition sku_is_text (c : sku_cell) : bool :=
  match c with SkuText _ => true | _ => false end.

Definition sku_is_int64 (c : sku_cell) : bool :=
  match c with
  | SkuInt n => (- 2 ^ 63 <=? n) && (n <? 2 ^ 63)
  | _ => false
  end.

(** The SKU columns whose cells are the values above: a column that
    holds a text is loaded with dtype object and keeps its integers
    and its NaN as they are; a column of nothing but integers is an
    int64 column.  (A numeric column with a gap is loaded as float64:
    its integers are floats, which [str] renders otherwise.) *)
Definition object_or_int64 (cells : list sku_cell) : bool :=
  existsb sku_is_text cells || forallb sku_is_int64 cells.

(** A loaded sheet (a DataFrame): its column labels and its rows.  The
    rows carry the cells of the columns the pipeline reads; the labels
    decide whether the pipeline's column check passes. *)
Record sheet (R : Type) : Type := Sheet {
  columns : list string;
  rows : list R
}.

Arguments Sheet {R} columns rows.
Arguments columns {R} s.
Arguments rows {R} s.

(** [required.issubset(df.columns)] *)
Definition issubset (required cols : list string) : bool :=
  forallb (fun c => bool_decide (c ∈ cols)) required.

(** ** JSON values and Python dictionaries *)

Inductive json : Type :=
| JNull
| JBool (b : bool)
| JInt (n : Z)
| JFloat (x : spec_float)
| JStr (s : string)
| JArr (items : list json)
| JObj (fields : list (string * json)).

Fixpoint assoc {A} (key : string) (fields : list (string * A)) : option A :=
  match fields with
  | [] => None
  | (k, v) :: rest => if String.eqb k key then Some v else assoc key rest
  end.

(** [d.get(key, default)]; only a dict has the method. *)
Definition dict_get (d : json) (key : string) (default : json) : result json :=
  match d with
  | JObj fields => Ok (from_option id default (assoc key fields))
  | _ => Raise AttributeError
  end.

(** Truth value of a decoded JSON value, as [if x:] tests it. *)
Definition truthy (j : json) : bool :=
  match j with
  | JNull => false
  | JBool b => b
  | JInt n => negb (n =? 0)
  | JFloat x => match x with S754_zero _ => false | _ => true end
  | JStr s => negb (String.eqb s "")
  | JArr items => match items with [] => false | _ => true end
  | JObj fields => match fields with [] => false | _ => true end
  end.

(** ** Python ranges and slices *)

(** [len(range(start, stop, step))] for a non-zero step. *)
Definition range_length (start stop step : Z) : Z :=
  if 0 <? step then Z.max 0 ((stop - start + step - 1) / step)
  else Z.max 0 ((start - stop - step - 1) / (- step)).

(** [range(start, stop, step)]; a zero step raises ValueError. *)
Definition py_range (start stop step : Z) : result (list Z) :=
  if step =? 0 then Raise ValueError
  else Ok (map (fun k => start + Z.of_nat k * step)
               (seq 0 (Z.to_nat (range_length start stop step)))).

(** A slice bound clamped the way [list.__getitem__] clamps it. *)
Definition slice_bound (len k : Z) : Z :=
  if k <? 0 then Z.max 0 (k + len) else Z.min k len.

(** [l[i:j]] *)
Definition py_slice {A} (l : list A) (i j : Z) : list A :=
  let len := Z.of_nat (length l) in
  let lo := slice_bound len i in
  let hi := slice_bound len j in
  take (Z.to_nat (hi - lo)) (drop (Z.to_nat lo) l).

(** The loop shared by both [prepare_batches]:
    [for i in range(0, len(offers), batch_size): batch = offers[i:i + batch_size]] *)
Definition batch_slices {A} (offers : list A) (batch_size : Z)
  : result (list (list A)) :=
  starts ← py_range 0 (Z.of_nat (length offers)) batch_size;
  mret (map (fun i => py_slice offers i (i + batch_size)) starts).

(** The batching the spec describes: consecutive chunks of [size]
    offers, the [k]-th holding offers [k * size] up to
    [k * size + size - 1], the last one possibly shorter. *)
Definition consecutive_chunks {A} (size : nat) (l : list A) : list (list A) :=
  map (fun k => take size (drop (k * size)%nat l))
      (seq 0 ((length l + size - 1) / size)%nat).

(** ** Cells of a general DataFrame *)

(** A cell of the confirmation table: an integer, text, or empty. *)
Inductive value : Type :=
| VInt (n : Z)
| VStr (s : string)
| VNaN.

#[global] Instance value_eq_dec : EqDecision value.
Proof. solve_decision. Defined.

(** [str(v)], as an f-string renders a cell. *)
Definition str_of_value (v : value) : string :=
  match v with
  | VInt n => str_of_Z n
  | VStr s => s
  | VNaN => "nan"
  end.

(** ** Effects: the event log *)

Inductive event : Type :=
| Sleep (seconds : Z)                          (* time.sleep *)
| HttpPost (url : string) (body : json)        (* requests.post *)
| HttpPut (url : string) (body : json)         (* requests.put *)
| FtpUpload (path : string)                    (* upload_file_to_ftp *)
| WorkbookSaved (file_name : string)           (* pd.ExcelWriter left the file *)
| LabelsRequested (order_ids : list value).    (* generate_order_labels *)

Definition is_request (e : event) : bool :=
  match e with HttpPost _ _ | HttpPut _ _ => true | _ => false end.

(** ** The operating system *)

(** The calls the operating system may refuse.  What it answers is not
    the program's to decide: a function that makes such calls takes the
    answers as [os_error], [None] standing for a call that went
    through and [Some e] for the exception raised. *)
Inductive os_call : Type :=
| Makedirs (path : string)               (* os.makedirs *)
| OpenRead (path : string)               (* open(path, 'rb') *)
| OpenWrite (path : string)              (* open(path, 'wb'), pd.ExcelWriter(path) *)
| ReadChunk (path : string) (n : nat)    (* the n-th read from the open file *)
| WriteChunk (path : string) (n : nat)   (* the n-th write to the open file *)
| Move (src dst : string).               (* shutil.move *)

(** A computation over a state [S] that may raise: the state reached is
    kept when an exception escapes. *)
Definition io (S A : Type) : Type := S -> result A * S.

#[global] Instance io_ret {S} : MRet (io S) := fun A a s => (Ok a, s).

#[global] Instance io_bind {S} : MBind (io S) :=
  fun A B f m s =>
    match m s with
    | (Ok a, s') => f a s'
    | (Raise e, s') => (Raise e, s')
    end.

Definition lift {S A} (r : result A) : io S A := fun s => (r, s).

(** [for x in xs: body(x)] *)
Fixpoint for_each {S A} (xs : list A) (body : A -> io S unit) : io S unit :=
  match xs with
  | [] => mret tt
  | x :: rest => _ ← body x; for_each rest body
  end.

(** ** The stand-in transport of the stock and price pipelines

    [class FakeResponse] and [send_request_with_retries] are written
    out twice, identically, in [stocks.py] and [prices.py]; the call to
    [requests.put] / [requests.post] is commented out beside the
    construction of the stand-in. *)

Module StandIn.

Record response : Type := Response {
  status_code : Z;
  _json : json;
  text : string;
  headers : list (string * Z)
}.

(** [FakeResponse.__init__(self, status_code=200, json_data=None)] *)
Definition FakeResponse (status_code : Z) (json_data : json) : response :=
  {| status_code := status_code;
     _json := if truthy json_data then json_data
              else JObj [("message", JStr "Тестовый ответ")]%string;
     text := "Тестовый ответ";
     headers := [("Retry-After", 7)]%string |}.

(** The body every stand-in response carries by default. *)
Definition fake_body : json := JObj [("message", JStr "Тестовый ответ")]%string.

(** [FakeResponse.json(self)] *)
Definition json_of (r : response) : json := _json r.

(** The [while attempt < max_attempts] loop; [fuel] bounds the
    iterations and [max_attempts - attempt] of it is enough, every
    iteration that continues adding one to [attempt]. *)
Fixpoint retry_loop (fuel : nat) (attempt max_attempts : Z)
    (log : list event) : option json * list event :=
  match fuel with
  | O => (None, log)
  | S fuel =>
      if attempt <? max_attempts then
        let response := FakeResponse 200 JNull in
        if status_code response =? 200 then
          (Some (json_of response), log)
        else if (500 <=? status_code response)
                && (status_code response <? 600) then
          retry_loop fuel (attempt + 1) max_attempts (log ++ [Sleep 3])
        else if status_code response =? 429 then
          let retry_after :=
            from_option id 10 (assoc "Retry-After" (headers response)) in
          retry_loop fuel (attempt + 1) max_attempts
                     (log ++ [Sleep retry_after])
        else (None, log)
      else (None, log)
  end.

Definition send_request_with_retries
    (url : string) (hdrs : list (string * string)) (body : json)
    (max_attempts : Z) (log : list event) : option json * list event :=
  retry_loop (Z.to_nat max_attempts) 0 max_attempts log.

(** The request headers both pipelines build. *)
Definition request_headers (api_token : string) : list (string * string) :=
  [("Api-Key", api_token);
   ("Accept", "application/json");
   ("X-Market-Integration", "OrderGuardTest")]%string.

(** The [for idx, batch in enumerate(batches, start=1)] loop of
    [update_stocks] and [update_prices]. *)
Definition send_batches (url : string) (hdrs : list (string * string))
    (batches : list json) (log : list event)
  : list (option json) * list event :=
  foldl (fun '(responses, log) batch =>
           let '(response, log) :=
             send_request_with_retries url hdrs batch 3 log in
           (responses ++ [response], log ++ [Sleep 1]))
        ([], log) batches.

End StandIn.

(** ** The price pipeline ([prices.py]) *)

Module Prices.
Import Float64.

(** The rows of the two loaded sheets: the cells of the columns the
    pipeline reads, as [pd.read_excel] returned them. *)
Record product_row : Type := ProductRow {
  Artikul : sku_cell;        (* column "Артикул" *)
  Price : float;             (* column "Price" *)
  Mark : option string       (* column "Mark"; None is an empty cell *)
}.

Record markup_row : Type := MarkupRow {
  m_Mark : option string;    (* column "Mark" *)
  MarkUP : float             (* column "MarkUP" *)
}.

(** A row of the merged frame: the product row and the MarkUP cell
    the join brought in. *)
Record merged_row : Type := MergedRow {
  left_row : product_row;
  j_MarkUP : float
}.

Record offer : Type := Offer {
  offerId : string;
  price : Z;
  discountBase : Z
}.

Definition required_columns_1 : list string := ["Артикул"; "Price"; "Mark"]%string.
Definition required_columns_2 : list string := ["Mark"; "MarkUP"]%string.

(** The literal 1.8 *)
Definition default_markup : float := of_decimal 18 1.

(** The rows of [df_products.merge(df_markups, on="Mark", how="left")]:
    every left row, in order, once per right row with the same key (in
    the right frame's order); a left row without a match is kept once
    with an empty MarkUP.  Empty keys match each other, as pandas does. *)
Definition merge_left (ps : list product_row) (ms : list markup_row)
  : list merged_row :=
  flat_map
    (fun p =>
       match filter (fun m => m_Mark m = Mark p) ms with
       | [] => [MergedRow p nan]
       | hits => map (fun m => MergedRow p (MarkUP m)) hits
       end) ps.

(** The dtype of a key column that has rows: object when a cell holds
    a text, float64 when every cell is empty. *)
Definition key_is_object (keys : list (option string)) : bool :=
  existsb (fun k => bool_decide (is_Some k)) keys.

(** The check [merge] makes on its keys: when both frames have rows,
    pandas refuses to join a text key with a float64 one. *)
Definition merge_keys_agree (ps : list product_row) (ms : list markup_row)
  : bool :=
  match ps, ms with
  | [], _ | _, [] => true
  | _, _ => Bool.eqb (key_is_object (map Mark ps))
                     (key_is_object (map m_Mark ms))
  end.

(** A label borne by both frames is renamed by [merge] (suffixes "_x"
    and "_y"), the key apart: the merged frame then has no column of
    that name. *)
Definition renamed (label : string) (df_products : sheet product_row)
    (df_markups : sheet markup_row) : bool :=
  bool_decide (label ∈ columns df_products)
  && bool_decide (label ∈ columns df_markups).

(** [df[label]] and [row[label]] on the merged frame. *)
Definition getitem (label : string) (df_products : sheet product_row)
    (df_markups : sheet markup_row) : result unit :=
  if renamed label df_products df_markups then Raise (KeyError label)
  else Ok tt.

(** [df_products.merge(df_markups, on="Mark", how="left")] *)
Definition merge (df_products : sheet product_row)
    (df_markups : sheet markup_row) : result (list merged_row) :=
  if merge_keys_agree (rows df_products) (rows df_markups)
  then Ok (merge_left (rows df_products) (rows df_markups))
  else Raise ValueError.

(** [df["MarkUP"] = df["MarkUP"].fillna(1.8)] *)
Definition fill_markup (df : list merged_row) : list merged_row :=
  map (fun j => MergedRow (left_row j) (fillna default_markup (j_MarkUP j))) df.

(** [df["NewPrice"] = df["Price"] * df["MarkUP"]], a product of
    float64 numbers as soon as one of the two columns is a float
    column. *)
Definition NewPrice (j : merged_row) : float :=
  mul (Price (left_row j)) (j_MarkUP j).

(** [df_markups[df_markups['Mark'] == 'YANDEX_old_price']['MarkUP'].values[0]] *)
Definition lookup_markup_yandex (ms : list markup_row) : result float :=
  match filter (fun m => m_Mark m = Some "YANDEX_old_price"%string) ms with
  | [] => Raise IndexError
  | m :: _ => Ok (MarkUP m)
  end.

(** [df["DiscountPrice"] = df["NewPrice"] * markup_yandex] *)
Definition DiscountPrice (markup_yandex : float) (j : merged_row) : float :=
  mul (NewPrice j) markup_yandex.

(** The body of the [for _, row in df.iterrows()] loop, [sku] being
    the outcome of [row["Артикул"]]. *)
Definition offer_of_row (sku : result unit) (markup_yandex : float)
    (j : merged_row) : result offer :=
  _ ← sku;
  p ← ceil (NewPrice j);
  d ← ceil (DiscountPrice markup_yandex j);
  mret (Offer (py_str (Artikul (left_row j))) p d).

Definition build_offers (sku : result unit) (markup_yandex : float)
    (df : list merged_row) : result (list offer) :=
  foldl (fun acc j =>
           offers ← acc;
           o ← offer_of_row sku markup_yandex j;
           mret (offers ++ [o]))
        (Ok []) df.

Definition prepare_offers_data
    (df_products : sheet product_row) (df_markups : sheet markup_row)
  : result (list offer) :=
  if negb (issubset required_columns_1 (columns df_products))
     || negb (issubset required_columns_2 (columns df_markups))
  then Raise ValueError
  else
    df ← merge df_products df_markups;
    _ ← getitem "MarkUP" df_products df_markups;
    let df := fill_markup df in
    _ ← getitem "Price" df_products df_markups;
    markup_yandex ← lookup_markup_yandex (rows df_markups);
    build_offers (getitem "Артикул" df_products df_markups) markup_yandex df.

(** *** What the claim describes: one offer per product row *)

(** The MarkUP a product of mark [k] is priced with: the first markup
    row of that mark, 1.8 when there is none or its cell is empty. *)
Definition markup_for (ms : list markup_row) (k : option string) : float :=
  match filter (fun m => m_Mark m = k) ms with
  | [] => default_markup
  | m :: _ => fillna default_markup (MarkUP m)
  end.

Definition product_NewPrice (ms : list markup_row) (p : product_row) : float :=
  mul (Price p) (markup_for ms (Mark p)).

Definition product_DiscountPrice (ms : list markup_row) (my : float)
    (p : product_row) : float :=
  mul (product_NewPrice ms p) my.

Definition product_offer (ms : list markup_row) (my : float)
    (p : product_row) : offer :=
  Offer (py_str (Artikul p))
        (ceilZ (product_NewPrice ms p))
        (ceilZ (product_DiscountPrice ms my p)).

(** [prepare_batches(offers, batch_size=300)] *)
Definition price_entry (o : offer) : json :=
  JObj [("offerId", JStr (offerId o));
        ("price", JObj [("value", JInt (price o));
                        ("currencyId", JStr "RUR");
                        ("discountBase", JInt (discountBase o))])]%string.

Definition batch_json (batch : list offer) : json :=
  JObj [("offers", JArr (map price_entry batch))]%string.

Definition prepare_batches (offers : list offer) (batch_size : Z)
  : result (list json) :=
  slices ← batch_slices offers batch_size;
  mret (map batch_json slices).

Definition send_request_with_retries := StandIn.send_request_with_retries.

Definition update_prices (api_token business_id : string)
    (offers : list offer) (log : list event)
  : result (list (option json)) * list event :=
  let url := ("https://api.partner.market.yandex.ru/businesses/"
                +:+ business_id +:+ "/offer-prices/updates")%string in
  let hdrs := StandIn.request_headers api_token in
  match prepare_batches offers 300 with
  | Raise e => (Raise e, log)
  | Ok batches =>
      let '(responses, log) := StandIn.send_batches url hdrs batches log in
      (Ok responses, log)
  end.

(** The spec's worked example. *)
Definition example_products : sheet product_row :=
  Sheet ["Артикул"; "Price"; "Mark"]%string
        [ProductRow (SkuText "SKU-1") (of_Z 100) (Some "A"%string)].

Definition example_markups : sheet markup_row :=
  Sheet ["Mark"; "MarkUP"]%string
        [MarkupRow (Some "A"%string) (of_decimal 20 1);
         MarkupRow (Some "YANDEX_old_price"%string) (of_decimal 9 1)].

(** The same product sheet with the Price cell left empty. *)
Definition products_empty_price : sheet product_row :=
  Sheet ["Артикул"; "Price"; "Mark"]%string
        [ProductRow (SkuText "SKU-1") nan (Some "A"%string)].

(** A product whose mark "B" has no markup row. *)
Definition products_unknown_mark : sheet product_row :=
  Sheet ["Артикул"; "Price"; "Mark"]%string
        [ProductRow (SkuInt 4601) (of_Z 100) (Some "B"%string)].

(** The product sheet of the example with a "MarkUP" column of its
    own. *)
Definition products_with_markup_column : sheet product_row :=
  Sheet ["Артикул"; "Price"; "Mark"; "MarkUP"]%string
        [ProductRow (SkuText "SKU-1") (of_Z 100) (Some "A"%string)].

(** The product sheet of the example with the Mark cell left empty. *)
Definition products_without_marks : sheet product_row :=
  Sheet ["Артикул"; "Price"; "Mark"]%string
        [ProductRow (SkuText "SKU-1") (of_Z 100) None].

(** A markup sheet without the "YANDEX_old_price" row. *)
Definition markups_without_yandex : sheet markup_row :=
  Sheet ["Mark"; "MarkUP"]%string
        [MarkupRow (Some "A"%string) (of_decimal 20 1)].

(** A markup sheet that lists mark "A" twice. *)
Definition markups_duplicate_mark : sheet markup_row :=
  Sheet ["Mark"; "MarkUP"]%string
        [MarkupRow (Some "A"%string) (of_decimal 20 1);
         MarkupRow (Some "A"%string) (of_decimal 30 1);
         MarkupRow (Some "YANDEX_old_price"%string) (of_decimal 9 1)].

(** A markup sheet whose "YANDEX_old_price" row has an empty MarkUP. *)
Definition markups_empty_yandex : sheet markup_row :=
  Sheet ["Mark"; "MarkUP"]%string
        [MarkupRow (Some "A"%string) (of_decimal 20 1);
         MarkupRow (Some "YANDEX_old_price"%string) nan].

End Prices.

(** ** The stock pipeline ([stocks.py]) *)

Module Stocks.
Import Float64.

Record stock_row : Type := StockRow {
  Artikul : sku_cell;        (* column "Артикул" *)
  Kolichestvo : float        (* column "Количество"; NaN is an empty cell *)
}.

(** The dict [{"offerId": ..., "qua": ...}]. *)
Record offer : Type := Offer {
  offerId : string;
  qua : Z
}.

Definition required_columns : list string := ["Артикул"; "Количество"]%string.

(** The dtype [pd.read_excel] gives a column of numbers and gaps.  A
    cell that holds a whole number reaches pandas as a Python [int]:
    a column of such cells is int64, or uint64 when one of them is
    2^63 or more; a gap or any other number makes it float64; an
    integer of the uint64 range beside a gap or a negative integer
    cannot be typed, and the column keeps its Python objects. *)
Inductive dtype : Type := Int64 | UInt64 | Float_64 | Object.

Definition is_uint (x : float) : bool :=
  is_whole x && (2 ^ 63 <=? truncZ x) && (truncZ x <? 2 ^ 64).

Definition is_sint (x : float) : bool :=
  is_whole x && (- 2 ^ 63 <=? truncZ x) && (truncZ x <? 0).

Definition is_float (x : float) : bool :=
  negb (is_whole x) || (truncZ x <? - 2 ^ 63) || (2 ^ 64 <=? truncZ x).

Definition column_dtype (cells : list float) : dtype :=
  if existsb is_uint cells && (existsb is_nan cells || existsb is_sint cells)
  then Object
  else if existsb is_float cells then Float_64
  else if existsb is_uint cells then UInt64
  else Int64.

Section Cast.

(** What the C cast stores for a float whose integer part does not fit
    an int64: the language leaves it open, the processor decides. *)
Variable cast_out_of_range : float -> Z.

Definition int64_cast (x : float) : Z :=
  if fits_int64 x then truncZ x else cast_out_of_range x.

(** [astype(int)] on one float64 cell: pandas refuses a column that
    holds a non-finite value, and otherwise truncates. *)
Definition astype_int (x : float) : result Z :=
  if is_finite x then Ok (int64_cast x) else Raise ValueError.

Fixpoint astype_int_cells (cells : list float) : result (list Z) :=
  match cells with
  | [] => Ok []
  | x :: rest =>
      n ← astype_int x;
      ns ← astype_int_cells rest;
      mret (n :: ns)
  end.

(** A uint64 read as an int64: the same 64 bits. *)
Definition uint64_as_int64 (z : Z) : Z :=
  if z <? 2 ^ 63 then z else z - 2 ^ 64.

(** [df['Количество'].fillna(0).astype(int)] on the whole column.  The
    column of Python objects holds an integer of 2^63 or more, which
    no int64 can take: OverflowError. *)
Definition astype_int_column (cells : list float) : result (list Z) :=
  match column_dtype cells with
  | Object => Raise OverflowError
  | Float_64 => astype_int_cells (map (fillna (of_Z 0)) cells)
  | UInt64 => Ok (map (fun x => uint64_as_int64 (truncZ x)) cells)
  | Int64 => Ok (map truncZ cells)
  end.

Definition prepare_offers_data (df_products : sheet stock_row)
  : result (list offer) :=
  if negb (issubset required_columns (columns df_products))
  then Raise ValueError
  else
    let skus := map (fun r => py_str (Artikul r)) (rows df_products) in
    counts ← astype_int_column (map Kolichestvo (rows df_products));
    mret (foldl (fun offers '(offer_id, count) =>
                   offers ++ [Offer offer_id count])
                [] (zip skus counts)).

End Cast.

(** The integer the spec gives a quantity cell: 0 for an empty cell,
    the truncated number otherwise. *)
Definition quantity_of (x : float) : Z :=
  match x with
  | S754_nan => 0
  | _ => truncZ x
  end.

(** [prepare_batches(offers, batch_size=300)] *)
Definition sku_entry (o : offer) : json :=
  JObj [("sku", JStr (offerId o));
        ("items", JArr [JObj [("count", JInt (qua o))]])]%string.

Definition batch_json (batch : list offer) : json :=
  JObj [("skus", JArr (map sku_entry batch))]%string.

Definition prepare_batches (offers : list offer) (batch_size : Z)
  : result (list json) :=
  slices ← batch_slices offers batch_size;
  mret (map batch_json slices).

Definition send_request_with_retries := StandIn.send_request_with_retries.

Definition update_stocks (api_token campaign_id : string)
    (offers : list offer) (log : list event)
  : result (list (option json)) * list event :=
  let url := ("https://api.partner.market.yandex.ru/campaigns/"
                +:+ campaign_id +:+ "/offers/stocks")%string in
  let hdrs := StandIn.request_headers api_token in
  match prepare_batches offers 300 with
  | Raise e => (Raise e, log)
  | Ok batches =>
      let '(responses, log) := StandIn.send_batches url hdrs batches log in
      (Ok responses, log)
  end.

Definition example_sheet : sheet stock_row :=
  Sheet ["Артикул"; "Количество"]%string
        [StockRow (SkuText "SKU-1") (of_Z 5);
         StockRow (SkuInt 4601) nan;
         StockRow (SkuText "SKU-3") (of_decimal 25 1)].

(** A quantity of ten to the nineteenth beside an empty cell. *)
Definition sheet_huge_quantity : sheet stock_row :=
  Sheet ["Артикул"; "Количество"]%string
        [StockRow (SkuText "SKU-1") (of_Z (10 ^ 19));
         StockRow (SkuText "SKU-2") nan].

End Stocks.
(** ** The confirmations pipeline ([confirmations.py]) *)

(** [os.path.join(a, b)] on POSIX paths. *)
Definition path_join (a b : string) : string :=
  if String.prefix "/" b then b
  else if String.eqb a "" then b
  else if String.eqb (String.substring (String.length a - 1) 1 a) "/"
       then (a +:+ b)%string
       else (a +:+ "/" +:+ b)%string.

(** [s.endswith(suffix)] *)
Definition endswith (s suffix : string) : bool :=
  let n := String.length s in
  let m := String.length suffix in
  (m <=? n)%nat && String.eqb (String.substring (n - m) m s) suffix.

Module Confirmations.

Abbreviation row := (gmap string value).
Abbreviation DataFrame := (sheet (gmap string value)).

(** [pd.DataFrame()] *)
Definition empty_frame : DataFrame := Sheet [] [].

(** [df.empty]: some axis has length zero. *)
Definition df_empty (df : DataFrame) : bool :=
  match columns df, rows df with
  | [], _ | _, [] => true
  | _, _ => false
  end.

(** [df.fillna('нет данных')] *)
Definition fillna (df : DataFrame) : DataFrame :=
  Sheet (columns df)
        (map (fmap (fun v => match v with
                             | VNaN => VStr "нет данных"
                             | _ => v
                             end)) (rows df)).

(** The labels of a concatenation: those of the frames in order of
    first appearance. *)
Definition union_columns (dfs : list DataFrame) : list string :=
  remove_dups (concat (map columns dfs)).

(** A row widened to the labels [cols], absent cells being empty. *)
Definition reindex (cols : list string) (r : row) : row :=
  list_to_map (map (fun c => (c, default VNaN (r !! c))) cols).

(** [pd.concat(objs, ignore_index=True)]: entries that are [None] are
    dropped, and a list of nothing but [None] is refused. *)
Definition pd_concat (objs : list (option DataFrame)) : result DataFrame :=
  match omap id objs with
  | [] => Raise ValueError
  | dfs =>
      let cols := union_columns dfs in
      Ok (Sheet cols (map (reindex cols) (concat (map rows dfs))))
  end.

(** [validate_dataframe(df)] *)
Definition validate_dataframe (df : DataFrame) : bool :=
  bool_decide ("HDRTAG2"%string ∈ columns df).

(** Rows whose key was not met before, in their original order
    ([keep='first']). *)
Fixpoint keep_first {K} `{EqDecision K} (key : row -> K) (seen : list K)
    (rs : list row) : list row :=
  match rs with
  | [] => []
  | r :: rest =>
      if decide (key r ∈ seen) then keep_first key seen rest
      else r :: keep_first key (key r :: seen) rest
  end.

(** [df.drop_duplicates(subset=subset)]; a label that is not a column
    raises KeyError. *)
Definition drop_duplicates (subset : list string) (df : DataFrame)
  : result DataFrame :=
  match filter (fun c => c ∉ columns df) subset with
  | c :: _ => Raise (KeyError c)
  | [] =>
      Ok (Sheet (columns df)
                (keep_first (fun r => map (fun c => r !! c) subset) []
                            (rows df)))
  end.

(** The order key of a row: its "HDRTAG2" cell. *)
Definition order_key (r : row) : option value := r !! "HDRTAG2"%string.

(** [extract_unique_orders(df)] *)
Definition extract_unique_orders (df : DataFrame) : option DataFrame :=
  match drop_duplicates ["HDRTAG2"%string] df with
  | Ok unique => Some unique
  | Raise _ => None
  end.

(** What one HTTP request comes to. *)
Inductive outcome : Type :=
| Response (status_code : Z) (text : string)
| RequestException                  (* requests.exceptions.RequestException *)
| OtherException.                   (* any other Exception *)

Definition count_requests (log : list event) : nat :=
  length (filter (fun e => is_request e = true) log).

Definition status_update_url (campaign_id : string) : string :=
  ("https://api.partner.market.yandex.ru/campaigns/"
     +:+ campaign_id +:+ "/orders/status-update")%string.

Definition order_entry (order_id : Z) (new_status new_substatus : string)
  : json :=
  JObj [("id", JInt order_id);
        ("status", JStr new_status);
        ("substatus", JStr new_substatus)]%string.

(** A merged table of three line items, the first two of one order. *)
Definition example_table : DataFrame :=
  Sheet ["HDRTAG2"; "NAME"; "QNT"]%string
        [ {[ "HDRTAG2"%string := VInt 1001; "NAME"%string := VStr "A";
             "QNT"%string := VInt 1 ]};
          {[ "HDRTAG2"%string := VInt 1001; "NAME"%string := VStr "B";
             "QNT"%string := VInt 2 ]};
          {[ "HDRTAG2"%string := VInt 1002; "NAME"%string := VStr "C";
             "QNT"%string := VInt 3 ]} ].

Section Pipeline.

(** [int(s)] on text, [None] where it raises ValueError. *)
Variable int_of_str : string -> option Z.

(** The marketplace: what the [n]-th request of the run is answered
    with. *)
Variable server : nat -> outcome.

(** [int(v)] on a cell. *)
Definition py_int (v : value) : option Z :=
  match v with
  | VInt n => Some n
  | VStr s => int_of_str s
  | VNaN => None
  end.

(** [build_order_payload(df, new_status, new_substatus)]: a row
    whose key does not convert is logged and passed over. *)
Definition build_order_payload (df : DataFrame)
    (new_status new_substatus : string) : list json * list Z :=
  foldl (fun '(orders, ids_sent) (r : row) =>
           match r !! "HDRTAG2"%string ≫= py_int with
           | Some order_id =>
               (orders ++ [order_entry order_id new_status new_substatus],
                ids_sent ++ [order_id])
           | None => (orders, ids_sent)
           end)
        ([], []) (rows df).

(** [requests.post(url, headers=headers, json=payload)] *)
Definition requests_post (url : string) (payload : json)
    (log : list event) : outcome * list event :=
  (server (count_requests log), log ++ [HttpPost url payload]).

Definition retryable : list Z := [429; 500; 502; 503; 504].

(** The [for attempt in range(1, max_retries + 1)] loop of
    [send_status_update_request].  [time.sleep] refuses a negative
    duration with ValueError: in the [try] body that is caught by
    [except Exception]; raised from the [except RequestException]
    handler it leaves the function.  Falling off the loop returns
    [None]. *)
Fixpoint status_update_loop (attempts : list Z) (url : string)
    (payload : json) (max_retries retry_delay : Z) (log : list event)
  : result (option bool) * list event :=
  match attempts with
  | [] => (Ok None, log)
  | attempt :: rest =>
      let '(out, log) := requests_post url payload log in
      match out with
      | Response status_code _ =>
          if status_code =? 200 then (Ok (Some true), log)
          else if bool_decide (status_code ∈ retryable) then
            if attempt <? max_retries then
              if retry_delay * attempt <? 0 then (Ok (Some false), log)
              else status_update_loop rest url payload max_retries
                     retry_delay (log ++ [Sleep (retry_delay * attempt)])
            else (Ok (Some false), log)
          else (Ok (Some false), log)
      | RequestException =>
          if attempt <? max_retries then
            if retry_delay * attempt <? 0 then (Raise ValueError, log)
            else status_update_loop rest url payload max_retries
                   retry_delay (log ++ [Sleep (retry_delay * attempt)])
          else (Ok (Some false), log)
      | OtherException => (Ok (Some false), log)
      end
  end.

Definition send_status_update_request (payload : json)
    (campaign_id : string) (hdrs : list (string * string))
    (max_retries retry_delay : Z) (log : list event)
  : result (option bool) * list event :=
  status_update_loop (seqZ 1 max_retries) (status_update_url campaign_id)
                     payload max_retries retry_delay log.

(** [update_order_statuses(df, campaign_id, headers, max_retries=3,
    retry_delay=3)]; [None] is the absent result. *)
Definition update_order_statuses (df : DataFrame) (campaign_id : string)
    (hdrs : list (string * string)) (max_retries retry_delay : Z)
    (log : list event) : result (option (list Z)) * list event :=
  if negb (validate_dataframe df) then (Ok None, log)
  else
    match extract_unique_orders df with
    | None => (Ok None, log)
    | Some unique_df =>
        let '(orders, ids_sent) :=
          build_order_payload unique_df "PROCESSING" "READY_TO_SHIP" in
        match orders with
        | [] => (Ok (Some []), log)
        | _ =>
            let payload := JObj [("orders", JArr orders)]%string in
            match send_status_update_request payload campaign_id hdrs
                    max_retries retry_delay log with
            | (Ok (Some true), log) => (Ok (Some ids_sent), log)
            | (Ok _, log) => (Ok None, log)
            | (Raise e, log) => (Raise e, log)
            end
        end
    end.

End Pipeline.

(** *** Ingestion of the inbox *)

(** A file of the local disk, as [pd.read_excel] finds it. *)
Inductive file : Type :=
| Workbook (table : DataFrame)      (* a readable spreadsheet *)
| Unreadable.                       (* anything read_excel raises on *)

(** [pd.read_excel(file_path, dtype=...)]; [None] where it raises. *)
Definition read_excel (fs : gmap string file) (file_path : string)
  : option DataFrame :=
  match fs !! file_path with
  | Some (Workbook table) => Some table
  | _ => None
  end.

(** [append_data_from_file(file_path, df=None)]: an exception is
    logged and the frame passed in is handed back as it was. *)
Definition append_data_from_file (fs : gmap string file)
    (file_path : string) (df : option DataFrame) : option DataFrame :=
  match read_excel fs file_path with
  | None => df
  | Some file_data =>
      match df with
      | None => Some (fillna file_data)
      | Some df =>
          match pd_concat [Some df; Some file_data] with
          | Ok df => Some (fillna df)
          | Raise _ => Some df
          end
      end
  end.

Section Run.

(** What the operating system answers to the calls of this run. *)
Variable os_error : os_call -> option exn.

(** [shutil.move(src, dst)], whose failure the caller logs: a file
    that is not there, or a move the operating system refuses, leaves
    the disk as it is. *)
Definition shutil_move (src dst : string) (fs : gmap string file)
  : gmap string file :=
  match fs !! src, os_error (Move src dst) with
  | Some content, None => <[dst := content]> (delete src fs)
  | _, _ => fs
  end.

(** The body of the two nested loops of [process_confirmation_files]
    for one file name [file] met under [root]. *)
Definition process_one (processed_dir root file_name : string)
    (st : list (option DataFrame) * gmap string file)
  : list (option DataFrame) * gmap string file :=
  let '(all_dataframes, fs) := st in
  if negb (endswith file_name ".xls") then st
  else
    let filepath := path_join root file_name in
    let processed_path := path_join processed_dir file_name in
    if bool_decide (is_Some (fs !! processed_path)) then st
    else
      let df := append_data_from_file fs filepath None in
      (all_dataframes ++ [df], shutil_move filepath processed_path fs).

(** [os.walk(source_dir)]: each directory of the tree with the
    names of the files in it. *)
Variable os_walk : gmap string file -> string -> list (string * list string).

(** [process_confirmation_files(source_dir, processed_dir)] *)
Definition process_confirmation_files (source_dir processed_dir : string)
    (fs : gmap string file) : result DataFrame * gmap string file :=
  match os_error (Makedirs processed_dir) with
  | Some e => (Raise e, fs)
  | None =>
      let '(all_dataframes, fs') :=
        foldl (fun st '(root, files) =>
                 foldl (fun st file_name =>
                          process_one processed_dir root file_name st)
                       st files)
              ([], fs) (os_walk fs source_dir) in
      match all_dataframes with
      | [] => (Ok empty_frame, fs')
      | _ => (pd_concat all_dataframes, fs')
      end
  end.

(** *** The recap workbook *)

(** The grouping and summing [DataFrame.pivot_table] performs once
    its labels are found, and the groups [DataFrame.groupby]
    iterates over. *)
Variable pivot_sum : list string -> string -> DataFrame -> DataFrame.
Variable groups : string -> DataFrame -> list (value * DataFrame).

(** The first of [labels] that is not a column of [df]. *)
Definition missing_label (labels : list string) (df : DataFrame)
  : option string :=
  head (filter (fun c => c ∉ columns df) labels).

(** [df.pivot_table(index=index, values=values, aggfunc='sum')
    .reset_index()]: the value label is looked up first, then the
    grouping labels; a label that is not a column raises KeyError. *)
Definition pivot_table (index : list string) (values : string)
    (df : DataFrame) : result DataFrame :=
  match missing_label (values :: index) df with
  | Some c => Raise (KeyError c)
  | None => Ok (pivot_sum index values df)
  end.

(** [df.to_excel(writer, columns=cols, ...)] *)
Definition select_columns (cols : list string) (df : DataFrame)
  : result DataFrame :=
  match missing_label cols df with
  | Some _ => Raise (KeyError "Not all names specified in 'columns' are found")
  | None =>
      Ok (Sheet cols (map (fun r : row =>
                             filter (fun kv => kv.1 ∈ cols) r) (rows df)))
  end.

(** [df.drop(columns=cols)] *)
Definition drop_columns (cols : list string) (df : DataFrame)
  : result DataFrame :=
  match missing_label cols df with
  | Some c => Raise (KeyError c)
  | None =>
      Ok (Sheet (filter (fun c => c ∉ cols) (columns df))
                (map (fun r : row =>
                        filter (fun kv => kv.1 ∉ cols) r) (rows df)))
  end.

(** [df.groupby(label)] *)
Definition groupby (label : string) (df : DataFrame)
  : result (list (value * DataFrame)) :=
  match missing_label [label] df with
  | Some c => Raise (KeyError c)
  | None => Ok (groups label df)
  end.

Fixpoint order_sheets (gs : list (value * DataFrame))
  : result (list (string * DataFrame)) :=
  match gs with
  | [] => Ok []
  | (order_id, order_data) :: rest =>
      order_data ← drop_columns ["PODRCD"; "REFUSED"; "CODEPST"]%string
                                order_data;
      sheets ← order_sheets rest;
      mret ((("ORDER " +:+ str_of_value order_id)%string, order_data)
              :: sheets)
  end.

(** The sheets written inside [with pd.ExcelWriter(path_file)]. *)
Definition recap_sheets (dataframe : DataFrame)
  : result (list (string * DataFrame)) :=
  all_orders ← pivot_table ["HDRTAG2"; "HDRTAG1"]%string "QNT" dataframe;
  pivot ← pivot_table ["FIRM"; "CODEART"; "NAME"; "GDATE"]%string "QNT"
                      dataframe;
  picking ← select_columns
              ["HDRTAG2"; "FIRM"; "CODEART"; "NAME"; "QNT"]%string
              dataframe;
  gs ← groupby "HDRTAG2" dataframe;
  per_order ← order_sheets gs;
  mret ([("Список заказов"%string, all_orders);
         ("Сводная таблица"%string, pivot);
         ("Лист подбора"%string, picking)] ++ per_order).

(** [datetime.now().strftime("%d%m%y-%H%M%S")] at the time of the
    call. *)
Variable id_recap : string.

(** [save_orders_to_excel(dataframe, output_path)]: the name of the
    workbook written.  The directory is made when it is missing and
    [pd.ExcelWriter(path_file)] opens the file; the operating system
    may refuse either.  The [with] block closes the writer on every way
    out, and closing saves what has been written to the file the
    writer opened.  After an exception inside the block the workbook
    is thus left with the sheets written before it and the exception
    goes on; when no sheet has been written, which is when the first
    pivot raised, the saving itself raises IndexError ("At least one
    sheet must be visible") in place of that exception. *)
Definition save_orders_to_excel (dataframe : DataFrame)
    (output_path : string) (log : list event)
  : result string * list event :=
  let file_name := ("recap-YANDEX-" +:+ id_recap +:+ ".xlsx")%string in
  let path_file := path_join output_path file_name in
  match os_error (Makedirs output_path), os_error (OpenWrite path_file) with
  | Some e, _ | None, Some e => (Raise e, log)
  | None, None =>
      let log := log ++ [WorkbookSaved file_name] in
      match recap_sheets dataframe with
      | Raise e =>
          if is_ok (pivot_table ["HDRTAG2"; "HDRTAG1"]%string "QNT" dataframe)
          then (Raise e, log)
          else (Raise IndexError, log)
      | Ok _ => (Ok file_name, log)
      end
  end.

(** [df[label].unique().tolist()] *)
Definition unique_values (label : string) (df : DataFrame)
  : result (list value) :=
  match missing_label [label] df with
  | Some c => Raise (KeyError c)
  | None => Ok (remove_dups (map (fun r : row => default VNaN (r !! label))
                                 (rows df)))
  end.

(** *** The orchestrator *)

Variable int_of_str : string -> option Z.
Variable server : nat -> outcome.

(** The FTP session: how it ends and what it leaves in the local
    inbox; the formatting pass over the saved workbook; the constants
    of the missing [settings] module. *)
Variable download_from_ftp :
  gmap string file -> result unit * gmap string file.
Variable format_report_sheets : string -> result unit.
Variables CONFIRMATION_DIR CONFIRMATION_PROCESSED RECAPS_DIR : string.
Variable CAMPAIGN_ID : string.
Variable HEADERS : list (string * string).

Record world : Type := World {
  files : gmap string file;
  log : list event
}.

(** [main()] *)
Definition main (w : world) : result unit * world :=
  (* 1. *)
  match download_from_ftp (files w) with
  | (Raise e, fs) => (Raise e, World fs (log w))
  | (Ok _, fs) =>
  (* 2. *)
  match process_confirmation_files CONFIRMATION_DIR
          CONFIRMATION_PROCESSED fs with
  | (Raise e, fs) => (Raise e, World fs (log w))
  | (Ok confirmations_df, fs) =>
      (* 3. *)
      match save_orders_to_excel confirmations_df RECAPS_DIR (log w) with
      | (Raise e, lg) => (Raise e, World fs lg)
      | (Ok report_name, lg) =>
          match format_report_sheets (path_join RECAPS_DIR report_name) with
          | Raise e => (Raise e, World fs lg)
          | Ok _ =>
              (* 4. *)
              match unique_values "HDRTAG2" confirmations_df with
              | Raise e => (Raise e, World fs lg)
              | Ok orders_id =>
                  let lg := lg ++ [LabelsRequested orders_id] in
                  (* 5. *)
                  if negb (df_empty confirmations_df) then
                    match update_order_statuses int_of_str server
                            confirmations_df CAMPAIGN_ID HEADERS 3 3 lg with
                    | (Raise e, lg) => (Raise e, World fs lg)
                    | (Ok _, lg) => (Ok tt, World fs lg)
                    end
                  else (Ok tt, World fs lg)
              end
          end
      end
  end
  end.

End Run.

(** A disk on which the one confirmation of the inbox is already in
    the archive of processed files. *)
Definition nothing_new : world :=
  World {[ "inbox/1001.xls"%string := Workbook example_table;
           "inbox/notes.txt"%string := Unreadable;
           "processed/1001.xls"%string := Workbook example_table ]}
        [].

Definition nothing_new_walk (fs : gmap string file) (source_dir : string)
  : list (string * list string) :=
  [(source_dir, ["1001.xls"; "notes.txt"]%string)].

End Confirmations.

(** ** The orders export ([orders.py]) *)

Module Orders.

(** [x[0]] on a decoded JSON value. *)
Definition first_item (x : json) : result json :=
  match x with
  | JArr (item :: _) => Ok item
  | JArr [] => Raise IndexError
  | JStr (String c _) => Ok (JStr (String c ""))
  | JStr EmptyString => Raise IndexError
  | JObj _ => Raise (KeyError "0")
  | _ => Raise TypeError
  end.

(** The dict [extract_order_data] builds for one order. *)
Definition order_summary (order : json) : result json :=
  order_id ← dict_get order "id" JNull;
  items ← dict_get order "items" (JArr []);
  status ← dict_get order "status" JNull;
  substatus ← dict_get order "substatus" JNull;
  creationDate ← dict_get order "creationDate" JNull;
  delivery ← dict_get order "delivery" (JObj []);
  shipments ← dict_get delivery "shipments" (JArr []);
  shipment ← first_item shipments;
  shipmentDate ← dict_get shipment "shipmentDate" JNull;
  mret (JObj [("order_id", order_id);
              ("status", status);
              ("substatus", substatus);
              ("creationDate", creationDate);
              ("shipmentDate", shipmentDate)]%string).

(** [extract_order_data(orders)] *)
Definition extract_order_data (orders : list json) : result (list json) :=
  foldl (fun acc order =>
           result ← acc;
           summary ← order_summary order;
           mret (result ++ [summary]))
        (Ok []) orders.

(** The guarded read of the first shipment's date, as
    [export_orders_to_dbf_files] writes it:
    [shipment_data[0].get("shipmentDate") if shipment_data else None]
    under [try ... except], whose handler yields no date. *)
Definition guarded_shipment_date (shipment_data : json) : json :=
  if truthy shipment_data then
    match first_item shipment_data ≫=
            (fun shipment => dict_get shipment "shipmentDate" JNull) with
    | Ok date => date
    | Raise _ => JNull
    end
  else JNull.

(** An order as the marketplace returns it before a shipment has
    been planned: the delivery carries an empty list of shipments. *)
Definition order_without_shipments : json :=
  JObj [("id", JInt 42);
        ("status", JStr "PROCESSING");
        ("substatus", JStr "STARTED");
        ("creationDate", JStr "03-11-2025 10:15:00");
        ("delivery", JObj [("shipments", JArr [])]);
        ("items", JArr [JObj [("offerId", JStr "SKU-1");
                              ("offerName", JStr "Cream");
                              ("price", JInt 250);
                              ("count", JInt 2)]])]%string.

(** The same order once a shipment is planned. *)
Definition order_with_shipment : json :=
  JObj [("id", JInt 42);
        ("status", JStr "PROCESSING");
        ("substatus", JStr "STARTED");
        ("creationDate", JStr "03-11-2025 10:15:00");
        ("delivery",
         JObj [("shipments",
                JArr [JObj [("shipmentDate", JStr "05-11-2025")]])]);
        ("items", JArr [JObj [("offerId", JStr "SKU-1");
                              ("offerName", JStr "Cream");
                              ("price", JInt 250);
                              ("count", JInt 2)]])]%string.

(** [for item in items]; text is walked byte by byte. *)
Definition py_iter (x : json) : result (list json) :=
  match x with
  | JArr items => Ok items
  | JObj fields => Ok (map (fun kv => JStr kv.1) fields)
  | JStr s => Ok (map (fun c => JStr (String c "")) (list_ascii_of_string s))
  | _ => Raise TypeError
  end.

Section DbfExport.

(** Dates, and [datetime.strptime(text, format).date()] ([None]
    where it raises). *)
Variable date : Type.
Variable strptime : string -> string -> option date.

(** [float(s)] and [int(s)] on text, [str(x)] on a decoded value,
    and the field checks of the table library's [append]. *)
Variable float_of_str : string -> option spec_float.
Variable int_of_str : string -> option Z.
Variable str_of_json : json -> string.

(** One record of the table, in the order of the schema
    [offer_id C(50); name C(255); price N(10,2); qty N(10,0);
     post_num C(50); ord_date D; ship_date D; comment C(255);
     cust_id C(10); div_id C(10)]. *)
Record dbf_record : Type := DbfRecord {
  offer_id : json;
  name : json;
  price : spec_float;
  qty : Z;
  post_num : string;
  ord_date : option date;
  ship_date : option date;
  comment : string;
  cust_id : string;
  div_id : string
}.

Variable dbf_accepts : dbf_record -> bool.

(** Constants of the missing [settings] module, as text. *)
Variables CUSTOMER_ID_IN_SUPPLIER_CRM DIVISION_ID : string.

(** [float(x)] *)
Definition py_float (x : json) : result spec_float :=
  match x with
  | JInt n =>
      if Float64.is_finite (Float64.of_Z n) then Ok (Float64.of_Z n)
      else Raise OverflowError
  | JFloat f => Ok f
  | JBool b => Ok (Float64.of_Z (if b then 1 else 0))
  | JStr s => match float_of_str s with
              | Some f => Ok f
              | None => Raise ValueError
              end
  | _ => Raise TypeError
  end.

(** [int(x)] *)
Definition py_int (x : json) : result Z :=
  match x with
  | JInt n => Ok n
  | JFloat f =>
      match f with
      | S754_nan => Raise ValueError
      | S754_infinity _ => Raise OverflowError
      | _ => Ok (Float64.truncZ f)
      end
  | JBool b => Ok (if b then 1 else 0)
  | JStr s => match int_of_str s with
              | Some n => Ok n
              | None => Raise ValueError
              end
  | _ => Raise TypeError
  end.

(** [datetime.strptime(x, format).date()] under [try ... except]. *)
Definition parse_date (format : string) (x : json) : option date :=
  match x with
  | JStr s => strptime format s
  | _ => None
  end.

(** The local directory of table files, and what was sent out. *)
Record world : Type := World {
  files : gmap string (list dbf_record);
  log : list event
}.

(** [os.path.exists(filename)] *)
Definition path_exists (filename : string) : io world bool :=
  fun w => (Ok (bool_decide (is_Some (files w !! filename))), w).

(** [dbf.Table(filename, schema, codepage='cp866')] followed by
    [open]: a new, empty table file. *)
Definition create_table (filename : string) : io world unit :=
  fun w => (Ok tt, World (<[filename := []]> (files w)) (log w)).

(** [table.append(record)] *)
Definition table_append (filename : string) (r : dbf_record)
  : io world unit :=
  fun w =>
    if dbf_accepts r then
      (Ok tt, World (<[filename := default [] (files w !! filename) ++ [r]]>
                       (files w)) (log w))
    else (Raise DbfError, w).

(** [upload_file_to_ftp(...)]: it swallows every FTP error. *)
Definition upload_file_to_ftp (local_path_file : string) : io world unit :=
  fun w => (Ok tt, World (files w) (log w ++ [FtpUpload local_path_file])).

(** The tuple appended for one line item. *)
Definition record_of_item (order_id : json)
    (order_date shipment_date : option date) (item : json)
  : result dbf_record :=
  offer ← dict_get item "offerId" (JStr "");
  offer_name ← dict_get item "offerName" (JStr "");
  price ← dict_get item "price" (JInt 0) ≫= py_float;
  count ← dict_get item "count" (JInt 0) ≫= py_int;
  mret (DbfRecord offer offer_name price count
          (str_of_json order_id) order_date shipment_date
          (str_of_json order_id +:+ " Заказ YANDEX Frenchpharmacy")%string
          CUSTOMER_ID_IN_SUPPLIER_CRM DIVISION_ID).

(** The reads that open the loop body:
    [order.get("id")], [order.get("creationDate")],
    [order.get("delivery", {}).get("shipments", [])] and
    [order.get("items", [])]. *)
Definition read_order (order : json) : result (json * json * json * json) :=
  order_id ← dict_get order "id" JNull;
  order_date_str ← dict_get order "creationDate" JNull;
  delivery ← dict_get order "delivery" (JObj []);
  shipment_data ← dict_get delivery "shipments" (JArr []);
  items ← dict_get order "items" (JArr []);
  mret (order_id, order_date_str, shipment_data, items).

(** [os.path.join(output_dir, f"{order_id}.dbf")] *)
Definition table_path (output_dir : string) (order_id : json) : string :=
  path_join output_dir (str_of_json order_id +:+ ".dbf")%string.

(** The end of the loop body, reached when no file of that name
    exists: create the table, append one record per line item,
    close it and upload it. *)
Definition write_order_table (filename : string) (order_id : json)
    (order_date shipment_date : option date) (items : json)
  : io world unit :=
  _ ← create_table filename;
  item_list ← lift (py_iter items);
  _ ← for_each item_list
        (fun item =>
           r ← lift (record_of_item order_id order_date shipment_date item);
           table_append filename r);
  upload_file_to_ftp filename.

(** The body of [for order in orders]. *)
Definition export_order (output_dir : string) (order : json)
  : io world unit :=
  '(order_id, order_date_str, shipment_data, items) ← lift (read_order order);
  if negb (truthy items) then mret tt
  else
    let order_date := parse_date "%d-%m-%Y %H:%M:%S" order_date_str in
    let shipment_date_str := guarded_shipment_date shipment_data in
    let shipment_date :=
      if truthy shipment_date_str
      then parse_date "%d-%m-%Y" shipment_date_str
      else None in
    let filename := table_path output_dir order_id in
    present ← path_exists filename;
    if (present : bool) then mret tt
    else write_order_table filename order_id order_date shipment_date items.

(** [export_orders_to_dbf_files(orders, output_dir)] *)
Definition export_orders_to_dbf_files (orders : list json)
    (output_dir : string) : io world unit :=
  for_each orders (export_order output_dir).

End DbfExport.

Arguments World {date} files log.
Arguments files {date} w.
Arguments log {date} w.

(** What an export may do to the directory: every file that was
    there is left as it was, and what is uploaded was not there
    before. *)
Definition only_adds {date} (w w' : world date) : Prop :=
  (forall f c, files w !! f = Some c -> files w' !! f = Some c)
  /\ exists new, log w' = log w ++ map FtpUpload new
                 /\ Forall (fun f => files w !! f = None) new.

(** [str(x)] on the ids the marketplace sends. *)
Definition str_of_id (x : json) : string :=
  match x with
  | JInt n => str_of_Z n
  | JStr s => s
  | _ => "None"
  end.

(** The local directory after a first export of
    [order_with_shipment] into "dbf_orders". *)
Definition exported_once : world string :=
  World {[ "dbf_orders/42.dbf"%string :=
             [DbfRecord string (JStr "SKU-1") (JStr "Cream")
                (Float64.of_Z 250) 2 "42"
                (Some "03-11-2025 10:15:00"%string)
                (Some "05-11-2025"%string)
                "42 Заказ YANDEX Frenchpharmacy" "CRM-7" "F1"] ]}
        [FtpUpload "dbf_orders/42.dbf"].

End Orders.

(** * Further code of the repository *)

(** ** Vocabulary for the properties of the confirmations pipeline *)

(** No file of the disk is a spreadsheet [pd.read_excel] can read. *)
Definition no_workbook (fs : gmap string Confirmations.file) : Prop :=
  forall p t, fs !! p <> Some (Confirmations.Workbook t).

(** The files [os.walk] comes across, in its order, each with the
    directory it is in. *)
Definition walked_files (listing : list (string * list string))
  : list (string * string) :=
  flat_map (fun entry => map (pair entry.1) entry.2) listing.

(** A file name that [process_confirmation_files] takes for new on the
    disk [fs]: it ends in ".xls" and the archive has no file of that
    name. *)
Definition is_new (processed_dir : string) (fs : gmap string Confirmations.file)
    (file_name : string) : Prop :=
  endswith file_name ".xls" = true
  /\ fs !! path_join processed_dir file_name = None.

(** Where a walked file is, and where the archive keeps a file of its
    name. *)
Definition source_path (entry : string * string) : string :=
  path_join entry.1 entry.2.

Definition archive_path (processed_dir : string) (entry : string * string)
  : string :=
  path_join processed_dir entry.2.

(** The payload of a status update for the one order 1001. *)
Definition one_order_payload : json :=
  JObj [("orders"%string,
         JArr [Confirmations.order_entry 1001 "PROCESSING" "READY_TO_SHIP"])].

(** An event of the status update: a request or a pause. *)
Definition status_update_event (url : string) (e : event) : Prop :=
  (exists payload, e = HttpPost url payload) \/ (exists d, e = Sleep d).

(** A confirmation whose quantity cell is empty, and a disk holding it. *)
Definition sheet_with_gap : Confirmations.DataFrame :=
  Sheet ["HDRTAG2"; "QNT"]%string
        [ {[ "HDRTAG2"%string := VInt 7; "QNT"%string := VNaN ]} ].

Definition disk_with_gap : gmap string Confirmations.file :=
  {[ "inbox/7.xls"%string := Confirmations.Workbook sheet_with_gap ]}.

(** A disk whose inbox holds one damaged confirmation. *)
Definition disk_damaged : gmap string Confirmations.file :=
  {[ "inbox/9.xls"%string := Confirmations.Unreadable ]}.

Definition walk_damaged (fs : gmap string Confirmations.file)
    (source_dir : string) : list (string * list string) :=
  [(source_dir, ["9.xls"%string])].

(** What a run of the confirmations orchestrator may add to the event
    log: nothing, the saved workbook alone, or the saved workbook, then
    the request for labels, then requests and pauses of the status
    update. *)
Definition orchestrated (url : string) (evs : list event) : Prop :=
  evs = []
  \/ (exists file_name, evs = [WorkbookSaved file_name])
  \/ (exists file_name order_ids net,
         evs = WorkbookSaved file_name :: LabelsRequested order_ids :: net
         /\ NoDup order_ids
         /\ Forall (status_update_event url) net).



(** A confirmation of one line with every column the recap needs, and
    the grouping of it by order key. *)
Definition full_table : Confirmations.DataFrame :=
  Sheet ["HDRTAG2"; "HDRTAG1"; "FIRM"; "CODEART"; "CODEPST"; "NAME"; "QNT";
         "GDATE"; "REFUSED"; "PODRCD"]%string
        [ {[ "HDRTAG2"%string := VInt 1001; "HDRTAG1"%string := VStr "03.11.2025";
             "FIRM"%string := VStr "Avene"; "CODEART"%string := VStr "0042";
             "CODEPST"%string := VStr "17"; "NAME"%string := VStr "Cream";
             "QNT"%string := VInt 2; "GDATE"%string := VStr "01.01.2027";
             "REFUSED"%string := VInt 0; "PODRCD"%string := VStr "F1" ]} ].

Definition full_table_groups (label : string) (df : Confirmations.DataFrame)
  : list (value * Confirmations.DataFrame) :=
  [(VInt 1001, df)].

(** A disk whose inbox holds one new confirmation, and the walk over
    it. *)
Definition one_confirmation : Confirmations.world :=
  Confirmations.World
    {[ "inbox/1001.xls"%string := Confirmations.Workbook full_table ]} [].

Definition one_confirmation_walk (fs : gmap string Confirmations.file)
    (source_dir : string) : list (string * list string) :=
  [(source_dir, ["1001.xls"%string])].

(** ** Vocabulary for the properties of the orders export *)




(** ** The inbox download of the confirmations pipeline
    ([confirmations.py], [download_from_ftp]): which remote files are
    taken and under which name they are stored *)

Module Inbox.

(** [sep in s] for a one-character [sep]. *)
Fixpoint contains_char (sep : ascii) (s : string) : bool :=
  match s with
  | EmptyString => false
  | String c rest => Ascii.eqb c sep || contains_char sep rest
  end.

(** The two parts of [s] around its last [sep], if it has one. *)
Fixpoint rsplit_last (sep : ascii) (s : string) : option (string * string) :=
  match s with
  | EmptyString => None
  | String c rest =>
      match rsplit_last sep rest with
      | Some (before, after) => Some (String c before, after)
      | None => if Ascii.eqb c sep then Some (EmptyString, rest) else None
      end
  end.

(** [s.rsplit(sep, 1)] for a one-character [sep]. *)
Definition rsplit1 (sep : ascii) (s : string) : list string :=
  match rsplit_last sep s with
  | Some (before, after) => [before; after]
  | None => [s]
  end.

(** [s.replace(old, new)] for a non-empty [old]: the occurrences are
    taken from the left and do not overlap; [skip] counts the
    characters of a found occurrence still to pass over. *)
Fixpoint replace_from (old new : string) (skip : nat) (s : string) : string :=
  match s with
  | EmptyString => EmptyString
  | String c rest =>
      match skip with
      | S skip => replace_from old new skip rest
      | O =>
          if String.prefix old s
          then (new +:+ replace_from old new (String.length old - 1) rest)%string
          else String c (replace_from old new 0 rest)
      end
  end.

(** [s.replace(old, new)]; with an empty [old] Python puts [new]
    before every character and at the end. *)
Definition replace (old new s : string) : string :=
  if String.eqb old "" then
    (new +:+ String.concat ""
               (map (fun c => (String c "" +:+ new)%string)
                    (list_ascii_of_string s)))%string
  else replace_from old new 0 s.

(** The test of [for filename in files]:
    [filename.endswith('.xls') and '_' in filename and
     filename.rsplit('_', 1)[-1].replace('.xls', '') == division_id] *)
Definition selected (division_id filename : string) : bool :=
  endswith filename ".xls"
  && contains_char "_" filename
  && String.eqb (replace ".xls" "" (List.last (rsplit1 "_" filename) ""%string))
                division_id.

(** [order_number = filename.rsplit('_', 1)[0]] and
    [new_filename = f"{order_number}.xls"] *)
Definition order_number (filename : string) : string :=
  List.hd ""%string (rsplit1 "_" filename).

Definition new_filename (filename : string) : string :=
  (order_number filename +:+ ".xls")%string.

(** A division code or order number without underscore and dot. *)
Definition plain (s : string) : bool :=
  negb (contains_char "_" s) && negb (contains_char "." s).

End Inbox.

(** ** The shipping labels of the confirmations pipeline
    ([confirmations.py], [request_report_generation],
    [poll_report_status], [download_file], [generate_order_labels]) *)

Module Labels.

(** What a request to the reports API meets: a decoded body, a
    [requests.RequestException] (no connection, a status refused by
    [raise_for_status], a body that cannot be decoded), or an exception
    of another class. *)
Inductive reply : Type :=
| Body (data : json)
| RequestException
| OtherException (e : exn).

(** What the streamed download of the file meets once the local file
    is open: every chunk arrives and is written, the stream breaks
    after some chunks were written, or a write to the file raises an
    exception of the operating system after some chunks were written;
    or else the request fails before the file is opened (a timeout
    included). *)
Inductive download : Type :=
| Saved (content : string)
| Broken (partial : string)
| Unwritten (partial : string) (e : exn)
| Refused.

(** How the [try] block of one attempt ends: with the [return], with
    a [requests.RequestException], which is logged, or with another
    exception, which leaves the function. *)
Inductive attempt_end : Type :=
| Returned
| Caught
| Escaped (e : exn).

Inductive net_event : Type :=
| Post (url : string) (params : list (string * string)) (payload : json)
| Get (url : string)
| GetStream (url : json) (timeout : Z)
| Pause (seconds : Z).

Definition is_request (e : net_event) : bool :=
  match e with Pause _ => false | _ => true end.

Definition requests_sent (log : list net_event) : nat :=
  length (filter (fun e => is_request e = true) log).

(** The local disk and what went over the network. *)
Record world : Type := World {
  disk : gmap string string;
  log : list net_event
}.

(** [x == text] for a decoded value [x]. *)
Definition is_text (x : json) (text : string) : bool :=
  match x with JStr s => String.eqb s text | _ => false end.

Section Flow.

(** The [n]-th request of a run is answered by [api n], a file
    request by [storage n]; [str_of_json] is [str] on a decoded value,
    as an f-string renders it; [os_error] is what the operating system
    answers when asked for a directory or a file. *)
Variable api : nat -> reply.
Variable storage : nat -> download.
Variable str_of_json : json -> string.
Variable os_error : os_call -> option exn.

Definition generate_url : string :=
  "https://api.partner.market.yandex.ru/reports/documents/labels/generate".

(** [request_report_generation(order_ids, business_id, headers,
    format_pdf)]; [JNull] is [None]. *)
Definition request_report_generation (order_ids business_id : json)
    (hdrs : list (string * string)) (format_pdf : string)
  : io world json :=
  fun w =>
    let params := [("format", format_pdf)]%string in
    let payload := JObj [("businessId", business_id);
                         ("orderIds", order_ids);
                         ("sortingType", JStr "SORT_BY_GIVEN_ORDER")]%string in
    let w' := World (disk w) (log w ++ [Post generate_url params payload]) in
    match api (requests_sent (log w)) with
    | Body data =>
        (dict_get data "result" (JObj []) ≫=
           (fun result => dict_get result "reportId" JNull), w')
    | RequestException => (Ok JNull, w')
    | OtherException e => (Raise e, w')
    end.

Definition status_url (report_id : json) : string :=
  ("https://api.partner.market.yandex.ru/reports/info/"
     +:+ str_of_json report_id)%string.

(** The [for attempt in range(max_retries)] loop of
    [poll_report_status]; falling off it returns [None]. *)
Fixpoint poll_loop (attempts : list Z) (url : string) (retry_delay : Z)
    (w : world) : result json * world :=
  match attempts with
  | [] => (Ok JNull, w)
  | _ :: rest =>
      let w' := World (disk w) (log w ++ [Get url]) in
      match api (requests_sent (log w)) with
      | Body status_data =>
          match dict_get status_data "result" (JObj []) with
          | Raise e => (Raise e, w')
          | Ok result =>
              match dict_get result "status" JNull with
              | Raise e => (Raise e, w')
              | Ok status =>
                  if is_text status "DONE" then
                    (dict_get result "file" JNull, w')
                  else if is_text status "PROCESSING"
                          || is_text status "NEW"
                          || is_text status "PENDING" then
                    if retry_delay <? 0 then (Raise ValueError, w')
                    else poll_loop rest url retry_delay
                           (World (disk w') (log w' ++ [Pause retry_delay]))
                  else (Ok JNull, w')
              end
          end
      | RequestException => (Ok JNull, w')
      | OtherException e => (Raise e, w')
      end
  end.

(** [poll_report_status(report_id, headers, max_retries, retry_delay)] *)
Definition poll_report_status (report_id : json)
    (hdrs : list (string * string)) (max_retries retry_delay : Z)
  : io world json :=
  poll_loop (seqZ 0 max_retries) (status_url report_id) retry_delay.

(** The [try] block of one attempt, the [n]-th request of the run:
    the disk it leaves and how it ends.  [open(file_path, 'wb')]
    comes after the request went through; an exception it raises is no
    [requests.RequestException] and is not caught. *)
Definition try_download (file_path : string) (disk : gmap string string)
    (n : nat) : gmap string string * attempt_end :=
  match storage n with
  | Refused => (disk, Caught)
  | opened =>
      match os_error (OpenWrite file_path) with
      | Some e => (disk, Escaped e)
      | None =>
          match opened with
          | Saved content => (<[file_path := content]> disk, Returned)
          | Broken partial => (<[file_path := partial]> disk, Caught)
          | Unwritten partial e => (<[file_path := partial]> disk, Escaped e)
          | Refused => (disk, Caught)
          end
      end
  end.

(** The [for attempt in range(1, download_retries + 1)] loop of
    [download_file]. *)
Fixpoint download_loop (attempts : list Z) (file_url : json)
    (file_path : string) (timeout download_retries retry_delay : Z)
    (w : world) : result json * world :=
  match attempts with
  | [] => (Ok JNull, w)
  | attempt :: rest =>
      let lg := log w ++ [GetStream file_url timeout] in
      match try_download file_path (disk w) (requests_sent (log w)) with
      | (disk, Returned) => (Ok (JStr file_path), World disk lg)
      | (disk, Escaped e) => (Raise e, World disk lg)
      | (disk, Caught) =>
          if attempt <? download_retries then
            if retry_delay <? 0 then (Raise ValueError, World disk lg)
            else download_loop rest file_url file_path timeout
                   download_retries retry_delay
                   (World disk (lg ++ [Pause retry_delay]))
          else download_loop rest file_url file_path timeout
                 download_retries retry_delay (World disk lg)
      end
  end.

(** [download_file(file_url, save_path, report_id, timeout,
    download_retries=3, retry_delay=5)] *)
Definition download_file (file_url : json) (save_path : string)
    (report_id : json) (timeout download_retries retry_delay : Z)
  : io world json :=
  fun w =>
    let filename := ("labels_" +:+ str_of_json report_id +:+ ".pdf")%string in
    let file_path := path_join save_path filename in
    match os_error (Makedirs save_path) with
    | Some e => (Raise e, w)
    | None =>
        download_loop (seqZ 1 download_retries) file_url file_path timeout
                      download_retries retry_delay w
    end.

(** [generate_order_labels(order_ids, business_id, headers,
    format_pdf='A7', max_retries=3, retry_delay=5, save_path=None,
    download_timeout=15)] *)
Definition generate_order_labels (order_ids business_id : json)
    (hdrs : list (string * string)) (format_pdf : string)
    (max_retries retry_delay : Z) (save_path : option string)
    (download_timeout : Z) : io world json :=
  fun w =>
    match request_report_generation order_ids business_id hdrs format_pdf w
    with
    | (Raise e, w) => (Raise e, w)
    | (Ok report_id, w) =>
        if negb (truthy report_id) then (Ok JNull, w)
        else
          match poll_report_status report_id hdrs max_retries retry_delay w
          with
          | (Raise e, w) => (Raise e, w)
          | (Ok file_url, w) =>
              if negb (truthy file_url) then (Ok JNull, w)
              else
                match save_path with
                | Some dir =>
                    if negb (String.eqb dir "") then
                      download_file file_url dir report_id download_timeout
                                    3 5 w
                    else (Ok file_url, w)
                | None => (Ok file_url, w)
                end
          end
    end.

End Flow.

(** An answer that tells the report is still being made, and an answer
    that tells it is done and names its file. *)
Definition pending (r : reply) : Prop :=
  exists status_data result status,
    r = Body status_data
    /\ dict_get status_data "result" (JObj []) = Ok result
    /\ dict_get result "status" JNull = Ok status
    /\ (is_text status "PROCESSING" || is_text status "NEW"
        || is_text status "PENDING") = true.

Definition done (file : json) (r : reply) : Prop :=
  exists status_data result status,
    r = Body status_data
    /\ dict_get status_data "result" (JObj []) = Ok result
    /\ dict_get result "status" JNull = Ok status
    /\ is_text status "DONE" = true
    /\ dict_get result "file" JNull = Ok file.

(** An event of the polling: a status request or a pause. *)
Definition poll_event (url : string) (retry_delay : Z) (e : net_event)
  : Prop :=
  e = Get url \/ e = Pause retry_delay.

(** [n] rounds of the polling that met a pending report. *)
Fixpoint pending_rounds (n : nat) (url : string) (retry_delay : Z)
  : list net_event :=
  match n with
  | O => []
  | S n => Get url :: Pause retry_delay :: pending_rounds n url retry_delay
  end.

(** An event of the download: a file request or a pause. *)
Definition stream_event (file_url : json) (timeout retry_delay : Z)
    (e : net_event) : Prop :=
  e = GetStream file_url timeout \/ e = Pause retry_delay.

(** A download that breaks once and then goes through. *)
Definition storage_second (n : nat) : download :=
  match n with
  | 0%nat => Broken "%PDF"
  | _ => Saved "%PDF-1.4 labels"
  end.

(** Replies of a report that is pending twice and then done. *)
Definition api_done_third (n : nat) : reply :=
  match n with
  | 0%nat | 1%nat =>
      Body (JObj [("result", JObj [("status", JStr "PROCESSING")])]%string)
  | _ =>
      Body (JObj [("result",
                   JObj [("status", JStr "DONE");
                         ("file", JStr "https://files/labels.pdf")])]%string)
  end.

(** A run of the whole flow: the report 77 is accepted, pending at the
    first poll and done at the second, and its file is delivered. *)
Definition api_report_77 (n : nat) : reply :=
  match n with
  | 0%nat => Body (JObj [("result", JObj [("reportId", JInt 77)])]%string)
  | 1%nat =>
      Body (JObj [("result", JObj [("status", JStr "PENDING")])]%string)
  | _ =>
      Body (JObj [("result",
                   JObj [("status", JStr "DONE");
                         ("file", JStr "https://files/labels.pdf")])]%string)
  end.

Definition storage_delivers (n : nat) : download := Saved "%PDF-1.4 labels".

End Labels.

(** ** The listing of orders ([orders.py], [get_orders] and [main]) *)

Module Fetch.

(** What [requests.get] followed by [response.json()] meets: a response
    with its status code and, where the body decodes, the decoded body;
    or an exception raised by the request. *)
Inductive reply : Type :=
| Response (status_code : Z) (body : option json)
| Exception.

(** A request: the address and the query parameters. *)
Definition request : Type := string * list (string * json).

(** [params[key] = value] *)
Fixpoint dict_set (fields : list (string * json)) (key : string)
    (value : json) : list (string * json) :=
  match fields with
  | [] => [(key, value)]
  | (k, v) :: rest =>
      if String.eqb k key then (k, value) :: rest
      else (k, v) :: dict_set rest key value
  end.

(** [sep.join(items)]: every item has to be text. *)
Fixpoint str_join (sep : string) (items : list json) : result string :=
  match items with
  | [] => Ok ""%string
  | [JStr s] => Ok s
  | JStr s :: rest =>
      joined ← str_join sep rest; mret (s +:+ sep +:+ joined)%string
  | _ => Raise TypeError
  end.

(** The parameters [get_orders] builds before its loop. *)
Definition build_params (limit page_token offer_ids : json)
  : result (list (string * json)) :=
  let params := [("limit", limit);
                 ("fake", JStr "false");
                 ("status", JStr "PROCESSING");
                 ("substatus", JStr "STARTED")]%string in
  let params := if truthy page_token
                then dict_set params "page_token" page_token
                else params in
  if truthy offer_ids then
    match offer_ids with
    | JArr items =>
        joined ← str_join "," items;
        mret (dict_set params "offerId" (JStr joined))
    | _ => Ok (dict_set params "offerId" offer_ids)
    end
  else Ok params.

Section Listing.

(** The [n]-th request of a run, carrying [params], is answered by
    [server n params]. *)
Variable server : nat -> list (string * json) -> reply.

(** The [while True] loop of [get_orders]: [fuel] bounds its
    iterations, and [None] is a run the fuel does not suffice for.
    Every exception inside the loop body ends the loop. *)
Fixpoint orders_loop (fuel : nat) (url : string)
    (params : list (string * json)) (all_orders : list json)
    (sent : list request) : option (list json * list request) :=
  match fuel with
  | O => None
  | S fuel =>
      let sent' := sent ++ [(url, params)] in
      match server (length sent) params with
      | Exception => Some (all_orders, sent')
      | Response status_code body =>
          if negb (status_code =? 200) then Some (all_orders, sent')
          else
            match body with
            | None => Some (all_orders, sent')
            | Some data =>
                match dict_get data "orders" (JArr [])
                        ≫= Orders.py_iter with
                | Raise _ => Some (all_orders, sent')
                | Ok orders =>
                    let all_orders := all_orders ++ orders in
                    match dict_get data "paging" (JObj []) ≫=
                            (fun paging =>
                               dict_get paging "nextPageToken" JNull) with
                    | Raise _ => Some (all_orders, sent')
                    | Ok next_page_token =>
                        if negb (truthy next_page_token)
                        then Some (all_orders, sent')
                        else orders_loop fuel url
                               (dict_set params "page_token" next_page_token)
                               all_orders sent'
                    end
                end
            end
      end
  end.

Definition orders_url (campaign_id : string) : string :=
  ("https://api.partner.market.yandex.ru/campaigns/"
     +:+ campaign_id +:+ "/orders")%string.

(** [get_orders(campaign_id, api_token, limit=20, page_token=None,
    offer_ids=None)] *)
Definition get_orders (fuel : nat) (campaign_id api_token : string)
    (limit page_token offer_ids : json) (sent : list request)
  : result (option (list json * list request)) :=
  params ← build_params limit page_token offer_ids;
  mret (orders_loop fuel (orders_url campaign_id) params [] sent).

End Listing.

(** The orders a page carries and the token of the page after it. *)
Definition page (data : json) (orders : list json) (next_page_token : json)
  : Prop :=
  (dict_get data "orders" (JArr []) ≫= Orders.py_iter) = Ok orders
  /\ (dict_get data "paging" (JObj []) ≫=
        (fun paging => dict_get paging "nextPageToken" JNull))
     = Ok next_page_token.

(** The server answers the requests from the [k]-th on, the first of
    them carrying [params], with the pages of [script], each naming a
    next page. *)
Fixpoint serves (server : nat -> list (string * json) -> reply) (k : nat)
    (params : list (string * json)) (script : list (list json * json))
  : Prop :=
  match script with
  | [] => True
  | (orders, next_page_token) :: rest =>
      (exists data,
          server k params = Response 200 (Some data)
          /\ page data orders next_page_token)
      /\ truthy next_page_token = true
      /\ serves server (S k) (dict_set params "page_token" next_page_token)
                rest
  end.

(** The parameters after the pages of [script], and the requests that
    fetched them. *)
Fixpoint params_after (params : list (string * json))
    (script : list (list json * json)) : list (string * json) :=
  match script with
  | [] => params
  | (_, next_page_token) :: rest =>
      params_after (dict_set params "page_token" next_page_token) rest
  end.

Fixpoint requests_for (url : string) (params : list (string * json))
    (script : list (list json * json)) : list request :=
  match script with
  | [] => []
  | (_, next_page_token) :: rest =>
      (url, params)
        :: requests_for url (dict_set params "page_token" next_page_token)
                        rest
  end.

(** A reply that ends the listing without a page: an exception, a
    status other than 200, or a body that does not decode. *)
Definition fails (r : reply) : Prop :=
  match r with
  | Exception => True
  | Response status_code body => status_code <> 200 \/ body = None
  end.

(** A server with two pages of orders; and one that fails after the
    first. *)
Definition two_pages (n : nat) (params : list (string * json)) : reply :=
  match n with
  | 0%nat =>
      Response 200
        (Some (JObj [("orders", JArr [JObj [("id", JInt 1)];
                                      JObj [("id", JInt 2)]]);
                     ("paging", JObj [("nextPageToken", JStr "p2")])]%string))
  | _ =>
      Response 200
        (Some (JObj [("orders", JArr [JObj [("id", JInt 3)]]);
                     ("paging", JObj [])]%string))
  end.

Definition second_page_fails (n : nat) (params : list (string * json))
  : reply :=
  match n with
  | 0%nat => two_pages 0 params
  | _ => Response 503 None
  end.

Section OrdersMain.

Variable date : Type.
Variable strptime : string -> string -> option date.
Variable float_of_str : string -> option spec_float.
Variable int_of_str : string -> option Z.
Variable str_of_json : json -> string.
Variable dbf_accepts : Orders.dbf_record date -> bool.
Variable server : nat -> list (string * json) -> reply.

(** Constants of the missing [settings] module. *)
Variables CAMPAIGN_ID API_TOKEN ORDERS_DIR : string.
Variables CUSTOMER_ID_IN_SUPPLIER_CRM DIVISION_ID : string.

(** [main()] of [orders.py]: list the orders, summarise them, export
    them.  [None] is a listing the fuel does not suffice for. *)
Definition main (fuel : nat) (w : Orders.world date) (sent : list request)
  : option (result unit * Orders.world date * list request) :=
  match get_orders server fuel CAMPAIGN_ID API_TOKEN (JInt 20) JNull JNull
                   sent with
  | Raise e => Some (Raise e, w, sent)
  | Ok None => None
  | Ok (Some (orders, sent)) =>
      match Orders.extract_order_data orders with
      | Raise e => Some (Raise e, w, sent)
      | Ok data_orders =>
          let '(r, w) :=
            Orders.export_orders_to_dbf_files date strptime float_of_str
              int_of_str str_of_json dbf_accepts CUSTOMER_ID_IN_SUPPLIER_CRM
              DIVISION_ID orders ORDERS_DIR w in
          Some (r, w, sent)
      end
  end.

End OrdersMain.

(** A server whose one page lists an order with a planned shipment and
    an order without. *)
Definition one_page_mixed (n : nat) (params : list (string * json)) : reply :=
  Response 200
    (Some (JObj [("orders", JArr [Orders.order_with_shipment;
                                  Orders.order_without_shipments])]%string)).

End Fetch.

(** ** The FTP session of the inbox download
    ([confirmations.py], [download_from_ftp]) *)

Module Session.

Inductive command : Type :=
| Connect                      (* ftplib.FTP(server) *)
| Login                        (* ftp.login *)
| Cwd (directory : string)     (* ftp.cwd *)
| Nlst                         (* ftp.nlst *)
| Retr (filename : string)     (* open(local_path, 'wb') and ftp.retrbinary *)
| Dele (filename : string)     (* ftp.delete *)
| Quit.                        (* leaving [with ftplib.FTP(...)] *)

Inductive ftp_event : Type :=
| Cmd (c : command)
| Wait (seconds : Z).          (* time.sleep *)

#[global] Instance command_eq_dec : EqDecision command.
Proof. solve_decision. Defined.

#[global] Instance ftp_event_eq_dec : EqDecision ftp_event.
Proof. solve_decision. Defined.

(** How [login] and [cwd] end: accepted, refused with
    [ftplib.error_perm], or broken by another error of
    [ftplib.all_errors]. *)
Inductive status : Type := Accepted | Refused | Broke.

(** How a retrieval ends: the whole file is written, or an error of
    [ftplib.all_errors] stops it, [leftover] being what the local file
    holds then ([None] when it could not even be created). *)
Inductive transfer : Type :=
| Complete (content : Confirmations.file)
| Incomplete (leftover : option Confirmations.file).

(** The server and the line, as the session meets them: the answer to
    a command depends on how many events went before it.  [quit] tells
    whether leaving the [with] block goes without an exception (an
    [OSError] or [EOFError] of QUIT is swallowed by ftplib, every other
    error of it is raised). *)
Record server : Type := Server {
  connect : nat -> bool;
  login : nat -> status;
  cwd : nat -> status;
  nlst : nat -> option (list string);
  retr : nat -> string -> transfer;
  dele : nat -> string -> bool;
  quit : nat -> bool
}.

(** The local disk and the session's events. *)
Record world : Type := World {
  disk : gmap string Confirmations.file;
  log : list ftp_event
}.

Definition say (c : command) (w : world) : world :=
  World (disk w) (log w ++ [Cmd c]).

(** [time.sleep(seconds)] *)
Definition sleep (seconds : Z) (w : world) : result unit * world :=
  if seconds <? 0 then (Raise ValueError, w)
  else (Ok tt, World (disk w) (log w ++ [Wait seconds])).

(** How one pass through the body of [while attempt < max_retries]
    ends: with [return], at the loop head again, or with an exception
    that leaves the function. *)
Inductive outcome : Type :=
| Returned
| Again (attempt : Z)
| Raised (e : exn).

Definition remote_directory : string :=
  "/OZON_orders/Frenchpharmacy/Confirmations".

(** The clause [except (ftplib.all_errors, ConnectionError)], which
    guards the retrieval and the whole session alike.
    [ftplib.all_errors] is itself a tuple of classes, so the clause
    names a tuple inside a tuple; Python matches an exception against
    the classes of a tuple and raises TypeError when the tuple holds
    anything else.  Whatever exception reaches the clause, its handler
    (the log line and the sleep) does not run: TypeError leaves the
    [try] statement. *)
Definition nested_clause : exn := TypeError.

Section Download.

Variable srv : server.
Variable os_error : os_call -> option exn.
Variables local_directory division_id : string.
Variables max_retries retry_delay : Z.

(** The [for filename in files] loop.  A retrieval that does not
    complete, or a deletion the server refuses, raises inside the inner
    [try], whose clause is the nested one. *)
Fixpoint fetch_files (files : list string) (w : world)
  : result unit * world :=
  match files with
  | [] => (Ok tt, w)
  | filename :: rest =>
      if Inbox.selected division_id filename then
        let local_path :=
          path_join local_directory (Inbox.new_filename filename) in
        let w1 := say (Retr filename) w in
        match retr srv (length (log w)) filename with
        | Complete content =>
            let w2 := World (<[local_path := content]> (disk w1)) (log w1) in
            let w3 := say (Dele filename) w2 in
            if dele srv (length (log w2)) filename then fetch_files rest w3
            else (Raise nested_clause, w3)
        | Incomplete leftover =>
            let w2 := World (match leftover with
                             | Some content =>
                                 <[local_path := content]> (disk w1)
                             | None => disk w1
                             end) (log w1) in
            (Raise nested_clause, w2)
        end
      else fetch_files rest w
  end.

(** An exception that reaches the clause of the outer [try]: the pass
    ends with TypeError, and neither the sleep nor [attempt += 1]
    follows. *)
Definition connection_error (w : world) : outcome * world :=
  (Raised nested_clause, w).

(** The handlers [except ftplib.error_perm] of [login] and [cwd]:
    sleep, [attempt += 1], [continue]; leaving the [with] block on the
    way sends QUIT.  The ValueError of a negative delay, and an error
    raised by QUIT, go to the clause of the outer [try]. *)
Definition refused (attempt : Z) (w : world) : outcome * world :=
  match sleep retry_delay w with
  | (Raise _, w) => connection_error (say Quit w)
  | (Ok _, w) =>
      let w' := say Quit w in
      if quit srv (length (log w)) then (Again (attempt + 1), w')
      else connection_error w'
  end.

(** One pass through the body of the [while] loop. *)
Definition session (attempt : Z) (w : world) : outcome * world :=
  let w1 := say Connect w in
  if negb (connect srv (length (log w))) then connection_error w1
  else
    let w2 := say Login w1 in
    match login srv (length (log w1)) with
    | Refused => refused attempt w2
    | Broke => connection_error (say Quit w2)
    | Accepted =>
        let w3 := say (Cwd remote_directory) w2 in
        match cwd srv (length (log w2)) with
        | Refused => refused attempt w3
        | Broke => connection_error (say Quit w3)
        | Accepted =>
            match os_error (Makedirs local_directory) with
            | Some _ => connection_error (say Quit w3)
            | None =>
                let w4 := say Nlst w3 in
                match nlst srv (length (log w3)) with
                | None => connection_error (say Quit w4)
                | Some files =>
                    match fetch_files files w4 with
                    | (Raise _, w5) => connection_error (say Quit w5)
                    | (Ok _, w5) =>
                        let w6 := say Quit w5 in
                        if quit srv (length (log w5)) then (Returned, w6)
                        else connection_error w6
                    end
                end
            end
        end
    end.

(** The [while attempt < max_retries] loop; [fuel] bounds its passes
    and [None] is a run it does not suffice for. *)
Fixpoint sessions (fuel : nat) (attempt : Z) (w : world)
  : option (result unit * world) :=
  if attempt <? max_retries then
    match fuel with
    | O => None
    | S fuel =>
        match session attempt w with
        | (Returned, w) => Some (Ok tt, w)
        | (Raised e, w) => Some (Raise e, w)
        | (Again attempt, w) => sessions fuel attempt w
        end
    end
  else Some (Ok tt, w).

(** [download_from_ftp(server, username, password, local_directory,
    division_id, max_retries=3, retry_delay=5)]; every pass that comes
    back to the loop head has added to [attempt], so [max_retries]
    passes are enough. *)
Definition download_from_ftp (w : world) : option (result unit * world) :=
  sessions (Z.to_nat max_retries) 0 w.

End Download.

(** In a stretch of events whose first is the [n]-th of the run, every
    deletion directly follows the complete retrieval of the same file. *)
Inductive careful (srv : server) : nat -> list ftp_event -> Prop :=
| careful_nil n : careful srv n []
| careful_other n e rest :
    (forall filename, e <> Cmd (Dele filename)) ->
    careful srv (S n) rest ->
    careful srv n (e :: rest)
| careful_pair n filename content rest :
    retr srv n filename = Complete content ->
    careful srv (S (S n)) rest ->
    careful srv n (Cmd (Retr filename) :: Cmd (Dele filename) :: rest).

(** The files a stretch of events retrieves or deletes. *)
Definition touched (evs : list ftp_event) : list string :=
  flat_map (fun e => match e with
                     | Cmd (Retr filename) | Cmd (Dele filename) => [filename]
                     | _ => []
                     end) evs.

Definition connections (evs : list ftp_event) : nat :=
  length (filter (fun e => e = Cmd Connect) evs).

(** From [w] to [w'] the session went orderly: the events added delete
    nothing but what was just retrieved in full, retrieve and delete
    only files taken for the division, change local files only where
    such a file is stored, and open [k] connections. *)
Definition orderly (srv : server) (local_directory division_id : string)
    (k : nat) (w w' : world) : Prop :=
  exists evs,
    log w' = log w ++ evs
    /\ careful srv (length (log w)) evs
    /\ Forall (fun filename => Inbox.selected division_id filename = true)
              (touched evs)
    /\ (forall p,
          (forall filename, filename ∈ touched evs ->
             p <> path_join local_directory (Inbox.new_filename filename)) ->
          disk w' !! p = disk w !! p)
    /\ connections evs = k.

(** A pass of the loop returns, comes back with a larger [attempt], or
    raises the TypeError of the nested clause. *)
Definition progresses (attempt : Z) (o : outcome) : Prop :=
  match o with
  | Returned => True
  | Again attempt' => attempt < attempt'
  | Raised e => e = TypeError
  end.

End Session.

(** ** The archive copy ([utils.py], [copy_file_with_timestamp]) *)

Module Archive.

(** [os.path.basename(p)] *)
Definition basename (p : string) : string :=
  match Inbox.rsplit_last "/" p with
  | Some (_, name) => name
  | None => p
  end.

Fixpoint all_dots (s : string) : bool :=
  match s with
  | EmptyString => true
  | String c rest => Ascii.eqb c "." && all_dots rest
  end.

(** [os.path.splitext(name)] for a name without separator: the
    extension starts at the last dot, unless nothing but dots goes
    before that dot. *)
Definition splitext (name : string) : string * string :=
  match Inbox.rsplit_last "." name with
  | Some (stem, tail) =>
      if all_dots stem then (name, ""%string) else (stem, String "." tail)
  | None => (name, ""%string)
  end.

Section Copy.

(** What the operating system answers when asked to make the
    directory, to open the two files, to read and to write. *)
Variable os_error : os_call -> option exn.

(** [while chunk := src.read(4096): dest.write(chunk)], [n] passes
    having gone before: [rest] is what of the source is still to read,
    [written] what the destination holds.  The loop ends with what the
    destination holds and, when a read or a write was refused, the
    exception raised.  [fuel] bounds the passes; [None] is a copy it
    does not suffice for. *)
Fixpoint copy_loop (fuel : nat) (src_file dest_file : string) (n : nat)
    (rest written : list Byte.byte)
  : option (list Byte.byte * option exn) :=
  match fuel with
  | O => None
  | S fuel =>
      match os_error (ReadChunk src_file n) with
      | Some e => Some (written, Some e)
      | None =>
          match take 4096 rest with
          | [] => Some (written, None)
          | chunk =>
              match os_error (WriteChunk dest_file n) with
              | Some e => Some (written, Some e)
              | None =>
                  copy_loop fuel src_file dest_file (S n) (drop 4096 rest)
                            (written ++ chunk)
              end
          end
      end
  end.

(** [copy_file_with_timestamp(src_file, dest_folder)]; [timestamp] is
    [datetime.datetime.now().strftime("%d-%m-%Y_%H-%M-%S")].  The
    folder is made when it is missing; the destination is opened for
    writing, and so emptied, before the first chunk of the source is
    read; an exception met while copying is logged and raised again.
    A pass that reads a chunk shortens what is left, so one pass more
    than the source has bytes is enough. *)
Definition copy_file_with_timestamp (timestamp src_file dest_folder : string)
    (disk : gmap string (list Byte.byte))
  : option (result string * gmap string (list Byte.byte)) :=
  match disk !! src_file with
  | None => Some (Raise (OSError "FileNotFoundError"), disk)
  | Some _ =>
      match os_error (Makedirs dest_folder) with
      | Some e => Some (Raise e, disk)
      | None =>
          let '(base_name, ext) := splitext (basename src_file) in
          let new_file_name :=
            (base_name +:+ "_" +:+ timestamp +:+ ext)%string in
          let dest_file := path_join dest_folder new_file_name in
          match os_error (OpenRead src_file) with
          | Some e => Some (Raise e, disk)
          | None =>
              match os_error (OpenWrite dest_file) with
              | Some e => Some (Raise e, disk)
              | None =>
                  let disk := <[dest_file := []]> disk in
                  let content := default [] (disk !! src_file) in
                  match copy_loop (S (length content)) src_file dest_file 0
                                  content [] with
                  | Some (written, None) =>
                      Some (Ok dest_file, <[dest_file := written]> disk)
                  | Some (written, Some e) =>
                      Some (Raise e, <[dest_file := written]> disk)
                  | None => None
                  end
              end
          end
      end
  end.

End Copy.

(** The name the copy is stored under. *)
Definition dest_file_of (timestamp src_file dest_folder : string) : string :=
  path_join dest_folder
    ((splitext (basename src_file)).1 +:+ "_" +:+ timestamp
       +:+ (splitext (basename src_file)).2)%string.

End Archive.

(** ** The download of the supplier's file ([utils.py],
    [download_from_ftp]); the FTP session is met as in the inbox
    download *)

Module Supplier.
Import Session.

Section Download.

Variable srv : server.
Variable os_error : os_call -> option exn.
Variables filename local_directory : string.
Variables max_retries retry_delay : Z.
Variable remote_directory : string.

(** The [for file_attempt in range(max_retries)] loop; [true] is the
    [return] after a complete retrieval, [false] the end of the loop.
    A retrieval that does not complete raises inside the [try], whose
    clause is the nested one: the first pass returns or raises, and
    there is no second. *)
Definition retrieve (attempts : list Z) (w : world) : result bool * world :=
  match attempts with
  | [] => (Ok false, w)
  | _ :: _ =>
      let local_path := path_join local_directory filename in
      let w1 := say (Retr filename) w in
      match retr srv (length (log w)) filename with
      | Complete content =>
          (Ok true, World (<[local_path := content]> (disk w1)) (log w1))
      | Incomplete leftover =>
          (Raise nested_clause,
           World (match leftover with
                  | Some content => <[local_path := content]> (disk w1)
                  | None => disk w1
                  end) (log w1))
      end
  end.

(** A [return] inside the [with] block: QUIT is sent on the way out,
    and an error raised there goes to the clause of the outer [try]. *)
Definition leave (w : world) : outcome * world :=
  let w' := say Quit w in
  if quit srv (length (log w)) then (Returned, w')
  else connection_error w'.

(** One pass through the body of [while attempt < max_retries]. *)
Definition session (attempt : Z) (w : world) : outcome * world :=
  let w1 := say Connect w in
  if negb (connect srv (length (log w))) then connection_error w1
  else
    let w2 := say Login w1 in
    match login srv (length (log w1)) with
    | Refused => refused srv retry_delay attempt w2
    | Broke => connection_error (say Quit w2)
    | Accepted =>
        let w3 := say (Cwd remote_directory) w2 in
        match cwd srv (length (log w2)) with
        | Refused => refused srv retry_delay attempt w3
        | Broke => connection_error (say Quit w3)
        | Accepted =>
            match os_error (Makedirs local_directory) with
            | Some _ => connection_error (say Quit w3)
            | None =>
                let w4 := say Nlst w3 in
                match nlst srv (length (log w3)) with
                | None => connection_error (say Quit w4)
                | Some files =>
                    if negb (bool_decide (filename ∈ files)) then leave w4
                    else
                      match retrieve (seqZ 0 max_retries) w4 with
                      | (Raise _, w5) => connection_error (say Quit w5)
                      | (Ok _, w5) => leave w5
                      end
                end
            end
        end
    end.

(** The [while attempt < max_retries] loop. *)
Fixpoint sessions (fuel : nat) (attempt : Z) (w : world)
  : option (result unit * world) :=
  if attempt <? max_retries then
    match fuel with
    | O => None
    | S fuel =>
        match session attempt w with
        | (Returned, w) => Some (Ok tt, w)
        | (Raised e, w) => Some (Raise e, w)
        | (Again attempt, w) => sessions fuel attempt w
        end
    end
  else Some (Ok tt, w).

(** [download_from_ftp(server, username, password, filename,
    local_directory, max_retries=3, retry_delay=5,
    remote_directory="/")] *)
Definition download_from_ftp (w : world) : option (result unit * world) :=
  sessions (Z.to_nat max_retries) 0 w.

End Download.

(** An event that deletes nothing and retrieves no file but
    [filename]. *)
Definition harmless (filename : string) (e : ftp_event) : Prop :=
  match e with
  | Cmd (Dele _) => False
  | Cmd (Retr f) => f = filename
  | _ => True
  end.

Definition retrievals (evs : list ftp_event) : nat :=
  length (touched evs).

(** No listing of the server names [filename]. *)
Definition never_listed (srv : server) (filename : string) : Prop :=
  forall n files, nlst srv n = Some files -> filename ∉ files.

(** From [w] to [w'] only harmless events were added, no local file
    but the one at [local_path] changed, [k] connections were opened,
    and when the server never lists the file nothing was retrieved and
    the disk is as it was. *)
Definition steady (srv : server) (filename local_path : string) (k : nat)
    (w w' : world) : Prop :=
  exists evs,
    log w' = log w ++ evs
    /\ Forall (harmless filename) evs
    /\ (forall p, p <> local_path -> disk w' !! p = disk w !! p)
    /\ connections evs = k
    /\ (retrievals evs = 0%nat -> disk w' = disk w)
    /\ (never_listed srv filename -> retrievals evs = 0%nat).

End Supplier.

(** * Properties *)

(** ** Generic facts about the error monad and about list filters *)

Lemma result_bind_ok {A B} (f : A -> result B) (a : A) :
  (Ok a ≫= f) = f a.
Proof. reflexivity. Qed.

Lemma filter_none {A} (P : A -> Prop) `{forall x, Decision (P x)} (l : list A) :
  (forall x, x ∈ l -> ~ P x) -> filter P l = [].
Proof.
  intros Hno. destruct (filter P l) as [|y rest] eqn:E; [done|].
  assert (Hy : y ∈ filter P l) by (rewrite E; left).
  apply list_elem_of_filter in Hy as [HP Hy]. by destruct (Hno y Hy).
Qed.

Lemma filter_key_unique {A K} `{EqDecision K} (f : A -> K) (l : list A) (x : A) :
  NoDup (map f l) -> x ∈ l ->
  filter (fun y => f y = f x) l = [x].
Proof.
  induction l as [|y l IH]; intros Hnd Hin.
  - inversion Hin.
  - apply NoDup_cons in Hnd as [Hy Hnd].
    apply elem_of_cons in Hin as [->|Hin].
    + rewrite filter_cons_True by done. f_equal.
      apply filter_none. intros z Hz Heq.
      apply Hy. rewrite <- Heq. apply list_elem_of_fmap. by exists z.
    + rewrite filter_cons_False; [by apply IH|].
      intros Heq. apply Hy. rewrite Heq. apply list_elem_of_fmap. by exists x.
Qed.

Lemma filter_key_at_most_one {A K} `{EqDecision K} (f : A -> K) (l : list A) (k : K) :
  NoDup (map f l) ->
  filter (fun y => f y = k) l = [] \/ exists x, filter (fun y => f y = k) l = [x].
Proof.
  intros Hnd.
  destruct (filter (fun y => f y = k) l) as [|x rest] eqn:E; [by left|right].
  assert (Hx : x ∈ filter (fun y => f y = k) l) by (rewrite E; left).
  apply list_elem_of_filter in Hx as [Hk Hx]. subst k.
  rewrite (filter_key_unique f l x Hnd Hx) in E. by exists x.
Qed.

(** ** The price pipeline *)

Section PricesFacts.
Import Float64 Prices.

Lemma ceil_finite (x : float) :
  is_finite x = true -> ceil x = Ok (ceilZ x).
Proof. by destruct x. Qed.

(** With distinct marks in the markup sheet the join keeps one row
    per product, priced with [markup_for]. *)
Lemma merge_left_unique_marks (ps : list product_row) (ms : list markup_row) :
  NoDup (map m_Mark ms) ->
  fill_markup (merge_left ps ms)
  = map (fun p => MergedRow p (markup_for ms (Mark p))) ps.
Proof.
  intros Hnd. unfold merge_left.
  induction ps as [|p ps IH]; [done|].
  cbn [flat_map]. unfold fill_markup in *. rewrite map_app, IH.
  cbn [map]. unfold markup_for.
  destruct (filter_key_at_most_one m_Mark ms (Mark p) Hnd) as [E|[m E]];
    rewrite E; reflexivity.
Qed.

Lemma build_offers_all_ok (my : float) (g : merged_row -> offer)
    (df : list merged_row) (acc : list offer) :
  Forall (fun j => offer_of_row (Ok tt) my j = Ok (g j)) df ->
  foldl (fun acc j =>
           offers ← acc; o ← offer_of_row (Ok tt) my j; mret (offers ++ [o]))
        (Ok acc) df
  = Ok (acc ++ map g df).
Proof.
  revert acc. induction df as [|j df IH]; intros acc Hall.
  - cbn. by rewrite app_nil_r.
  - apply Forall_cons in Hall as [Hj Hall].
    cbn [foldl map]. rewrite result_bind_ok, Hj, result_bind_ok.
    change (mret (acc ++ [g j])) with (Ok (acc ++ [g j])).
    rewrite IH by done. by rewrite <- app_assoc.
Qed.

Lemma lookup_markup_yandex_found (ms : list markup_row) (m : markup_row) :
  NoDup (map m_Mark ms) -> m ∈ ms ->
  m_Mark m = Some "YANDEX_old_price"%string ->
  lookup_markup_yandex ms = Ok (MarkUP m).
Proof.
  intros Hnd Hin Hm. unfold lookup_markup_yandex.
  rewrite <- Hm. by rewrite (filter_key_unique m_Mark ms m Hnd Hin).
Qed.

Lemma lookup_markup_yandex_missing (ms : list markup_row) :
  (forall m, m ∈ ms -> m_Mark m <> Some "YANDEX_old_price"%string) ->
  lookup_markup_yandex ms = Raise IndexError.
Proof.
  intros Hno. unfold lookup_markup_yandex.
  rewrite filter_none; [done|]. intros m Hin. by apply Hno.
Qed.

(** A label that only one sheet bears keeps its name in the merged
    frame. *)
Lemma getitem_own_label (label : string) (df_products : sheet product_row)
    (df_markups : sheet markup_row) :
  (forall c, c ∈ columns df_products -> c ∈ columns df_markups ->
             c = "Mark"%string) ->
  label <> "Mark"%string ->
  getitem label df_products df_markups = Ok tt.
Proof.
  intros Hshared Hlabel. unfold getitem, renamed.
  case_bool_decide as H1; [|done].
  case_bool_decide as H2; [|done].
  by destruct (Hlabel (Hshared label H1 H2)).
Qed.

End PricesFacts.

(** C1 (as amended).  Take two loaded sheets that carry their required
    columns and share no label but "Mark", whose "Mark" columns pandas
    agrees to join (one of the sheets has no rows, or both columns hold
    a text, or both hold empty cells only), whose "MarkUP" column is a
    float column (a cell is empty or no whole number) and whose Price
    and MarkUP cells are empty or numbers between -2^63 and 2^63.
    Without a markup row of mark "YANDEX_old_price" the operation
    raises IndexError (the spec's NotFound).  With such a row [m],
    marks that are pairwise distinct in the markup sheet, a SKU column
    loaded as text or as integers, and every product's NewPrice and
    DiscountPrice a finite number, the operation returns, for the
    product rows in order, one offer each with
    price = ceil(Price × MarkUP) and
    discountBase = ceil(Price × MarkUP × MarkUP(m)), the MarkUP of a
    product being the one joined on "Mark", or 1.8 where that is
    missing. *)
Theorem prices_prepare_offers_data_one_offer_per_product
    (df_products : sheet Prices.product_row)
    (df_markups : sheet Prices.markup_row) :
  issubset Prices.required_columns_1 (columns df_products) = true ->
  issubset Prices.required_columns_2 (columns df_markups) = true ->
  (forall label, label ∈ columns df_products -> label ∈ columns df_markups ->
                 label = "Mark"%string) ->
  Prices.merge_keys_agree (rows df_products) (rows df_markups) = true ->
  Float64.float64_column (map Prices.MarkUP (rows df_markups)) = true ->
  Forall (fun p => Float64.is_nan (Prices.Price p) = true
                   \/ Float64.fits_int64 (Prices.Price p) = true)
         (rows df_products) ->
  ((forall m, m ∈ rows df_markups ->
              Prices.m_Mark m <> Some "YANDEX_old_price"%string) ->
   Prices.prepare_offers_data df_products df_markups = Raise IndexError)
  /\
  (forall m,
      m ∈ rows df_markups ->
      Prices.m_Mark m = Some "YANDEX_old_price"%string ->
      NoDup (map Prices.m_Mark (rows df_markups)) ->
      object_or_int64 (map Prices.Artikul (rows df_products)) = true ->
      Forall (fun p =>
                Float64.is_finite
                  (Prices.product_NewPrice (rows df_markups) p) = true
                /\ Float64.is_finite
                     (Prices.product_DiscountPrice (rows df_markups)
                        (Prices.MarkUP m) p) = true)
             (rows df_products) ->
      Prices.prepare_offers_data df_products df_markups
      = Ok (map (Prices.product_offer (rows df_markups) (Prices.MarkUP m))
                (rows df_products))).
Proof.
  intros H1 H2 Hshared Hkeys _ _.
  unfold Prices.prepare_offers_data, Prices.merge.
  rewrite H1, H2, Hkeys. cbn [negb orb]. rewrite result_bind_ok.
  rewrite !(getitem_own_label _ _ _ Hshared) by done.
  rewrite !result_bind_ok.
  split.
  - intros Hno. by rewrite lookup_markup_yandex_missing.
  - intros m Hin Hm Hnd _ Hfin.
    rewrite (lookup_markup_yandex_found _ m Hnd Hin Hm), result_bind_ok.
    rewrite (merge_left_unique_marks _ _ Hnd).
    unfold Prices.build_offers.
    rewrite (build_offers_all_ok (Prices.MarkUP m)
               (fun j => Prices.product_offer (rows df_markups) (Prices.MarkUP m)
                           (Prices.left_row j))).
    + cbn [app]. by rewrite map_map.
    + apply Forall_map. eapply Forall_impl; [exact Hfin|].
      intros p [Hp Hd]. unfold Prices.offer_of_row. rewrite result_bind_ok.
      change (Prices.NewPrice _) with (Prices.product_NewPrice (rows df_markups) p).
      change (Prices.DiscountPrice _ _)
        with (Prices.product_DiscountPrice (rows df_markups) (Prices.MarkUP m) p).
      by rewrite (ceil_finite _ Hp), result_bind_ok, (ceil_finite _ Hd).
Qed.

(** The worked example of the spec: Price 100, mark "A" marked up by
    2.0, "YANDEX_old_price" at 0.9, gives price 200 and discountBase
    180. *)
Lemma prices_prepare_offers_data_example :
  Prices.prepare_offers_data Prices.example_products Prices.example_markups
  = Ok [Prices.Offer "SKU-1" 200 180].
Proof.
  assert (Hshared : forall label,
             label ∈ columns Prices.example_products ->
             label ∈ columns Prices.example_markups ->
             label = "Mark"%string).
  { intros label Hp Hm. cbn in Hp, Hm.
    apply elem_of_cons in Hm as [->|Hm]; [done|].
    apply elem_of_cons in Hm as [->|Hm]; [|inversion Hm].
    repeat (apply elem_of_cons in Hp as [Hp|Hp]; [discriminate Hp|]).
    inversion Hp. }
  assert (Hprices :
            Forall (fun p => Float64.is_nan (Prices.Price p) = true
                             \/ Float64.fits_int64 (Prices.Price p) = true)
                   (rows Prices.example_products)).
  { apply Forall_cons; split; [by right|constructor]. }
  etrans.
  - apply (proj2 (prices_prepare_offers_data_one_offer_per_product
                    Prices.example_products Prices.example_markups
                    eq_refl eq_refl Hshared eq_refl eq_refl Hprices)
             (Prices.MarkupRow (Some "YANDEX_old_price"%string)
                               (Float64.of_decimal 9 1))).
    + right; left.
    + reflexivity.
    + compute_done.
    + reflexivity.
    + repeat constructor.
  - reflexivity.
Defined.

(** C1 as stated fails: with both sheets well-formed and the
    "YANDEX_old_price" row present, a product whose Price cell is empty
    makes the operation raise ValueError instead of yielding offers. *)
Lemma prices_prepare_offers_data_empty_price_raises :
  issubset Prices.required_columns_1 (columns Prices.products_empty_price) = true
  /\ issubset Prices.required_columns_2 (columns Prices.example_markups) = true
  /\ Prices.merge_keys_agree (rows Prices.products_empty_price)
                             (rows Prices.example_markups) = true
  /\ Prices.lookup_markup_yandex (rows Prices.example_markups)
     = Ok (Float64.of_decimal 9 1)
  /\ Prices.prepare_offers_data Prices.products_empty_price
                                Prices.example_markups
     = Raise ValueError
  /\ ~ (exists offers,
           Prices.prepare_offers_data Prices.products_empty_price
                                      Prices.example_markups = Ok offers).
Proof.
  repeat split; try reflexivity.
  intros [offers H]. vm_compute in H. discriminate.
Qed.

(** Why the amended C1 asks for sheets that share no label but "Mark"
    and for "Mark" columns of one kind: a "MarkUP" column in the
    product sheet is renamed by the join, so that [df["MarkUP"]] raises
    KeyError, and pandas refuses to join a "Mark" column of empty cells
    with one of texts. *)
Lemma prices_shared_markup_label_raises :
  Prices.prepare_offers_data Prices.products_with_markup_column
                             Prices.example_markups
  = Raise (KeyError "MarkUP").
Proof. reflexivity. Qed.

Lemma prices_empty_mark_column_raises :
  Prices.prepare_offers_data Prices.products_without_marks
                             Prices.example_markups
  = Raise ValueError.
Proof. reflexivity. Qed.

(** Why the amended C1 asks for distinct marks and finite products: a
    mark listed twice in the markup sheet gives the product two offers,
    and an empty MarkUP in the "YANDEX_old_price" row is not replaced
    by 1.8, so that the discount price is NaN and [math.ceil] raises. *)
Lemma prices_duplicate_mark_two_offers :
  Prices.prepare_offers_data Prices.example_products
                             Prices.markups_duplicate_mark
  = Ok [Prices.Offer "SKU-1" 200 180; Prices.Offer "SKU-1" 300 270].
Proof. reflexivity. Qed.

(** The default markup is the double nearest to 1.8, and a product
    whose mark has no markup row is priced with it: 100 becomes 180,
    with a discount base of 162. *)
Lemma prices_default_markup_value :
  Prices.default_markup = S754_finite false 8106479329266893 (-52).
Proof. reflexivity. Qed.

Lemma prices_missing_markup_defaults :
  Prices.prepare_offers_data Prices.products_unknown_mark
                             Prices.example_markups
  = Ok [Prices.Offer "4601" 180 162].
Proof. reflexivity. Qed.

Lemma prices_missing_yandex_row_raises :
  Prices.prepare_offers_data Prices.example_products
                             Prices.markups_without_yandex
  = Raise IndexError.
Proof. reflexivity. Qed.

Lemma prices_empty_yandex_markup_raises :
  Prices.prepare_offers_data Prices.example_products
                             Prices.markups_empty_yandex
  = Raise ValueError.
Proof. reflexivity. Qed.

(** ** Batching *)

Section Chunks.
Local Open Scope nat_scope.
Context {A : Type}.
Implicit Types (l : list A) (b k m : nat).

Lemma chunk_count_covers l b :
  0 < b -> length l <= (length l + b - 1) / b * b.
Proof.
  intros Hb. pose proof (Nat.div_mod (length l + b - 1) b ltac:(lia)) as Hd.
  pose proof (Nat.mod_upper_bound (length l + b - 1) b ltac:(lia)). nia.
Qed.

Lemma chunk_start_inside l b k :
  0 < b -> k < (length l + b - 1) / b -> k * b < length l.
Proof.
  intros Hb Hk.
  pose proof (Nat.div_mod (length l + b - 1) b ltac:(lia)) as Hd.
  assert (S k * b <= (length l + b - 1) / b * b) by (apply Nat.mul_le_mono_r; lia).
  nia.
Qed.

Lemma concat_chunks_take l b m :
  concat (map (fun k => take b (drop (k * b) l)) (seq 0 m)) = take (m * b) l.
Proof.
  induction m as [|m IH]; [done|].
  rewrite seq_S, map_app, concat_app, IH. cbn [map concat Nat.add].
  rewrite app_nil_r, take_take_drop. f_equal. lia.
Qed.

Lemma concat_consecutive_chunks l b :
  0 < b -> concat (consecutive_chunks b l) = l.
Proof.
  intros Hb. unfold consecutive_chunks.
  rewrite concat_chunks_take. apply take_ge. by apply chunk_count_covers.
Qed.

Lemma consecutive_chunks_lengths l b :
  map length (consecutive_chunks b l)
  = map (fun k => min b (length l - k * b)) (seq 0 ((length l + b - 1) / b)).
Proof.
  unfold consecutive_chunks. rewrite map_map. apply map_ext.
  intros k. by rewrite length_take, length_drop.
Qed.

Lemma consecutive_chunks_bounded l b :
  0 < b -> Forall (fun c => 1 <= length c <= b) (consecutive_chunks b l).
Proof.
  intros Hb. unfold consecutive_chunks. apply Forall_map, Forall_forall.
  intros k Hk%list_elem_of_In%in_seq. cbn.
  rewrite length_take, length_drop.
  pose proof (chunk_start_inside l b k Hb ltac:(lia)). lia.
Qed.

Lemma py_slice_chunk l b k :
  0 < b -> k * b < length l ->
  py_slice l (0 + Z.of_nat k * Z.of_nat b)%Z
           (0 + Z.of_nat k * Z.of_nat b + Z.of_nat b)%Z
  = take b (drop (k * b) l).
Proof.
  intros Hb Hk. unfold py_slice, slice_bound.
  destruct (Z.ltb_spec (0 + Z.of_nat k * Z.of_nat b) 0); [lia|].
  destruct (Z.ltb_spec (0 + Z.of_nat k * Z.of_nat b + Z.of_nat b) 0); [lia|].
  replace (Z.to_nat (Z.min (0 + Z.of_nat k * Z.of_nat b) (Z.of_nat (length l))))
    with (k * b) by lia.
  destruct (Nat.le_gt_cases (k * b + b) (length l)) as [Hle|Hgt].
  - f_equal. lia.
  - rewrite !take_ge; [done| |]; rewrite length_drop; lia.
Qed.

Lemma batch_slices_chunks l b :
  0 < b -> batch_slices l (Z.of_nat b) = Ok (consecutive_chunks b l).
Proof.
  intros Hb. unfold batch_slices, py_range, range_length.
  destruct (Z.eqb_spec (Z.of_nat b) 0); [lia|].
  destruct (Z.ltb_spec 0 (Z.of_nat b)); [|lia].
  rewrite result_bind_ok. unfold consecutive_chunks.
  change (mret ?x) with (Ok x). f_equal.
  replace (Z.to_nat (Z.max 0 ((Z.of_nat (length l) - 0 + Z.of_nat b - 1)
                                / Z.of_nat b)))
    with ((length l + b - 1) / b).
  2:{ replace (Z.of_nat (length l) - 0 + Z.of_nat b - 1)%Z
        with (Z.of_nat (length l + b - 1)) by lia.
      rewrite <- Nat2Z.inj_div. lia. }
  rewrite map_map. apply map_ext_in. intros k Hk%in_seq.
  apply py_slice_chunk; [done|]. apply chunk_start_inside; [done|lia].
Qed.

End Chunks.

Lemma stocks_prepare_batches_300 (offers : list Stocks.offer) :
  Stocks.prepare_batches offers 300
  = Ok (map Stocks.batch_json (consecutive_chunks 300 offers)).
Proof.
  unfold Stocks.prepare_batches.
  pose proof (batch_slices_chunks offers 300 ltac:(lia)) as Hslices.
  change (Z.of_nat 300) with 300 in Hslices. by rewrite Hslices.
Qed.

Lemma prices_prepare_batches_300 (offers : list Prices.offer) :
  Prices.prepare_batches offers 300
  = Ok (map Prices.batch_json (consecutive_chunks 300 offers)).
Proof.
  unfold Prices.prepare_batches.
  pose proof (batch_slices_chunks offers 300 ltac:(lia)) as Hslices.
  change (Z.of_nat 300) with 300 in Hslices. by rewrite Hslices.
Qed.

(** C9.  With the default batch size of 300 both [prepare_batches] cut
    the offers into consecutive chunks that keep their order, none
    empty and none longer than 300, and wrap each chunk in the request
    shape of its endpoint: for stocks one "skus" entry per offer with a
    single "count" item, for prices one "offers" entry per offer with
    "value", "currencyId" "RUR" and "discountBase".  650 offers make
    three batches of 300, 300 and 50 offers. *)
Theorem prepare_batches_chunks_of_300 :
  (forall offers : list Stocks.offer,
      Stocks.prepare_batches offers 300
      = Ok (map (fun chunk =>
                   JObj [("skus"%string,
                          JArr (map (fun o =>
                                       JObj [("sku"%string, JStr (Stocks.offerId o));
                                             ("items"%string,
                                              JArr [JObj [("count"%string,
                                                           JInt (Stocks.qua o))]])])
                                    chunk))])
                (consecutive_chunks 300 offers)))
  /\ (forall offers : list Prices.offer,
         Prices.prepare_batches offers 300
         = Ok (map (fun chunk =>
                      JObj [("offers"%string,
                             JArr (map (fun o =>
                                          JObj [("offerId"%string,
                                                 JStr (Prices.offerId o));
                                                ("price"%string,
                                                 JObj [("value"%string,
                                                        JInt (Prices.price o));
                                                       ("currencyId"%string,
                                                        JStr "RUR");
                                                       ("discountBase"%string,
                                                        JInt (Prices.discountBase o))])])
                                       chunk))])
                   (consecutive_chunks 300 offers)))
  /\ (forall (A : Type) (offers : list A),
         concat (consecutive_chunks 300 offers) = offers
         /\ Forall (fun chunk => (1 <= length chunk <= 300)%nat)
                   (consecutive_chunks 300 offers)
         /\ (length offers = 650%nat ->
             map length (consecutive_chunks 300 offers)
             = [300; 300; 50]%nat)).
Proof.
  split; [|split].
  - intros offers. apply stocks_prepare_batches_300.
  - intros offers. apply prices_prepare_batches_300.
  - intros A offers. split; [|split].
    + apply concat_consecutive_chunks. lia.
    + apply consecutive_chunks_bounded. lia.
    + intros Hlen. rewrite consecutive_chunks_lengths, Hlen. reflexivity.
Qed.

(** 650 stock offers, batched: three requests of 300, 300 and 50
    entries. *)
Lemma prepare_batches_650_offers :
  map length (consecutive_chunks 300 (replicate 650 (Stocks.Offer "SKU" 1)))
  = [300; 300; 50]%nat.
Proof.
  apply (proj2 (proj2 (proj2 (proj2 prepare_batches_chunks_of_300)
                         Stocks.offer (replicate 650 (Stocks.Offer "SKU" 1))))).
  apply length_replicate.
Defined.

(** ** The stock pipeline *)

Section StocksFacts.
Import Float64 Stocks.

Variable cast_out_of_range : float -> Z.

Lemma astype_int_cell (x : float) :
  is_nan x = true \/ fits_int64 x = true ->
  astype_int cast_out_of_range (fillna (of_Z 0) x) = Ok (quantity_of x).
Proof.
  intros [Hx|Hx].
  - by destruct x.
  - unfold astype_int, int64_cast.
    assert (Hfill : fillna (of_Z 0) x = x) by (by destruct x).
    rewrite Hfill, Hx.
    unfold fits_int64 in Hx. apply andb_prop in Hx as [Hx _].
    apply andb_prop in Hx as [Hx _]. rewrite Hx. by destruct x.
Qed.

Lemma astype_int_cells_ok (cells : list float) :
  Forall (fun x => is_nan x = true \/ fits_int64 x = true) cells ->
  astype_int_cells cast_out_of_range (map (fillna (of_Z 0)) cells)
  = Ok (map quantity_of cells).
Proof.
  induction 1 as [|x cells Hx _ IH]; [done|].
  cbn [astype_int_cells map].
  by rewrite (astype_int_cell x Hx), result_bind_ok, IH.
Qed.

Lemma fits_int64_bounds (x : float) :
  fits_int64 x = true -> - 2 ^ 63 <= truncZ x < 2 ^ 63.
Proof.
  unfold fits_int64. intros H.
  apply andb_prop in H as [H Hhi]. apply andb_prop in H as [_ Hlo].
  apply Z.leb_le in Hlo. apply Z.ltb_lt in Hhi. lia.
Qed.

Lemma no_uint_in_range (cells : list float) :
  Forall (fun x => is_nan x = true \/ fits_int64 x = true) cells ->
  existsb is_uint cells = false.
Proof.
  induction 1 as [|x cells Hx _ IH]; [done|].
  cbn [existsb]. rewrite IH, orb_false_r.
  destruct Hx as [Hx|Hx].
  - by destruct x.
  - apply fits_int64_bounds in Hx. unfold is_uint.
    destruct (is_whole x); [|done]. cbn [andb].
    destruct (Z.leb_spec (2 ^ 63) (truncZ x)); [lia|done].
Qed.

Lemma no_float_truncated (cells : list float) :
  existsb is_float cells = false ->
  map truncZ cells = map quantity_of cells.
Proof.
  induction cells as [|x cells IH]; [done|].
  cbn [existsb map]. intros H. apply orb_false_elim in H as [Hx H].
  rewrite (IH H). f_equal. by destruct x.
Qed.

Lemma astype_int_column_ok (cells : list float) :
  Forall (fun x => is_nan x = true \/ fits_int64 x = true) cells ->
  astype_int_column cast_out_of_range cells = Ok (map quantity_of cells).
Proof.
  intros Hcells. unfold astype_int_column, column_dtype.
  rewrite (no_uint_in_range cells Hcells). cbn [andb].
  destruct (existsb is_float cells) eqn:Hfloat.
  - by apply astype_int_cells_ok.
  - by rewrite (no_float_truncated cells Hfloat).
Qed.

Lemma append_loop_is_map (l : list (string * Z)) (acc : list offer) :
  foldl (fun offers '(offer_id, count) => offers ++ [Offer offer_id count])
        acc l
  = acc ++ map (fun p => Offer p.1 p.2) l.
Proof.
  revert acc. induction l as [|[offer_id count] l IH]; intros acc; cbn.
  - by rewrite app_nil_r.
  - by rewrite IH, <- app_assoc.
Qed.

End StocksFacts.

(** C8 (as amended).  A quantity sheet that lacks "Артикул" or
    "Количество" makes [prepare_offers_data] raise ValueError (the
    spec's InvalidInput).  A sheet with both columns, whose SKU column
    has no empty cell and is loaded as text or as integers, and whose
    quantity cells are each empty or a number between -2^63 and 2^63,
    yields one record per row, in order, holding the text of the SKU
    and the quantity truncated to an integer, which is 0 for an empty
    cell; this whatever the processor does with a number it cannot
    convert. *)
Theorem stocks_prepare_offers_data_records
    (cast_out_of_range : Float64.float -> Z) (df : sheet Stocks.stock_row) :
  (issubset Stocks.required_columns (columns df) = false ->
   Stocks.prepare_offers_data cast_out_of_range df = Raise ValueError)
  /\ (issubset Stocks.required_columns (columns df) = true ->
      object_or_int64 (map Stocks.Artikul (rows df)) = true ->
      Forall (fun r => Stocks.Artikul r <> SkuEmpty) (rows df) ->
      Forall (fun r => Float64.is_nan (Stocks.Kolichestvo r) = true
                       \/ Float64.fits_int64 (Stocks.Kolichestvo r) = true)
             (rows df) ->
      Stocks.prepare_offers_data cast_out_of_range df
      = Ok (map (fun r => Stocks.Offer (py_str (Stocks.Artikul r))
                                       (Stocks.quantity_of (Stocks.Kolichestvo r)))
                (rows df))
      /\ forall r, r ∈ rows df ->
                   Float64.is_nan (Stocks.Kolichestvo r) = true ->
                   Stocks.quantity_of (Stocks.Kolichestvo r) = 0).
Proof.
  unfold Stocks.prepare_offers_data. split.
  - by intros ->.
  - intros -> _ _ Hcells. cbn [negb]. split.
    + rewrite astype_int_column_ok by (by apply Forall_map).
      rewrite result_bind_ok. change (mret ?x) with (Ok x). f_equal.
      rewrite append_loop_is_map. cbn [app].
      clear Hcells. induction (rows df) as [|r rs IH]; [done|].
      cbn. f_equal. apply IH.
    + intros r _ Hnan. by destruct (Stocks.Kolichestvo r).
Qed.

(** A sheet with a quantity of 5, an empty quantity cell and a quantity
    of 2.5: the records carry 5, 0 and 2. *)
Lemma stocks_prepare_offers_data_example :
  Stocks.prepare_offers_data (fun _ => 0) Stocks.example_sheet
  = Ok [Stocks.Offer "SKU-1" 5; Stocks.Offer "4601" 0; Stocks.Offer "SKU-3" 2].
Proof.
  assert (Hcells :
            Forall (fun r => Float64.is_nan (Stocks.Kolichestvo r) = true
                             \/ Float64.fits_int64 (Stocks.Kolichestvo r) = true)
                   (rows Stocks.example_sheet)).
  { repeat (apply Forall_cons; split; [first [by left|by right]|]).
    constructor. }
  assert (Hskus : Forall (fun r => Stocks.Artikul r <> SkuEmpty)
                         (rows Stocks.example_sheet)).
  { repeat (apply Forall_cons; split; [discriminate|]). constructor. }
  etrans.
  - apply (proj1 (proj2 (stocks_prepare_offers_data_records
                           (fun _ => 0) Stocks.example_sheet)
                    eq_refl eq_refl Hskus Hcells)).
  - reflexivity.
Defined.

(** C8 as stated fails: a sheet with both columns whose quantity
    column holds ten to the nineteenth beside an empty cell keeps its
    Python integers, and [astype(int)] raises OverflowError instead of
    yielding records, whatever the processor. *)
Lemma stocks_prepare_offers_data_huge_quantity_raises :
  issubset Stocks.required_columns (columns Stocks.sheet_huge_quantity) = true
  /\ object_or_int64 (map Stocks.Artikul (rows Stocks.sheet_huge_quantity))
     = true
  /\ Forall (fun r => Stocks.Artikul r <> SkuEmpty)
            (rows Stocks.sheet_huge_quantity)
  /\ (forall cast_out_of_range,
        Stocks.prepare_offers_data cast_out_of_range Stocks.sheet_huge_quantity
        = Raise OverflowError)
  /\ ~ (exists cast_out_of_range offers,
           Stocks.prepare_offers_data cast_out_of_range
                                      Stocks.sheet_huge_quantity = Ok offers).
Proof.
  assert (H : forall cast_out_of_range,
             Stocks.prepare_offers_data cast_out_of_range
                                        Stocks.sheet_huge_quantity
             = Raise OverflowError) by (intros; vm_compute; reflexivity).
  split; [done|]. split; [done|].
  split; [repeat (apply Forall_cons; split; [discriminate|]); constructor|].
  split; [exact H|].
  intros (cast_out_of_range & offers & Hok). rewrite H in Hok. discriminate.
Qed.

(** ** The stand-in transport *)

Section StandInFacts.
Import StandIn.

Lemma send_request_with_retries_first_attempt
    (url : string) (hdrs : list (string * string)) (body : json)
    (max_attempts : Z) (log : list event) :
  0 < max_attempts ->
  send_request_with_retries url hdrs body max_attempts log
  = (Some fake_body, log).
Proof.
  intros Hpos. unfold send_request_with_retries.
  destruct (Z.to_nat max_attempts) as [|fuel] eqn:E; [lia|].
  cbn [retry_loop]. destruct (Z.ltb_spec 0 max_attempts); [|lia].
  reflexivity.
Qed.

Lemma send_batches_all_ok (url : string) (hdrs : list (string * string))
    (batches : list json) (responses : list (option json)) (log : list event) :
  foldl (fun '(responses, log) batch =>
           let '(response, log) :=
             send_request_with_retries url hdrs batch 3 log in
           (responses ++ [response], log ++ [Sleep 1]))
        (responses, log) batches
  = (responses ++ map (fun _ => Some fake_body) batches,
     log ++ map (fun _ => Sleep 1) batches).
Proof.
  revert responses log. induction batches as [|b bs IH]; intros responses log.
  - cbn. by rewrite !app_nil_r.
  - cbn [foldl map].
    rewrite (send_request_with_retries_first_attempt url hdrs b 3 log) by lia.
    rewrite IH. by rewrite <- !app_assoc.
Qed.

End StandInFacts.

(** C2.  [send_request_with_retries] of both pipelines, allowed at
    least one attempt, returns the fixed body {"message": "Тестовый
    ответ"} of the stand-in response at once and leaves the event log
    as it was: no request is sent and nothing is waited for.  Hence
    [update_stocks] and [update_prices] return that body once per batch,
    never [None], and add to the log only the one-second pause after
    each batch. *)
Theorem stand_in_transport_always_succeeds
    (url : string) (hdrs : list (string * string)) (body : json)
    (max_attempts : Z) (log : list event) :
  0 < max_attempts ->
  Stocks.send_request_with_retries url hdrs body max_attempts log
  = (Some StandIn.fake_body, log)
  /\ Prices.send_request_with_retries url hdrs body max_attempts log
     = (Some StandIn.fake_body, log)
  /\ (forall api_token campaign_id (offers : list Stocks.offer),
         exists batches,
           Stocks.prepare_batches offers 300 = Ok batches
           /\ Stocks.update_stocks api_token campaign_id offers log
              = (Ok (map (fun _ => Some StandIn.fake_body) batches),
                 log ++ map (fun _ => Sleep 1) batches))
  /\ (forall api_token business_id (offers : list Prices.offer),
         exists batches,
           Prices.prepare_batches offers 300 = Ok batches
           /\ Prices.update_prices api_token business_id offers log
              = (Ok (map (fun _ => Some StandIn.fake_body) batches),
                 log ++ map (fun _ => Sleep 1) batches)).
Proof.
  intros Hpos. repeat split.
  - by apply send_request_with_retries_first_attempt.
  - by apply send_request_with_retries_first_attempt.
  - intros api_token campaign_id offers.
    eexists. split; [apply stocks_prepare_batches_300|].
    unfold Stocks.update_stocks. rewrite stocks_prepare_batches_300.
    unfold StandIn.send_batches. by rewrite send_batches_all_ok.
  - intros api_token business_id offers.
    eexists. split; [apply prices_prepare_batches_300|].
    unfold Prices.update_prices. rewrite prices_prepare_batches_300.
    unfold StandIn.send_batches. by rewrite send_batches_all_ok.
Qed.

(** A stock batch and a price batch handed to the transport with the
    default three attempts. *)
Lemma stand_in_transport_default_attempts :
  Stocks.send_request_with_retries "https://api.partner.market.yandex.ru"
    [] (Stocks.batch_json [Stocks.Offer "SKU" 1]) 3 []
  = (Some StandIn.fake_body, []).
Proof.
  apply (stand_in_transport_always_succeeds
           "https://api.partner.market.yandex.ru" []
           (Stocks.batch_json [Stocks.Offer "SKU" 1]) 3 []).
  reflexivity.
Defined.

(** ** The confirmations pipeline: deduplication *)

Section KeepFirst.
Import Confirmations.
Context {K : Type} `{EqDecision K} (key : row -> K).
Implicit Types (seen : list K) (rs : list row) (r : row).

Lemma keep_first_sublist seen rs : sublist (keep_first key seen rs) rs.
Proof.
  revert seen. induction rs as [|r rs IH]; intros seen; cbn.
  - constructor.
  - case_decide; [apply sublist_cons|apply sublist_skip]; apply IH.
Qed.

Lemma keep_first_not_seen seen rs r :
  r ∈ keep_first key seen rs -> key r ∉ seen.
Proof.
  revert seen. induction rs as [|r0 rs IH]; intros seen; cbn.
  - by intros ?%elem_of_nil.
  - case_decide as Hseen.
    + apply IH.
    + intros [->|Hin]%elem_of_cons; [done|].
      apply IH in Hin. intros Hseen'. apply Hin. by right.
Qed.

Lemma keep_first_NoDup seen rs : NoDup (map key (keep_first key seen rs)).
Proof.
  revert seen. induction rs as [|r rs IH]; intros seen; cbn.
  - constructor.
  - case_decide; [apply IH|].
    cbn. apply NoDup_cons. split; [|apply IH].
    intros (r' & Heq & Hin%keep_first_not_seen)%list_elem_of_fmap.
    rewrite Heq in Hin. set_solver.
Qed.

Lemma keep_first_complete seen rs r :
  r ∈ rs -> key r ∉ seen -> key r ∈ map key (keep_first key seen rs).
Proof.
  revert seen. induction rs as [|r0 rs IH]; intros seen; cbn.
  - by intros ?%elem_of_nil.
  - intros [->|Hin]%elem_of_cons Hns.
    + rewrite decide_False by done. cbn. left.
    + case_decide as Hseen; [by apply IH|].
      cbn. destruct (decide (key r = key r0)) as [->|Hne]; [left|].
      right. apply IH; [done|]. by intros [?|?]%elem_of_cons.
Qed.

Lemma keep_first_first_occurrence seen rs r :
  r ∈ keep_first key seen rs ->
  exists pre post, rs = pre ++ r :: post /\ key r ∉ map key pre.
Proof.
  revert seen. induction rs as [|r0 rs IH]; intros seen; cbn.
  - by intros ?%elem_of_nil.
  - case_decide as Hseen.
    + intros Hin. pose proof (keep_first_not_seen _ _ _ Hin) as Hns.
      destruct (IH _ Hin) as (pre & post & -> & Hpre).
      exists (r0 :: pre), post. split; [done|]. cbn.
      intros [Heq|?]%elem_of_cons; [|done]. by rewrite Heq in Hns.
    + intros [->|Hin]%elem_of_cons.
      * exists [], rs. split; [done|]. cbn. apply not_elem_of_nil.
      * pose proof (keep_first_not_seen _ _ _ Hin) as Hns.
        destruct (IH _ Hin) as (pre & post & -> & Hpre).
        exists (r0 :: pre), post. split; [done|]. cbn.
        intros [Heq|?]%elem_of_cons; [|done]. set_solver.
Qed.

End KeepFirst.

Section ConfirmationsFacts.
Import Confirmations.

(** The subset ["HDRTAG2"] compares rows by their order key. *)
Lemma keep_first_order_key (seen : list (option value)) (rs : list row) :
  keep_first (fun r => map (fun c => r !! c) ["HDRTAG2"%string])
             (map (fun k => [k]) seen) rs
  = keep_first order_key seen rs.
Proof.
  revert seen. induction rs as [|r rs IH]; intros seen; cbn; [done|].
  destruct (decide (order_key r ∈ seen)) as [Hin|Hnin].
  - rewrite decide_True; [apply IH|].
    apply list_elem_of_fmap. by exists (order_key r).
  - rewrite decide_False.
    + f_equal. apply (IH (order_key r :: seen)).
    + intros (k & [= Hk] & Hin)%list_elem_of_fmap. apply Hnin.
      unfold order_key. by rewrite Hk.
Qed.

Lemma extract_unique_orders_present (df : DataFrame) :
  "HDRTAG2"%string ∈ columns df ->
  extract_unique_orders df
  = Some (Sheet (columns df) (keep_first order_key [] (rows df))).
Proof.
  intros Hcol. unfold extract_unique_orders, drop_duplicates.
  rewrite filter_cons_False by (intros Hn; by apply Hn).
  rewrite filter_nil. by rewrite <- (keep_first_order_key []).
Qed.

Lemma extract_unique_orders_absent (df : DataFrame) :
  "HDRTAG2"%string ∉ columns df -> extract_unique_orders df = None.
Proof.
  intros Hcol. unfold extract_unique_orders, drop_duplicates.
  by rewrite filter_cons_True.
Qed.

End ConfirmationsFacts.

(** C3.  On a merged table that has the column "HDRTAG2",
    [extract_unique_orders] keeps the labels and returns a sub-sequence
    of the rows, in their original order, in which no order key occurs
    twice, every key of the table occurs, and each row kept is the
    first row of the table bearing its key.  A table whose keys are
    1001, 1001, 1002 is cut down to its first and third rows. *)
Theorem extract_unique_orders_keeps_first (df : Confirmations.DataFrame) :
  "HDRTAG2"%string ∈ columns df ->
  exists unique,
    Confirmations.extract_unique_orders df = Some unique
    /\ columns unique = columns df
    /\ sublist (rows unique) (rows df)
    /\ NoDup (map Confirmations.order_key (rows unique))
    /\ (forall r, r ∈ rows df ->
                  Confirmations.order_key r
                  ∈ map Confirmations.order_key (rows unique))
    /\ (forall r, r ∈ rows unique ->
                  exists pre post,
                    rows df = pre ++ r :: post
                    /\ Confirmations.order_key r
                       ∉ map Confirmations.order_key pre)
    /\ (forall r1 r2 r3,
           rows df = [r1; r2; r3] ->
           Confirmations.order_key r1 = Some (VInt 1001) ->
           Confirmations.order_key r2 = Some (VInt 1001) ->
           Confirmations.order_key r3 = Some (VInt 1002) ->
           rows unique = [r1; r3]).
Proof.
  intros Hcol. eexists. split; [by apply extract_unique_orders_present|].
  cbn [columns rows]. repeat split.
  - apply keep_first_sublist.
  - apply keep_first_NoDup.
  - intros r Hr. apply keep_first_complete; [done|apply not_elem_of_nil].
  - intros r Hr. by eapply keep_first_first_occurrence.
  - intros r1 r2 r3 -> H1 H2 H3. cbn.
    rewrite decide_False by apply not_elem_of_nil.
    rewrite decide_True by (rewrite H1, H2; left).
    rewrite decide_False; [done|].
    rewrite H1, H3. by intros [=]%list_elem_of_singleton.
Qed.

(** The table of three line items keeps the first item of order 1001
    and the item of order 1002. *)
Lemma extract_unique_orders_example :
  Confirmations.extract_unique_orders Confirmations.example_table
  = Some (Sheet ["HDRTAG2"; "NAME"; "QNT"]%string
            [ {[ "HDRTAG2"%string := VInt 1001; "NAME"%string := VStr "A";
                 "QNT"%string := VInt 1 ]};
              {[ "HDRTAG2"%string := VInt 1002; "NAME"%string := VStr "C";
                 "QNT"%string := VInt 3 ]} ]).
Proof.
  destruct (extract_unique_orders_keeps_first Confirmations.example_table)
    as (unique & Hunique & Hcols & _ & _ & _ & _ & Hrows).
  - left.
  - rewrite Hunique. destruct unique as [cols rs]. cbn in Hcols, Hrows.
    rewrite Hcols. by rewrite (Hrows _ _ _ eq_refl eq_refl eq_refl eq_refl).
Defined.

(** ** The confirmations pipeline: the status update *)

Section StatusUpdateFacts.
Import Confirmations.
Variable int_of_str : string -> option Z.
Variable server : nat -> outcome.

Lemma count_requests_app (l1 l2 : list event) :
  count_requests (l1 ++ l2) = (count_requests l1 + count_requests l2)%nat.
Proof. unfold count_requests. by rewrite filter_app, length_app. Qed.

Lemma count_requests_post (log : list event) (url : string) (body : json) :
  count_requests (log ++ [HttpPost url body]) = S (count_requests log).
Proof.
  rewrite count_requests_app.
  change (count_requests [HttpPost url body]) with 1%nat. lia.
Qed.

Lemma count_requests_post_sleep (log : list event) (url : string)
    (body : json) (d : Z) :
  count_requests ((log ++ [HttpPost url body]) ++ [Sleep d])
  = S (count_requests log).
Proof.
  rewrite count_requests_app, count_requests_post.
  change (count_requests [Sleep d]) with 0%nat. lia.
Qed.

(** The orders of the payload are the entries of the ids sent, which
    are the keys that convert to an integer. *)
Lemma build_order_payload_loop (new_status new_substatus : string)
    (rs : list row) (orders : list json) (ids_sent : list Z) :
  foldl (fun '(orders, ids_sent) (r : row) =>
           match r !! "HDRTAG2"%string ≫= py_int int_of_str with
           | Some order_id =>
               (orders ++ [order_entry order_id new_status new_substatus],
                ids_sent ++ [order_id])
           | None => (orders, ids_sent)
           end)
        (orders, ids_sent) rs
  = (orders ++ map (fun order_id =>
                      order_entry order_id new_status new_substatus)
                   (omap (fun r : row => order_key r ≫= py_int int_of_str) rs),
     ids_sent ++ omap (fun r : row => order_key r ≫= py_int int_of_str) rs).
Proof.
  revert orders ids_sent.
  induction rs as [|r rs IH]; intros orders ids_sent; cbn [foldl omap].
  - cbn. by rewrite !app_nil_r.
  - unfold order_key in *.
    destruct (r !! "HDRTAG2"%string ≫= py_int int_of_str)
      as [order_id|] eqn:E; cbn [list_omap]; rewrite E, IH.
    + cbn [map]. by rewrite <- !app_assoc.
    + done.
Qed.

Lemma build_order_payload_ids (df : DataFrame)
    (new_status new_substatus : string) :
  build_order_payload int_of_str df new_status new_substatus
  = (map (fun order_id => order_entry order_id new_status new_substatus)
         (omap (fun r : row => order_key r ≫= py_int int_of_str) (rows df)),
     omap (fun r : row => order_key r ≫= py_int int_of_str) (rows df)).
Proof. unfold build_order_payload. by rewrite build_order_payload_loop. Qed.

(** With a delay that is not negative the retry loop never raises. *)
Lemma status_update_loop_returns (attempts : list Z) (url : string)
    (payload : json) (max_retries retry_delay : Z) (log : list event) :
  0 <= retry_delay -> Forall (fun attempt => 0 <= attempt) attempts ->
  exists sent log',
    status_update_loop server attempts url payload max_retries retry_delay log
    = (Ok sent, log').
Proof.
  intros Hdelay Hattempts. revert log.
  induction Hattempts as [|attempt rest Hattempt _ IH]; intros log;
    cbn [status_update_loop]; [by eexists _, _|].
  unfold requests_post.
  assert (Hsleep : (retry_delay * attempt <? 0) = false) by (apply Z.ltb_ge; by apply Z.mul_nonneg_nonneg).
  destruct (server (count_requests log)) as [status_code text| |];
    repeat case_match; rewrite ?Hsleep in *; try discriminate;
    first [apply IH | by eexists _, _].
Qed.

Lemma send_status_update_request_returns (payload : json)
    (campaign_id : string) (hdrs : list (string * string))
    (max_retries retry_delay : Z) (log : list event) :
  0 <= retry_delay ->
  exists sent log',
    send_status_update_request server payload campaign_id hdrs max_retries
                               retry_delay log
    = (Ok sent, log').
Proof.
  intros Hdelay. apply status_update_loop_returns; [done|].
  apply Forall_forall. intros a Ha%list_elem_of_In.
  apply list_elem_of_In, elem_of_seqZ in Ha. lia.
Qed.

End StatusUpdateFacts.

(** C4.  [update_order_statuses] on a table without the column
    "HDRTAG2" returns the absent result and leaves the event log as it
    was: no request is sent.  On a table with the column, the ids sent
    are the order keys of the deduplicated rows that convert to an
    integer; with none of them the result is the empty list and nothing
    is sent; otherwise the request carries one entry per id and the
    result is that list of ids when the request succeeded and the
    absent result when it failed.  (A retry delay that is not negative
    keeps [time.sleep] from raising.) *)
Theorem update_order_statuses_result
    (int_of_str : string -> option Z) (server : nat -> Confirmations.outcome)
    (df : Confirmations.DataFrame) (campaign_id : string)
    (hdrs : list (string * string)) (max_retries retry_delay : Z)
    (log : list event) :
  0 <= retry_delay ->
  ("HDRTAG2"%string ∉ columns df ->
   Confirmations.update_order_statuses int_of_str server df campaign_id hdrs
     max_retries retry_delay log
   = (Ok None, log))
  /\ ("HDRTAG2"%string ∈ columns df ->
      exists unique_df ids_sent,
        Confirmations.extract_unique_orders df = Some unique_df
        /\ ids_sent
           = omap (fun r : Confirmations.row =>
                     Confirmations.order_key r
                       ≫= Confirmations.py_int int_of_str)
                  (rows unique_df)
        /\ (ids_sent = [] ->
            Confirmations.update_order_statuses int_of_str server df
              campaign_id hdrs max_retries retry_delay log
            = (Ok (Some []), log))
        /\ (ids_sent <> [] ->
            exists sent log',
              Confirmations.send_status_update_request server
                (JObj [("orders"%string,
                        JArr (map (fun order_id =>
                                     Confirmations.order_entry order_id
                                       "PROCESSING" "READY_TO_SHIP")
                                  ids_sent))])
                campaign_id hdrs max_retries retry_delay log
              = (Ok sent, log')
              /\ Confirmations.update_order_statuses int_of_str server df
                   campaign_id hdrs max_retries retry_delay log
                 = (Ok (match sent with
                        | Some true => Some ids_sent
                        | _ => None
                        end), log'))).
Proof.
  intros Hdelay. unfold Confirmations.update_order_statuses,
    Confirmations.validate_dataframe. split.
  - intros Hcol. by rewrite bool_decide_eq_false_2.
  - intros Hcol. rewrite bool_decide_eq_true_2 by done. cbn [negb].
    rewrite (extract_unique_orders_present df Hcol).
    eexists _, _. split; [reflexivity|]. split; [reflexivity|].
    rewrite build_order_payload_ids. cbn [rows].
    set (ids_sent := omap _ _). split.
    + intros ->. reflexivity.
    + intros Hne.
      destruct (send_status_update_request_returns server
                  (JObj [("orders"%string,
                          JArr (map (fun order_id =>
                                       Confirmations.order_entry order_id
                                         "PROCESSING" "READY_TO_SHIP")
                                    ids_sent))])
                  campaign_id hdrs max_retries retry_delay log Hdelay)
        as (sent & log' & Hsend).
      exists sent, log'. split; [done|].
      destruct ids_sent as [|order_id ids]; [done|].
      cbn [map]. cbn [map] in Hsend. rewrite Hsend.
      by destruct sent as [[]|].
Qed.

(** A table of two orders, answered with 200 at once: both ids are
    returned and one request was sent. *)
Lemma update_order_statuses_example :
  Confirmations.update_order_statuses (fun _ => None)
    (fun _ => Confirmations.Response 200 "OK") Confirmations.example_table
    "CAMPAIGN" [] 3 3 []
  = (Ok (Some [1001; 1002]),
     [HttpPost (Confirmations.status_update_url "CAMPAIGN")
        (JObj [("orders"%string,
                JArr [Confirmations.order_entry 1001 "PROCESSING" "READY_TO_SHIP";
                      Confirmations.order_entry 1002 "PROCESSING" "READY_TO_SHIP"])])]).
Proof.
  destruct (proj2 (update_order_statuses_result (fun _ => None)
                     (fun _ => Confirmations.Response 200 "OK")
                     Confirmations.example_table "CAMPAIGN" [] 3 3 []
                     ltac:(discriminate))
              ltac:(left))
    as (unique_df & ids_sent & Hunique & Hids & _ & Hsend).
  vm_compute in Hunique. injection Hunique as <-.
  vm_compute in Hids. subst ids_sent.
  destruct (Hsend ltac:(discriminate)) as (sent & log' & Hsent & Hresult).
  rewrite Hresult. vm_compute in Hsent. injection Hsent as <- <-.
  reflexivity.
Defined.

Section RetryFacts.
Import Confirmations.
Variable server : nat -> outcome.

Lemma retryable_not_200 (status_code : Z) :
  status_code ∈ retryable -> status_code <> 200.
Proof.
  unfold retryable. rewrite !elem_of_cons, elem_of_nil. lia.
Qed.

Lemma retryable_503 : 503 ∈ retryable.
Proof. unfold retryable. rewrite !elem_of_cons. lia. Qed.

Lemma status_update_loop_cons (attempt : Z) (rest : list Z) (url : string)
    (payload : json) (max_retries retry_delay : Z) (log : list event) :
  status_update_loop server (attempt :: rest) url payload max_retries
                     retry_delay log
  = match server (count_requests log) with
    | Response status_code _ =>
        if status_code =? 200 then (Ok (Some true), log ++ [HttpPost url payload])
        else if bool_decide (status_code ∈ retryable) then
          if attempt <? max_retries then
            if retry_delay * attempt <? 0
            then (Ok (Some false), log ++ [HttpPost url payload])
            else status_update_loop server rest url payload max_retries
                   retry_delay
                   ((log ++ [HttpPost url payload])
                      ++ [Sleep (retry_delay * attempt)])
          else (Ok (Some false), log ++ [HttpPost url payload])
        else (Ok (Some false), log ++ [HttpPost url payload])
    | RequestException =>
        if attempt <? max_retries then
          if retry_delay * attempt <? 0
          then (Raise ValueError, log ++ [HttpPost url payload])
          else status_update_loop server rest url payload max_retries
                 retry_delay
                 ((log ++ [HttpPost url payload])
                    ++ [Sleep (retry_delay * attempt)])
        else (Ok (Some false), log ++ [HttpPost url payload])
    | OtherException => (Ok (Some false), log ++ [HttpPost url payload])
    end.
Proof. reflexivity. Qed.

(** One attempt answered with a retryable status, with attempts
    left: the loop sleeps [retry_delay * attempt] and goes on. *)
Lemma status_update_loop_retry (attempt : Z) (rest : list Z) (url : string)
    (payload : json) (max_retries retry_delay status_code : Z)
    (text : string) (log : list event) :
  0 <= retry_delay -> 0 <= attempt -> attempt < max_retries ->
  server (count_requests log) = Response status_code text ->
  status_code ∈ retryable ->
  status_update_loop server (attempt :: rest) url payload max_retries
                     retry_delay log
  = status_update_loop server rest url payload max_retries retry_delay
      ((log ++ [HttpPost url payload]) ++ [Sleep (retry_delay * attempt)]).
Proof.
  intros Hdelay Hattempt Hlt Hserver Hretry.
  rewrite status_update_loop_cons, Hserver.
  assert (status_code <> 200) as Hne by (by apply retryable_not_200).
  rewrite (proj2 (Z.eqb_neq _ _) Hne), bool_decide_eq_true_2 by done.
  rewrite (proj2 (Z.ltb_lt _ _) Hlt).
  by rewrite (proj2 (Z.ltb_ge _ _) (Z.mul_nonneg_nonneg _ _ Hdelay Hattempt)).
Qed.

(** The last attempt answered with a retryable status: failure. *)
Lemma status_update_loop_exhausted (rest : list Z) (url : string)
    (payload : json) (max_retries retry_delay status_code : Z)
    (text : string) (log : list event) :
  server (count_requests log) = Response status_code text ->
  status_code ∈ retryable ->
  status_update_loop server (max_retries :: rest) url payload max_retries
                     retry_delay log
  = (Ok (Some false), log ++ [HttpPost url payload]).
Proof.
  intros Hserver Hretry. rewrite status_update_loop_cons, Hserver.
  assert (status_code <> 200) as Hne by (by apply retryable_not_200).
  rewrite (proj2 (Z.eqb_neq _ _) Hne), bool_decide_eq_true_2 by done.
  by rewrite Z.ltb_irrefl.
Qed.

End RetryFacts.

(** C5.  [send_status_update_request] with a retry delay that is not
    negative.  Answered with 503 three times running under
    [max_retries = 3], it sends exactly three requests, sleeping
    [retry_delay × 1] after the first and [retry_delay × 2] after the
    second, and returns False.  With at least one attempt allowed: a
    200 returns True after the one request; a status other than 200 and
    outside 429, 500, 502, 503, 504 returns False after the one request;
    a status among those five is followed, when attempts are left, by a
    sleep of [retry_delay × 1] and the next attempt, and by False when
    that attempt was the last. *)
Theorem send_status_update_request_retry_policy
    (server : nat -> Confirmations.outcome) (payload : json)
    (campaign_id : string) (hdrs : list (string * string))
    (retry_delay : Z) (log : list event) :
  0 <= retry_delay ->
  let url := Confirmations.status_update_url campaign_id in
  let first := Confirmations.count_requests log in
  ((forall k, (k < 3)%nat ->
              exists text, server (first + k)%nat = Confirmations.Response 503 text) ->
   Confirmations.send_status_update_request server payload campaign_id hdrs 3
     retry_delay log
   = (Ok (Some false),
      log ++ [HttpPost url payload; Sleep (retry_delay * 1);
              HttpPost url payload; Sleep (retry_delay * 2);
              HttpPost url payload]))
  /\ (forall max_retries text,
         1 <= max_retries ->
         server first = Confirmations.Response 200 text ->
         Confirmations.send_status_update_request server payload campaign_id
           hdrs max_retries retry_delay log
         = (Ok (Some true), log ++ [HttpPost url payload]))
  /\ (forall max_retries status_code text,
         1 <= max_retries ->
         server first = Confirmations.Response status_code text ->
         status_code <> 200 ->
         status_code ∉ [429; 500; 502; 503; 504] ->
         Confirmations.send_status_update_request server payload campaign_id
           hdrs max_retries retry_delay log
         = (Ok (Some false), log ++ [HttpPost url payload]))
  /\ (forall max_retries status_code text,
         1 < max_retries ->
         server first = Confirmations.Response status_code text ->
         status_code ∈ [429; 500; 502; 503; 504] ->
         Confirmations.send_status_update_request server payload campaign_id
           hdrs max_retries retry_delay log
         = Confirmations.status_update_loop server
             (seqZ 2 (max_retries - 1)) url payload max_retries retry_delay
             (log ++ [HttpPost url payload; Sleep (retry_delay * 1)]))
  /\ (forall status_code text,
         server first = Confirmations.Response status_code text ->
         status_code ∈ [429; 500; 502; 503; 504] ->
         Confirmations.send_status_update_request server payload campaign_id
           hdrs 1 retry_delay log
         = (Ok (Some false), log ++ [HttpPost url payload])).
Proof.
  intros Hdelay url first. unfold Confirmations.send_status_update_request.
  fold url. repeat split.
  - intros H503.
    destruct (H503 0%nat ltac:(lia)) as [t0 H0].
    destruct (H503 1%nat ltac:(lia)) as [t1 H1].
    destruct (H503 2%nat ltac:(lia)) as [t2 H2].
    rewrite Nat.add_0_r in H0.
    change (seqZ 1 3) with [1; 2; 3].
    rewrite (status_update_loop_retry server 1 _ url payload 3 retry_delay
               503 t0 log); [|done|lia|lia|done|apply retryable_503].
    rewrite (status_update_loop_retry server 2 _ url payload 3 retry_delay
               503 t1); [|done|lia|lia| |apply retryable_503].
    2:{ rewrite count_requests_post_sleep. fold first.
        by rewrite <- Nat.add_1_r. }
    rewrite (status_update_loop_exhausted server _ url payload 3 retry_delay
               503 t2); [| |apply retryable_503].
    2:{ rewrite count_requests_app, count_requests_post,
          count_requests_post_sleep. fold first.
        change (Confirmations.count_requests [Sleep (retry_delay * 2)])
          with 0%nat.
        by replace (S (S first) + 0)%nat with (first + 2)%nat by lia. }
    by rewrite <- !app_assoc.
  - intros max_retries text Hmax Hserver.
    rewrite (seqZ_cons 1 max_retries) by lia.
    rewrite status_update_loop_cons. fold first. by rewrite Hserver.
  - intros max_retries status_code text Hmax Hserver Hne Hnot.
    rewrite (seqZ_cons 1 max_retries) by lia.
    rewrite status_update_loop_cons. fold first. rewrite Hserver.
    rewrite (proj2 (Z.eqb_neq _ _) Hne).
    by rewrite bool_decide_eq_false_2.
  - intros max_retries status_code text Hmax Hserver Hretry.
    rewrite (seqZ_cons 1 max_retries) by lia.
    rewrite (status_update_loop_retry server 1 _ url payload max_retries
               retry_delay status_code text log); [|done|lia|lia|done|done].
    rewrite <- app_assoc. by replace (Z.pred max_retries) with (max_retries - 1) by lia.
  - intros status_code text Hserver Hretry.
    change (seqZ 1 1) with [1].
    by rewrite (status_update_loop_exhausted server _ url payload 1
                  retry_delay status_code text log).
Qed.

(** A server that keeps answering 503, with the default three attempts
    and the default delay of 3 seconds: three requests, sleeps of 3 and
    6 seconds between them, then False. *)
Lemma send_status_update_request_503_example :
  Confirmations.send_status_update_request
    (fun _ => Confirmations.Response 503 "Service Unavailable")
    (JObj [("orders"%string, JArr [])]) "CAMPAIGN" [] 3 3 []
  = (Ok (Some false),
     [HttpPost (Confirmations.status_update_url "CAMPAIGN")
               (JObj [("orders"%string, JArr [])]);
      Sleep 3;
      HttpPost (Confirmations.status_update_url "CAMPAIGN")
               (JObj [("orders"%string, JArr [])]);
      Sleep 6;
      HttpPost (Confirmations.status_update_url "CAMPAIGN")
               (JObj [("orders"%string, JArr [])])]).
Proof.
  apply (proj1 (send_status_update_request_retry_policy
                  (fun _ => Confirmations.Response 503 "Service Unavailable")
                  (JObj [("orders"%string, JArr [])]) "CAMPAIGN" [] 3 []
                  ltac:(discriminate))).
  intros k _. by eexists.
Defined.

(** ** The orders export: the summary records *)

(** An order with a planned shipment is summarised with that
    shipment's date. *)
Lemma extract_order_data_with_shipment :
  Orders.extract_order_data [Orders.order_with_shipment]
  = Ok [JObj [("order_id", JInt 42);
              ("status", JStr "PROCESSING");
              ("substatus", JStr "STARTED");
              ("creationDate", JStr "03-11-2025 10:15:00");
              ("shipmentDate", JStr "05-11-2025")]%string].
Proof. reflexivity. Qed.

(** C6 fails on the code.  [extract_order_data] indexes the list of
    shipments without looking whether it is empty: on an order whose
    delivery carries no shipment the whole call raises IndexError and
    returns no record at all, whereas the guarded read of the same
    field in [export_orders_to_dbf_files] yields an absent date. *)
Theorem extract_order_data_raises_without_shipments :
  Orders.extract_order_data [Orders.order_without_shipments] = Raise IndexError
  /\ Orders.extract_order_data
       [Orders.order_with_shipment; Orders.order_without_shipments]
     = Raise IndexError
  /\ Orders.guarded_shipment_date (JArr []) = JNull.
Proof. repeat split. Qed.

(** ** The orders export: table files *)

Lemma bind_lift {S A B} (r : result A) (k : A -> io S B) (s : S) :
  (lift r ≫= k) s
  = match r with Ok a => k a s | Raise e => (Raise e, s) end.
Proof. by destruct r. Qed.

Section ExportFacts.
Import Orders.
Context {date : Type}.
Variable strptime : string -> string -> option date.
Variable float_of_str : string -> option spec_float.
Variable int_of_str : string -> option Z.
Variable str_of_json : json -> string.
Variable dbf_accepts : dbf_record date -> bool.
Variables CUSTOMER_ID_IN_SUPPLIER_CRM DIVISION_ID : string.

Local Abbreviation record_of_item :=
  (record_of_item date float_of_str int_of_str str_of_json
                  CUSTOMER_ID_IN_SUPPLIER_CRM DIVISION_ID).
Local Abbreviation write_order_table :=
  (write_order_table date float_of_str int_of_str str_of_json dbf_accepts
                     CUSTOMER_ID_IN_SUPPLIER_CRM DIVISION_ID).
Local Abbreviation export_order :=
  (export_order date strptime float_of_str int_of_str str_of_json
                dbf_accepts CUSTOMER_ID_IN_SUPPLIER_CRM DIVISION_ID).
Local Abbreviation export_orders_to_dbf_files :=
  (export_orders_to_dbf_files date strptime float_of_str int_of_str
     str_of_json dbf_accepts CUSTOMER_ID_IN_SUPPLIER_CRM DIVISION_ID).

Implicit Types (w : world date) (r : result unit).

Lemma only_adds_refl w : only_adds w w.
Proof. split; [done|]. exists []. by rewrite app_nil_r. Qed.

Lemma only_adds_trans w1 w2 w3 :
  only_adds w1 w2 -> only_adds w2 w3 -> only_adds w1 w3.
Proof.
  intros [Hf1 (n1 & Hl1 & Hn1)] [Hf2 (n2 & Hl2 & Hn2)]. split; [by auto|].
  exists (n1 ++ n2). split.
  - by rewrite Hl2, Hl1, map_app, app_assoc.
  - apply Forall_app. split; [done|].
    eapply Forall_impl; [exact Hn2|]. intros f Hf. cbn in Hf.
    destruct (files w1 !! f) as [c|] eqn:E; [|done].
    apply Hf1 in E. congruence.
Qed.

(** The appends touch the one table and send nothing. *)
Lemma append_loop_effect (filename : string) (order_id : json)
    (order_date shipment_date : option date) (item_list : list json) w r w' :
  for_each item_list
    (fun item =>
       rec ← lift (record_of_item order_id order_date shipment_date item);
       table_append date dbf_accepts filename rec) w = (r, w') ->
  log w' = log w
  /\ (forall f, f <> filename -> files w' !! f = files w !! f)
  /\ (is_Some (files w !! filename) -> is_Some (files w' !! filename)).
Proof.
  revert w. induction item_list as [|item rest IH]; intros w; cbn [for_each].
  - intros [= <- <-]. done.
  - unfold mbind at 1, io_bind at 1. rewrite bind_lift.
    destruct (record_of_item _ _ _ item) as [rec|e]; [|by intros [= <- <-]].
    unfold table_append at 1.
    destruct (dbf_accepts rec); [|by intros [= <- <-]].
    intros Hrest. apply IH in Hrest as (Hlog & Hother & Hsome). cbn in *.
    split; [done|]. split.
    + intros f Hf. rewrite (Hother f Hf). by rewrite lookup_insert_ne.
    + intros _. apply Hsome. rewrite lookup_insert_eq. by eexists.
Qed.

Lemma write_order_table_effect (filename : string) (order_id : json)
    (order_date shipment_date : option date) (items : json) w r w' :
  write_order_table filename order_id order_date shipment_date items w
  = (r, w') ->
  is_Some (files w' !! filename)
  /\ (forall f, f <> filename -> files w' !! f = files w !! f)
  /\ (log w' = log w \/ log w' = log w ++ [FtpUpload filename]).
Proof.
  unfold Orders.write_order_table, create_table.
  unfold mbind at 1, io_bind at 1. rewrite bind_lift.
  destruct (py_iter items) as [item_list|e].
  - unfold mbind, io_bind.
    destruct (for_each item_list _ _) as [[[]|e] w2] eqn:Hloop;
      apply append_loop_effect in Hloop as (Hlog & Hother & Hsome);
      cbn in Hlog, Hother, Hsome.
    + unfold upload_file_to_ftp. intros [= <- <-]. cbn. split; [|split].
      * apply Hsome. rewrite lookup_insert_eq. by eexists.
      * intros f Hf. rewrite (Hother f Hf). by rewrite lookup_insert_ne.
      * right. by rewrite Hlog.
    + intros [= <- <-]. split; [|split].
      * apply Hsome. rewrite lookup_insert_eq. by eexists.
      * intros f Hf. rewrite (Hother f Hf). by rewrite lookup_insert_ne.
      * by left.
  - intros [= <- <-]. cbn. split; [|split].
    + rewrite lookup_insert_eq. by eexists.
    + intros f Hf. by rewrite lookup_insert_ne.
    + by left.
Qed.

(** The loop body, case by case. *)
Lemma export_order_unfold (output_dir : string) (order : json) w :
  export_order output_dir order w
  = match read_order order with
    | Raise e => (Raise e, w)
    | Ok (order_id, order_date_str, shipment_data, items) =>
        if negb (truthy items) then (Ok tt, w)
        else if bool_decide
                  (is_Some (files w !! table_path str_of_json output_dir
                                       order_id))
        then (Ok tt, w)
        else
          write_order_table (table_path str_of_json output_dir order_id)
            order_id
            (parse_date date strptime "%d-%m-%Y %H:%M:%S" order_date_str)
            (if truthy (guarded_shipment_date shipment_data)
             then parse_date date strptime "%d-%m-%Y"
                             (guarded_shipment_date shipment_data)
             else None)
            items w
    end.
Proof.
  unfold Orders.export_order. rewrite bind_lift.
  destruct (read_order order) as [[[[order_id order_date_str] shipment_data] items]|e];
    [|done].
  destruct (truthy items); [|done]. cbn [negb].
  unfold mbind, io_bind, path_exists.
  by destruct (bool_decide _).
Qed.

Lemma export_order_only_adds (output_dir : string) (order : json) w r w' :
  export_order output_dir order w = (r, w') -> only_adds w w'.
Proof.
  rewrite export_order_unfold.
  destruct (read_order order) as [[[[order_id order_date_str] shipment_data] items]|e];
    [|intros [= <- <-]; apply only_adds_refl].
  destruct (negb (truthy items)); [intros [= <- <-]; apply only_adds_refl|].
  case_bool_decide as Hpresent; [intros [= <- <-]; apply only_adds_refl|].
  intros (Hsome & Hother & Hlog)%write_order_table_effect.
  assert (Hnone : files w !! table_path str_of_json output_dir order_id = None).
  { destruct (files w !! _) eqn:E; [|done]. destruct Hpresent. by eexists. }
  split.
  - intros f c Hf. rewrite Hother; [done|]. intros ->. congruence.
  - destruct Hlog as [Hlog|Hlog].
    + exists []. split; [by rewrite Hlog, app_nil_r|constructor].
    + exists [table_path str_of_json output_dir order_id].
      split; [done|]. by repeat constructor.
Qed.

Lemma export_orders_only_adds (output_dir : string) (orders : list json)
    w r w' :
  export_orders_to_dbf_files orders output_dir w = (r, w') -> only_adds w w'.
Proof.
  unfold Orders.export_orders_to_dbf_files.
  revert w. induction orders as [|order rest IH]; intros w; cbn [for_each].
  - intros [= <- <-]. apply only_adds_refl.
  - unfold mbind at 1, io_bind at 1.
    destruct (export_order output_dir order w) as [[[]|e] w1] eqn:Hfirst;
      apply export_order_only_adds in Hfirst.
    + intros Hrest%IH. by eapply only_adds_trans.
    + by intros [= <- <-].
Qed.

(** An order whose table file is there is passed over. *)
Lemma export_order_skips_existing (output_dir : string) (order : json)
    (order_id order_date_str shipment_data items : json) w :
  read_order order = Ok (order_id, order_date_str, shipment_data, items) ->
  is_Some (files w !! table_path str_of_json output_dir order_id) ->
  export_order output_dir order w = (Ok tt, w).
Proof.
  intros Hread Hpresent. rewrite export_order_unfold, Hread.
  destruct (negb (truthy items)); [done|].
  by rewrite bool_decide_eq_true_2.
Qed.

(** An order that went through once goes through again, untouched,
    in any directory that still holds the files of the first time. *)
Lemma export_order_again (output_dir : string) (order : json) w w' w'' :
  export_order output_dir order w = (Ok tt, w') ->
  (forall f, is_Some (files w' !! f) -> is_Some (files w'' !! f)) ->
  export_order output_dir order w'' = (Ok tt, w'').
Proof.
  rewrite !export_order_unfold.
  destruct (read_order order) as [[[[order_id order_date_str] shipment_data] items]|e];
    [|done].
  destruct (negb (truthy items)); [done|].
  intros Hfirst Hkept. rewrite (bool_decide_eq_true_2 (is_Some (files w'' !! _))); [done|].
  apply Hkept. case_bool_decide as Hpresent.
  - by injection Hfirst as <-.
  - by apply write_order_table_effect in Hfirst as (Hsome & _).
Qed.

Lemma export_orders_again (output_dir : string) (orders : list json)
    w w' w'' :
  export_orders_to_dbf_files orders output_dir w = (Ok tt, w') ->
  (forall f, is_Some (files w' !! f) -> is_Some (files w'' !! f)) ->
  export_orders_to_dbf_files orders output_dir w'' = (Ok tt, w'').
Proof.
  unfold Orders.export_orders_to_dbf_files.
  revert w. induction orders as [|order rest IH]; intros w; cbn [for_each];
    [done|].
  unfold mbind, io_bind.
  destruct (export_order output_dir order w) as [[[]|e] w1] eqn:Hfirst;
    [|done].
  intros Hrest Hkept.
  pose proof (export_orders_only_adds output_dir rest w1 _ w' Hrest)
    as [Hfiles _].
  rewrite (export_order_again output_dir order w w1 w'' Hfirst).
  - by eapply IH.
  - intros f [c Hc]. apply Hkept. apply Hfiles in Hc. by eexists.
Qed.

End ExportFacts.

(** C7.  [export_orders_to_dbf_files] passes over every order whose
    table file "<order id>.dbf" is already in the output directory,
    leaving the directory and the upload log as they were.  A run only
    adds: the files present before it are unchanged after it and what
    it uploads did not exist before.  Hence a second run over the same
    orders leaves every file of the first run unchanged, and when the
    first run went through, the second run creates and uploads
    nothing. *)
Theorem export_orders_to_dbf_files_idempotent
    {date : Type} (strptime : string -> string -> option date)
    (float_of_str : string -> option spec_float)
    (int_of_str : string -> option Z) (str_of_json : json -> string)
    (dbf_accepts : Orders.dbf_record date -> bool)
    (CUSTOMER_ID_IN_SUPPLIER_CRM DIVISION_ID : string)
    (orders : list json) (output_dir : string)
    (w w1 w2 : Orders.world date) (r1 r2 : result unit) :
  Orders.export_orders_to_dbf_files date strptime float_of_str int_of_str
    str_of_json dbf_accepts CUSTOMER_ID_IN_SUPPLIER_CRM DIVISION_ID
    orders output_dir w = (r1, w1) ->
  Orders.export_orders_to_dbf_files date strptime float_of_str int_of_str
    str_of_json dbf_accepts CUSTOMER_ID_IN_SUPPLIER_CRM DIVISION_ID
    orders output_dir w1 = (r2, w2) ->
  (forall order order_id order_date_str shipment_data items
          (w0 : Orders.world date),
      Orders.read_order order
      = Ok (order_id, order_date_str, shipment_data, items) ->
      is_Some (Orders.files w0
                 !! Orders.table_path str_of_json output_dir order_id) ->
      Orders.export_order date strptime float_of_str int_of_str str_of_json
        dbf_accepts CUSTOMER_ID_IN_SUPPLIER_CRM DIVISION_ID output_dir order w0
      = (Ok tt, w0))
  /\ Orders.only_adds w w1
  /\ Orders.only_adds w1 w2
  /\ (r1 = Ok tt -> r2 = Ok tt /\ w2 = w1).
Proof.
  intros Hfirst Hsecond. split; [|split; [|split]].
  - intros order order_id order_date_str shipment_data items w0 Hread Hpresent.
    by eapply export_order_skips_existing.
  - by eapply export_orders_only_adds.
  - by eapply export_orders_only_adds.
  - intros ->.
    erewrite export_orders_again in Hsecond; [|exact Hfirst|done].
    by injection Hsecond as <- <-.
Qed.

(** The order 42 exported into an empty directory, then exported
    again: the second run finds "dbf_orders/42.dbf" and changes
    nothing. *)
Lemma export_orders_twice_example :
  Orders.only_adds (Orders.World (date := string) ∅ []) Orders.exported_once
  /\ Orders.export_orders_to_dbf_files string (fun _ s => Some s)
       (fun _ => None) (fun _ => None) Orders.str_of_id (fun _ => true)
       "CRM-7" "F1" [Orders.order_with_shipment] "dbf_orders"
       Orders.exported_once
     = (Ok tt, Orders.exported_once).
Proof.
  destruct (export_orders_to_dbf_files_idempotent
              (fun _ s => Some s) (fun _ => None) (fun _ => None)
              Orders.str_of_id (fun _ => true) "CRM-7" "F1"
              [Orders.order_with_shipment] "dbf_orders"
              (Orders.World ∅ []) Orders.exported_once Orders.exported_once
              (Ok tt) (Ok tt))
    as (_ & Hadds & _ & _).
  - vm_compute. reflexivity.
  - vm_compute. reflexivity.
  - split; [exact Hadds|]. vm_compute. reflexivity.
Defined.

(** ** The confirmations pipeline: a run without new files *)

Section EmptyRunFacts.
Import Confirmations.

Variable os_error : os_call -> option exn.

Lemma process_one_skips (processed_dir root file_name : string)
    (all_dataframes : list (option DataFrame)) (fs : gmap string file) :
  endswith file_name ".xls" = false
  \/ is_Some (fs !! path_join processed_dir file_name) ->
  process_one os_error processed_dir root file_name (all_dataframes, fs)
  = (all_dataframes, fs).
Proof.
  intros Hskip. unfold process_one.
  destruct (endswith file_name ".xls") eqn:E; [|done]. cbn [negb].
  destruct Hskip as [?|Hpresent]; [done|].
  by rewrite bool_decide_eq_true_2.
Qed.

Lemma walk_without_new_files (processed_dir : string)
    (listing : list (string * list string))
    (all_dataframes : list (option DataFrame)) (fs : gmap string file) :
  Forall (fun entry =>
            Forall (fun file_name =>
                      endswith file_name ".xls" = false
                      \/ is_Some (fs !! path_join processed_dir file_name))
                   entry.2) listing ->
  foldl (fun st '(root, files) =>
           foldl (fun st file_name =>
                    process_one os_error processed_dir root file_name st)
                 st files)
        (all_dataframes, fs) listing
  = (all_dataframes, fs).
Proof.
  induction 1 as [|[root names] listing Hnames _ IH]; [done|].
  cbn [foldl]. cbn [snd] in Hnames.
  replace (foldl _ (all_dataframes, fs) names) with (all_dataframes, fs);
    [done|].
  induction Hnames as [|file_name names Hskip _ IHnames]; [done|].
  cbn [foldl]. by rewrite process_one_skips.
Qed.

Lemma first_pivot_requires (pivot_sum : list string -> string -> DataFrame -> DataFrame)
    (df : DataFrame) :
  is_ok (pivot_table pivot_sum ["HDRTAG2"; "HDRTAG1"]%string "QNT" df) = true
  <-> "QNT"%string ∈ columns df
      /\ "HDRTAG2"%string ∈ columns df
      /\ "HDRTAG1"%string ∈ columns df.
Proof.
  unfold pivot_table, missing_label.
  rewrite !filter_cons, filter_nil.
  repeat case_decide; cbn; intuition (discriminate || contradiction || auto).
Qed.

End EmptyRunFacts.

(** C10.  When, after a download that returned, every file under the
    inbox either is not an ".xls" file or has its name in the archive
    of processed files, [process_confirmation_files] (once the archive
    directory is made) returns the empty table, which has no column,
    and moves nothing.  The first pivot of [save_orders_to_excel] goes
    through only on a table that has the columns "QNT", "HDRTAG2" and
    "HDRTAG1"; on the empty table the call raises, leaving at most the
    file its writer opened, and [main] ends with an exception there:
    no labels requested, no status update sent. *)
Theorem confirmations_main_raises_on_empty_run
    (os_error : os_call -> option exn)
    (os_walk : gmap string Confirmations.file -> string
               -> list (string * list string))
    (pivot_sum : list string -> string -> Confirmations.DataFrame
                 -> Confirmations.DataFrame)
    (groups : string -> Confirmations.DataFrame
              -> list (value * Confirmations.DataFrame))
    (id_recap : string)
    (int_of_str : string -> option Z) (server : nat -> Confirmations.outcome)
    (download_from_ftp : gmap string Confirmations.file
                         -> result unit * gmap string Confirmations.file)
    (format_report_sheets : string -> result unit)
    (CONFIRMATION_DIR CONFIRMATION_PROCESSED RECAPS_DIR CAMPAIGN_ID : string)
    (HEADERS : list (string * string)) (w : Confirmations.world) :
  let fs := (download_from_ftp (Confirmations.files w)).2 in
  let file_name := ("recap-YANDEX-" +:+ id_recap +:+ ".xlsx")%string in
  (download_from_ftp (Confirmations.files w)).1 = Ok tt ->
  os_error (Makedirs CONFIRMATION_PROCESSED) = None ->
  Forall (fun entry =>
            Forall (fun file_name =>
                      endswith file_name ".xls" = false
                      \/ is_Some (fs !! path_join CONFIRMATION_PROCESSED
                                              file_name))
                   entry.2)
         (os_walk fs CONFIRMATION_DIR) ->
  Confirmations.process_confirmation_files os_error os_walk CONFIRMATION_DIR
    CONFIRMATION_PROCESSED fs
  = (Ok Confirmations.empty_frame, fs)
  /\ columns Confirmations.empty_frame = []
  /\ (forall df,
         is_ok (Confirmations.pivot_table pivot_sum
                  ["HDRTAG2"; "HDRTAG1"]%string "QNT" df) = true
         <-> "QNT"%string ∈ columns df
             /\ "HDRTAG2"%string ∈ columns df
             /\ "HDRTAG1"%string ∈ columns df)
  /\ (exists e evs,
         Confirmations.save_orders_to_excel os_error pivot_sum groups id_recap
           Confirmations.empty_frame RECAPS_DIR (Confirmations.log w)
         = (Raise e, Confirmations.log w ++ evs)
         /\ (evs = [] \/ evs = [WorkbookSaved file_name]))
  /\ (exists e evs,
         Confirmations.main os_error os_walk pivot_sum groups id_recap
           int_of_str server download_from_ftp format_report_sheets
           CONFIRMATION_DIR CONFIRMATION_PROCESSED RECAPS_DIR CAMPAIGN_ID
           HEADERS w
         = (Raise e, Confirmations.World fs (Confirmations.log w ++ evs))
         /\ (evs = [] \/ evs = [WorkbookSaved file_name])).
Proof.
  intros fs file_name Hdownload Hmakedirs Hnone.
  assert (Hprocess :
            Confirmations.process_confirmation_files os_error os_walk
              CONFIRMATION_DIR CONFIRMATION_PROCESSED fs
            = (Ok Confirmations.empty_frame, fs)).
  { unfold Confirmations.process_confirmation_files.
    by rewrite Hmakedirs, walk_without_new_files. }
  assert (Hsave :
            exists e evs,
              Confirmations.save_orders_to_excel os_error pivot_sum groups
                id_recap Confirmations.empty_frame RECAPS_DIR
                (Confirmations.log w)
              = (Raise e, Confirmations.log w ++ evs)
              /\ (evs = [] \/ evs = [WorkbookSaved file_name])).
  { unfold Confirmations.save_orders_to_excel.
    destruct (os_error (Makedirs RECAPS_DIR)) as [e|].
    { exists e, []. rewrite app_nil_r. split; [done|by left]. }
    destruct (os_error (OpenWrite _)) as [e|].
    { exists e, []. rewrite app_nil_r. split; [done|by left]. }
    exists IndexError, [WorkbookSaved file_name]. split; [done|by right]. }
  split; [done|]. split; [done|]. split; [apply first_pivot_requires|].
  split; [exact Hsave|].
  destruct Hsave as (e & evs & Hsave & Hevs). exists e, evs. split; [|done].
  unfold Confirmations.main.
  destruct (download_from_ftp (Confirmations.files w)) as [r fs0] eqn:Hd.
  cbn in Hdownload, fs. subst r fs. by rewrite Hprocess, Hsave.
Qed.

(** A run over an inbox whose only confirmation was processed before:
    [main] raises and nothing has been sent. *)
Lemma confirmations_main_nothing_new :
  exists e evs,
    Confirmations.main (fun _ => None) Confirmations.nothing_new_walk
      (fun _ _ df => df) (fun _ _ => []) "031125-101500" (fun _ => None)
      (fun _ => Confirmations.Response 200 "OK") (fun fs => (Ok tt, fs))
      (fun _ => Ok tt) "inbox" "processed" "recaps" "CAMPAIGN" []
      Confirmations.nothing_new
    = (Raise e,
       Confirmations.World (Confirmations.files Confirmations.nothing_new)
         (Confirmations.log Confirmations.nothing_new ++ evs))
    /\ (evs = []
        \/ evs = [WorkbookSaved "recap-YANDEX-031125-101500.xlsx"]).
Proof.
  apply (confirmations_main_raises_on_empty_run
           (fun _ => None) Confirmations.nothing_new_walk (fun _ _ df => df)
           (fun _ _ => []) "031125-101500" (fun _ => None)
           (fun _ => Confirmations.Response 200 "OK")
           (fun fs => (Ok tt, fs))
           (fun _ => Ok tt) "inbox" "processed" "recaps" "CAMPAIGN" []
           Confirmations.nothing_new eq_refl eq_refl).
  apply Forall_cons; split; [|constructor]. cbn [snd].
  apply Forall_cons; split.
  - right. apply (bool_decide_unpack _). vm_compute. exact I.
  - apply Forall_cons; split; [|constructor]. left. reflexivity.
Defined.

(** In that run the writer opens its file, no sheet is written, and
    closing the writer raises IndexError: the file is left behind. *)
Lemma confirmations_main_nothing_new_leaves_file :
  Confirmations.main (fun _ => None) Confirmations.nothing_new_walk
    (fun _ _ df => df) (fun _ _ => []) "031125-101500" (fun _ => None)
    (fun _ => Confirmations.Response 200 "OK") (fun fs => (Ok tt, fs))
    (fun _ => Ok tt) "inbox" "processed" "recaps" "CAMPAIGN" []
    Confirmations.nothing_new
  = (Raise IndexError,
     Confirmations.World (Confirmations.files Confirmations.nothing_new)
       [WorkbookSaved "recap-YANDEX-031125-101500.xlsx"]).
Proof. vm_compute. reflexivity. Qed.

(** * Further properties *)

(** ** Batching with any batch size *)

Lemma batch_slices_zero {A} (offers : list A) :
  batch_slices offers 0 = Raise ValueError.
Proof. reflexivity. Qed.

Lemma batch_slices_negative {A} (offers : list A) (batch_size : Z) :
  batch_size < 0 -> batch_slices offers batch_size = Ok [].
Proof.
  intros Hneg. unfold batch_slices, py_range, range_length.
  destruct (Z.eqb_spec batch_size 0); [lia|].
  destruct (Z.ltb_spec 0 batch_size); [lia|].
  replace (Z.to_nat _) with 0%nat; [done|].
  assert ((0 - Z.of_nat (length offers) - batch_size - 1) / - batch_size < 1).
  { apply Z.div_lt_upper_bound; lia. }
  lia.
Qed.

Lemma batch_slices_positive {A} (offers : list A) (batch_size : Z) :
  0 < batch_size ->
  batch_slices offers batch_size
  = Ok (consecutive_chunks (Z.to_nat batch_size) offers).
Proof.
  intros Hpos.
  rewrite <- (batch_slices_chunks offers (Z.to_nat batch_size)) by lia.
  by rewrite Z2Nat.id by lia.
Qed.

Lemma consecutive_chunks_count {A} (offers : list A) (b : nat) :
  length (consecutive_chunks b offers) = ((length offers + b - 1) / b)%nat.
Proof. unfold consecutive_chunks. by rewrite length_map, length_seq. Qed.

(** X1.  [prepare_batches] of both pipelines for an arbitrary batch
    size: a size of 0 raises ValueError; a negative size returns no
    batch at all, whatever the offers; a positive size [b] returns
    ceil(n / b) batches whose chunks, each of 1 to [b] offers, put end
    to end are the offers in their order. *)
Theorem prepare_batches_any_batch_size (batch_size : Z) :
  (batch_size = 0 ->
   (forall offers, Stocks.prepare_batches offers batch_size = Raise ValueError)
   /\ (forall offers, Prices.prepare_batches offers batch_size = Raise ValueError))
  /\ (batch_size < 0 ->
      (forall offers, Stocks.prepare_batches offers batch_size = Ok [])
      /\ (forall offers, Prices.prepare_batches offers batch_size = Ok []))
  /\ (0 < batch_size ->
      (forall offers,
          exists chunks,
            Stocks.prepare_batches offers batch_size
            = Ok (map Stocks.batch_json chunks)
            /\ concat chunks = offers
            /\ Forall (fun chunk =>
                         (1 <= length chunk <= Z.to_nat batch_size)%nat) chunks
            /\ length chunks
               = ((length offers + Z.to_nat batch_size - 1)
                    / Z.to_nat batch_size)%nat)
      /\ (forall offers,
             exists chunks,
               Prices.prepare_batches offers batch_size
               = Ok (map Prices.batch_json chunks)
               /\ concat chunks = offers
               /\ Forall (fun chunk =>
                            (1 <= length chunk <= Z.to_nat batch_size)%nat) chunks
               /\ length chunks
                  = ((length offers + Z.to_nat batch_size - 1)
                       / Z.to_nat batch_size)%nat)).
Proof.
  split; [|split].
  - intros ->. split; intros offers; reflexivity.
  - intros Hneg. split; intros offers.
    + unfold Stocks.prepare_batches. by rewrite batch_slices_negative.
    + unfold Prices.prepare_batches. by rewrite batch_slices_negative.
  - intros Hpos. split; intros offers;
      exists (consecutive_chunks (Z.to_nat batch_size) offers).
    + unfold Stocks.prepare_batches. rewrite batch_slices_positive by done.
      split; [done|]. split; [apply concat_consecutive_chunks; lia|].
      split; [apply consecutive_chunks_bounded; lia|].
      apply consecutive_chunks_count.
    + unfold Prices.prepare_batches. rewrite batch_slices_positive by done.
      split; [done|]. split; [apply concat_consecutive_chunks; lia|].
      split; [apply consecutive_chunks_bounded; lia|].
      apply consecutive_chunks_count.
Qed.

(** Seven stock offers in batches of at most three. *)
Lemma prepare_batches_seven_by_three :
  exists chunks,
    Stocks.prepare_batches (replicate 7 (Stocks.Offer "SKU" 1)) 3
    = Ok (map Stocks.batch_json chunks)
    /\ concat chunks = replicate 7 (Stocks.Offer "SKU" 1)
    /\ Forall (fun chunk => (1 <= length chunk <= Z.to_nat 3)%nat) chunks
    /\ length chunks
       = ((length (replicate 7 (Stocks.Offer "SKU" 1)) + Z.to_nat 3 - 1)
            / Z.to_nat 3)%nat.
Proof.
  apply (proj1 (proj2 (proj2 (prepare_batches_any_batch_size 3)) eq_refl)).
Defined.

(** ** The price pipeline: how many offers a product gets *)

Section PriceOfferCount.
Import Float64 Prices.

Lemma build_offers_raise (sku : result unit) (my : float)
    (df : list merged_row) (e : exn) :
  foldl (fun acc j =>
           offers ← acc; o ← offer_of_row sku my j; mret (offers ++ [o]))
        (Raise e) df
  = Raise e.
Proof. induction df as [|j df IH]; [done|]. cbn [foldl]. apply IH. Qed.

Lemma offer_of_row_id (sku : result unit) (my : float) (j : merged_row)
    (o : offer) :
  offer_of_row sku my j = Ok o -> offerId o = py_str (Artikul (left_row j)).
Proof.
  unfold offer_of_row. destruct sku as [[]|e]; [|done].
  rewrite result_bind_ok.
  destruct (ceil (NewPrice j)) as [p|e]; [|done].
  destruct (ceil (DiscountPrice my j)) as [d|e]; [|done].
  by intros [= <-].
Qed.

Lemma build_offers_ids (sku : result unit) (my : float)
    (df : list merged_row) (acc offers : list offer) :
  foldl (fun acc j =>
           offers ← acc; o ← offer_of_row sku my j; mret (offers ++ [o]))
        (Ok acc) df
  = Ok offers ->
  map offerId offers
  = map offerId acc ++ map (fun j => py_str (Artikul (left_row j))) df.
Proof.
  revert acc. induction df as [|j df IH]; intros acc; cbn [foldl map].
  - intros [= <-]. by rewrite app_nil_r.
  - rewrite result_bind_ok.
    destruct (offer_of_row sku my j) as [o|e] eqn:Hrow.
    + rewrite result_bind_ok. change (mret ?x) with (Ok x).
      intros Hrest%IH. rewrite Hrest, map_app. cbn [map].
      rewrite (offer_of_row_id _ _ _ _ Hrow). by rewrite <- app_assoc.
    + change (Raise e ≫= _) with (@Raise (list offer) e).
      by rewrite build_offers_raise.
Qed.

Lemma merged_skus (ps : list product_row) (ms : list markup_row) :
  map (fun j => py_str (Artikul (left_row j))) (fill_markup (merge_left ps ms))
  = flat_map (fun p =>
                replicate
                  (Nat.max 1 (length (filter (fun m => m_Mark m = Mark p) ms)))
                  (py_str (Artikul p))) ps.
Proof.
  unfold fill_markup, merge_left. rewrite map_map. cbn [left_row].
  induction ps as [|p ps IH]; [done|].
  cbn [flat_map]. rewrite map_app, IH. f_equal.
  destruct (filter (fun m => m_Mark m = Mark p) ms) as [|m hits]; [done|].
  rewrite map_map. cbn [left_row].
  replace (Nat.max 1 (length (m :: hits))) with (length (m :: hits))
    by (cbn; lia).
  generalize (m :: hits). intros l. induction l; cbn; [done|by f_equal].
Qed.

End PriceOfferCount.

(** X2.  Whenever the price pipeline's [prepare_offers_data] returns
    offers, both sheets carry their required columns and the offers
    follow the product rows in order, each product row giving as many
    offers as there are markup rows of its mark, and one offer when
    there is none; so there are never fewer offers than product rows. *)
Theorem prices_offers_per_product
    (df_products : sheet Prices.product_row)
    (df_markups : sheet Prices.markup_row) (offers : list Prices.offer) :
  Prices.prepare_offers_data df_products df_markups = Ok offers ->
  issubset Prices.required_columns_1 (columns df_products) = true
  /\ issubset Prices.required_columns_2 (columns df_markups) = true
  /\ map Prices.offerId offers
     = flat_map
         (fun p =>
            replicate
              (Nat.max 1
                 (length (filter (fun m => Prices.m_Mark m = Prices.Mark p)
                                 (rows df_markups))))
              (py_str (Prices.Artikul p)))
         (rows df_products)
  /\ (length (rows df_products) <= length offers)%nat.
Proof.
  unfold Prices.prepare_offers_data.
  destruct (issubset Prices.required_columns_1 _); [|done].
  destruct (issubset Prices.required_columns_2 _); [|done]. cbn [negb orb].
  unfold Prices.merge.
  destruct (Prices.merge_keys_agree _ _); [|done]. rewrite result_bind_ok.
  destruct (Prices.getitem "MarkUP" _ _) as [[]|e]; [|done].
  rewrite result_bind_ok.
  destruct (Prices.getitem "Price" _ _) as [[]|e]; [|done].
  rewrite result_bind_ok.
  destruct (Prices.lookup_markup_yandex _) as [my|e]; [|done].
  rewrite result_bind_ok. unfold Prices.build_offers.
  intros Hids%build_offers_ids. cbn [map app] in Hids.
  rewrite merged_skus in Hids.
  split; [done|]. split; [done|]. split; [done|].
  rewrite <- (length_map Prices.offerId offers), Hids.
  clear Hids. induction (rows df_products) as [|p ps IH]; [done|].
  cbn [flat_map length]. rewrite length_app, length_replicate. lia.
Qed.

(** One product of mark "A" against a markup sheet listing "A" twice:
    two offers for the one row. *)
Lemma prices_offers_per_product_example :
  map Prices.offerId
      [Prices.Offer "SKU-1" 200 180; Prices.Offer "SKU-1" 300 270]
  = ["SKU-1"; "SKU-1"]%string
  /\ (1 <= 2)%nat.
Proof.
  destruct (prices_offers_per_product Prices.example_products
              Prices.markups_duplicate_mark
              [Prices.Offer "SKU-1" 200 180; Prices.Offer "SKU-1" 300 270]
              ltac:(reflexivity))
    as (_ & _ & Hids & Hlen).
  split; [exact Hids|exact Hlen].
Defined.

(** ** The status update: which ids are sent *)

Section PayloadIds.
Import Confirmations.
Variable int_of_str : string -> option Z.

Lemma ids_of_integer_keys (rs : list row) :
  Forall (fun r => exists n, order_key r = Some (VInt n)) rs ->
  map (fun n => Some (VInt n))
      (omap (fun r : row => order_key r ≫= py_int int_of_str) rs)
  = map order_key rs.
Proof.
  induction 1 as [|r rs [n Hn] _ IH]; [done|].
  cbn [list_omap omap map]. rewrite Hn. cbn. by rewrite <- IH.
Qed.

End PayloadIds.

(** X3.  On a table with the column "HDRTAG2" whose keys are all
    integers of at most 2^53 in magnitude (the integers that a row
    read as float64 keeps as they are), deduplication followed by
    [build_order_payload] sends every order of the table exactly once:
    the ids sent are pairwise distinct, an id is sent if and only if
    some row of the table bears it, and the payload holds one entry per
    id, in the same order. *)
Theorem status_update_ids_distinct
    (int_of_str : string -> option Z) (df : Confirmations.DataFrame) :
  "HDRTAG2"%string ∈ columns df ->
  Forall (fun r => exists n, Confirmations.order_key r = Some (VInt n)
                             /\ - 2 ^ 53 <= n <= 2 ^ 53)
         (rows df) ->
  exists unique_df ids_sent,
    Confirmations.extract_unique_orders df = Some unique_df
    /\ Confirmations.build_order_payload int_of_str unique_df
         "PROCESSING" "READY_TO_SHIP"
       = (map (fun order_id =>
                 Confirmations.order_entry order_id "PROCESSING" "READY_TO_SHIP")
              ids_sent,
          ids_sent)
    /\ NoDup ids_sent
    /\ (forall n, n ∈ ids_sent
                  <-> exists r, r ∈ rows df
                                /\ Confirmations.order_key r = Some (VInt n)).
Proof.
  intros Hcol Hbounded.
  assert (Hint : Forall (fun r => exists n,
                           Confirmations.order_key r = Some (VInt n))
                        (rows df)).
  { eapply Forall_impl; [exact Hbounded|]. intros r (n & Hn & _). by exists n. }
  clear Hbounded.
  eexists _, _. split; [by apply extract_unique_orders_present|].
  split; [apply build_order_payload_ids|]. cbn [rows].
  set (kept := Confirmations.keep_first Confirmations.order_key [] (rows df)).
  assert (Hkept : Forall (fun r => exists n,
                            Confirmations.order_key r = Some (VInt n)) kept).
  { apply Forall_forall. intros r Hr.
    eapply Forall_forall in Hint; [exact Hint|].
    eapply elem_of_sublist; [exact Hr|apply keep_first_sublist]. }
  pose proof (ids_of_integer_keys int_of_str kept Hkept) as Hids.
  split.
  - apply (NoDup_fmap_1 (fun n => Some (VInt n))).
    change (NoDup (map (fun n => Some (VInt n))
                       (omap (fun r : Confirmations.row =>
                                Confirmations.order_key r
                                  ≫= Confirmations.py_int int_of_str) kept))).
    rewrite Hids. apply keep_first_NoDup.
  - intros n. split.
    + intros Hn.
      assert (Hin : Some (VInt n) ∈ map Confirmations.order_key kept).
      { rewrite <- Hids. apply list_elem_of_fmap. by exists n. }
      apply list_elem_of_fmap in Hin as (r & Hr & Hin).
      exists r. split; [|done].
      eapply elem_of_sublist; [exact Hin|apply keep_first_sublist].
    + intros (r & Hr & Hkey).
      pose proof (keep_first_complete Confirmations.order_key [] (rows df) r Hr
                    ltac:(apply not_elem_of_nil)) as Hin.
      fold kept in Hin. rewrite <- Hids, Hkey in Hin.
      apply list_elem_of_fmap in Hin as (n' & [= ->] & Hin). done.
Qed.

(** The table of three line items of two orders: the ids 1001 and 1002
    are sent once each. *)
Lemma status_update_ids_distinct_example :
  exists unique_df ids_sent,
    Confirmations.extract_unique_orders Confirmations.example_table
    = Some unique_df
    /\ Confirmations.build_order_payload (fun _ => None) unique_df
         "PROCESSING" "READY_TO_SHIP"
       = (map (fun order_id =>
                 Confirmations.order_entry order_id "PROCESSING" "READY_TO_SHIP")
              ids_sent,
          ids_sent)
    /\ NoDup ids_sent
    /\ (forall n, n ∈ ids_sent
                  <-> exists r, r ∈ rows Confirmations.example_table
                                /\ Confirmations.order_key r = Some (VInt n)).
Proof.
  apply (status_update_ids_distinct (fun _ => None) Confirmations.example_table).
  - left.
  - repeat (apply Forall_cons; split; [eexists; split; [reflexivity|lia]|]).
    constructor.
Defined.

(** ** The status update: how far the retries go *)

Section RetryBounds.
Import Confirmations.
Variable server : nat -> outcome.

Lemma status_update_loop_trace (attempts : list Z) (url : string)
    (payload : json) (max_retries retry_delay : Z) (log log' : list event)
    (r : result (option bool)) :
  status_update_loop server attempts url payload max_retries retry_delay log
  = (r, log') ->
  exists evs,
    log' = log ++ evs
    /\ Forall (fun e => e = HttpPost url payload \/ exists d, e = Sleep d) evs
    /\ (count_requests evs <= length attempts)%nat
    /\ (r = Ok (Some true) ->
        exists text, server (pred (count_requests log')) = Response 200 text).
Proof.
  revert log. induction attempts as [|attempt rest IH]; intros log.
  - cbn. intros [= <- <-]. exists []. rewrite app_nil_r.
    repeat split; [constructor|done|done].
  - rewrite status_update_loop_cons.
    assert (Hone : forall r0,
               (r0 = Ok (Some true) ->
                exists text, server (count_requests log) = Response 200 text) ->
               (r0, log ++ [HttpPost url payload]) = (r, log') ->
               exists evs,
                 log' = log ++ evs
                 /\ Forall (fun e => e = HttpPost url payload
                                     \/ exists d, e = Sleep d) evs
                 /\ (count_requests evs <= length (attempt :: rest))%nat
                 /\ (r = Ok (Some true) ->
                     exists text,
                       server (pred (count_requests log')) = Response 200 text)).
    { intros r0 Htrue [= <- <-]. exists [HttpPost url payload].
      split; [done|].
      split; [apply Forall_cons; split; [by left|constructor]|].
      split; [change (count_requests [HttpPost url payload]) with 1%nat;
              cbn [length]; lia|].
      rewrite count_requests_post. exact Htrue. }
    assert (Hmore :
              status_update_loop server rest url payload max_retries retry_delay
                ((log ++ [HttpPost url payload])
                   ++ [Sleep (retry_delay * attempt)]) = (r, log') ->
              exists evs,
                 log' = log ++ evs
                 /\ Forall (fun e => e = HttpPost url payload
                                     \/ exists d, e = Sleep d) evs
                 /\ (count_requests evs <= length (attempt :: rest))%nat
                 /\ (r = Ok (Some true) ->
                     exists text,
                       server (pred (count_requests log')) = Response 200 text)).
    { intros (evs & -> & Hevs & Hcount & Htrue)%IH.
      exists ([HttpPost url payload; Sleep (retry_delay * attempt)] ++ evs).
      split; [by rewrite <- !app_assoc|].
      split.
      { cbn [app]. apply Forall_cons; split; [by left|].
        apply Forall_cons; split; [right; by eexists|done]. }
      split; [|done].
      rewrite count_requests_app.
      change (count_requests [HttpPost url payload;
                              Sleep (retry_delay * attempt)]) with 1%nat.
      cbn [length]. lia. }
    destruct (server (count_requests log)) as [status_code text| |] eqn:Hserver.
    + destruct (Z.eqb_spec status_code 200) as [->|Hne].
      { apply Hone. intros _. by exists text. }
      destruct (bool_decide _); [|by apply Hone].
      destruct (attempt <? max_retries); [|by apply Hone].
      destruct (retry_delay * attempt <? 0); [by apply Hone|done].
    + destruct (attempt <? max_retries); [|by apply Hone].
      destruct (retry_delay * attempt <? 0); [by apply Hone|done].
    + by apply Hone.
Qed.

Lemma status_update_loop_not_none (n : nat) (first : Z) (url : string)
    (payload : json) (max_retries retry_delay : Z) (log log' : list event) :
  (0 < n)%nat -> first + Z.of_nat n = max_retries + 1 ->
  status_update_loop server (seqZ first (Z.of_nat n)) url payload max_retries
                     retry_delay log
  <> (Ok None, log').
Proof.
  revert first log. induction n as [|n IH]; intros first log Hn Hlast; [lia|].
  rewrite seqZ_cons by lia. rewrite status_update_loop_cons.
  replace (Z.pred (Z.of_nat (S n))) with (Z.of_nat n) by lia.
  assert (Hmore : (first <? max_retries) = true ->
                  forall lg,
                    status_update_loop server (seqZ (Z.succ first) (Z.of_nat n))
                      url payload max_retries retry_delay lg
                    <> (Ok None, log')).
  { intros Hlt%Z.ltb_lt lg. apply IH; lia. }
  destruct (server (count_requests log)) as [status_code text| |].
  - destruct (status_code =? 200); [done|].
    destruct (bool_decide _); [|done].
    destruct (first <? max_retries); [|done].
    destruct (retry_delay * first <? 0); [done|by apply Hmore].
  - destruct (first <? max_retries); [|done].
    destruct (retry_delay * first <? 0); [done|by apply Hmore].
  - done.
Qed.

End RetryBounds.

(** X4.  Whatever the server answers, [send_status_update_request]
    sends at most [max_retries] requests and its log only grows by
    requests to the status-update address and sleeps; it returns True
    only when its last request was answered with 200; and it returns
    [None] exactly when [max_retries] is below 1, in which case nothing
    is sent. *)
Theorem send_status_update_request_bounded
    (server : nat -> Confirmations.outcome) (payload : json)
    (campaign_id : string) (hdrs : list (string * string))
    (max_retries retry_delay : Z) (log log' : list event)
    (r : result (option bool)) :
  Confirmations.send_status_update_request server payload campaign_id hdrs
    max_retries retry_delay log = (r, log') ->
  (exists evs,
      log' = log ++ evs
      /\ Forall (fun e =>
                   e = HttpPost (Confirmations.status_update_url campaign_id)
                                payload
                   \/ exists d, e = Sleep d) evs
      /\ (Confirmations.count_requests evs <= Z.to_nat max_retries)%nat)
  /\ (r = Ok (Some true) ->
      exists text,
        server (pred (Confirmations.count_requests log'))
        = Confirmations.Response 200 text)
  /\ (r = Ok None <-> max_retries < 1)
  /\ (max_retries < 1 -> log' = log).
Proof.
  unfold Confirmations.send_status_update_request. intros Hrun.
  pose proof (status_update_loop_trace server _ _ _ _ _ _ _ _ Hrun)
    as (evs & Hlog & Hevs & Hcount & Htrue).
  rewrite length_seqZ in Hcount.
  split; [by exists evs|]. split; [done|]. split; [split|].
  - intros ->. destruct (Z.lt_ge_cases max_retries 1) as [|Hge]; [done|].
    exfalso. revert Hrun.
    rewrite <- (Z2Nat.id max_retries) at 1 by lia.
    apply status_update_loop_not_none; lia.
  - intros Hlt. rewrite seqZ_nil in Hrun by lia. by injection Hrun as <- _.
  - intros Hlt. rewrite seqZ_nil in Hrun by lia. by injection Hrun as _ <-.
Qed.

(** A server that answers 503 and then 200: two requests, the second
    one answered with 200. *)
Lemma send_status_update_request_bounded_example :
  (exists evs,
      [HttpPost (Confirmations.status_update_url "CAMPAIGN")
                one_order_payload;
       Sleep 3;
       HttpPost (Confirmations.status_update_url "CAMPAIGN")
                one_order_payload]
      = [] ++ evs
      /\ Forall (fun e =>
                   e = HttpPost (Confirmations.status_update_url "CAMPAIGN")
                                one_order_payload
                   \/ exists d, e = Sleep d) evs
      /\ (Confirmations.count_requests evs <= Z.to_nat 3)%nat).
Proof.
  apply (send_status_update_request_bounded
           (fun n => match n with
                     | O => Confirmations.Response 503 "busy"
                     | _ => Confirmations.Response 200 "OK"
                     end)
           one_order_payload "CAMPAIGN" [] 3 3 []
           [HttpPost (Confirmations.status_update_url "CAMPAIGN")
                     one_order_payload;
            Sleep 3;
            HttpPost (Confirmations.status_update_url "CAMPAIGN")
                     one_order_payload]
           (Ok (Some true))).
  reflexivity.
Defined.

(** ** The status update: network exceptions *)

(** X5.  [send_status_update_request] treats a network exception like
    a retryable status: three exceptions running under
    [max_retries = 3] give three requests with sleeps of
    [retry_delay × 1] and [retry_delay × 2] between them and the result
    False, and an exception followed by a 200 gives True after two
    requests; any other exception fails at once, without a retry.
    With a negative [retry_delay], [time.sleep] refuses the duration:
    after a retryable status that is answered with False, but after a
    network exception the ValueError leaves the function. *)
Theorem send_status_update_request_on_exceptions
    (server : nat -> Confirmations.outcome) (payload : json)
    (campaign_id : string) (hdrs : list (string * string))
    (retry_delay : Z) (log : list event) :
  let url := Confirmations.status_update_url campaign_id in
  let first := Confirmations.count_requests log in
  (0 <= retry_delay ->
   (forall k, (k < 3)%nat ->
              server (first + k)%nat = Confirmations.RequestException) ->
   Confirmations.send_status_update_request server payload campaign_id hdrs 3
     retry_delay log
   = (Ok (Some false),
      log ++ [HttpPost url payload; Sleep (retry_delay * 1);
              HttpPost url payload; Sleep (retry_delay * 2);
              HttpPost url payload]))
  /\ (forall max_retries text,
         0 <= retry_delay -> 1 < max_retries ->
         server first = Confirmations.RequestException ->
         server (S first) = Confirmations.Response 200 text ->
         Confirmations.send_status_update_request server payload campaign_id
           hdrs max_retries retry_delay log
         = (Ok (Some true),
            log ++ [HttpPost url payload; Sleep (retry_delay * 1);
                    HttpPost url payload]))
  /\ (forall max_retries,
         1 <= max_retries ->
         server first = Confirmations.OtherException ->
         Confirmations.send_status_update_request server payload campaign_id
           hdrs max_retries retry_delay log
         = (Ok (Some false), log ++ [HttpPost url payload]))
  /\ (forall max_retries,
         retry_delay < 0 -> 1 < max_retries ->
         server first = Confirmations.RequestException ->
         Confirmations.send_status_update_request server payload campaign_id
           hdrs max_retries retry_delay log
         = (Raise ValueError, log ++ [HttpPost url payload]))
  /\ (forall max_retries status_code text,
         retry_delay < 0 -> 1 < max_retries ->
         server first = Confirmations.Response status_code text ->
         status_code ∈ [429; 500; 502; 503; 504] ->
         Confirmations.send_status_update_request server payload campaign_id
           hdrs max_retries retry_delay log
         = (Ok (Some false), log ++ [HttpPost url payload])).
Proof.
  intros url first. unfold Confirmations.send_status_update_request. fold url.
  split; [|split; [|split; [|split]]].
  - intros Hdelay Hexn.
    pose proof (Hexn 0%nat ltac:(lia)) as H0.
    pose proof (Hexn 1%nat ltac:(lia)) as H1.
    pose proof (Hexn 2%nat ltac:(lia)) as H2.
    rewrite Nat.add_0_r in H0.
    change (seqZ 1 3) with [1; 2; 3].
    rewrite status_update_loop_cons. fold first. rewrite H0.
    change (1 <? 3) with true. cbn match.
    rewrite (proj2 (Z.ltb_ge _ _)) by lia.
    rewrite status_update_loop_cons, count_requests_post_sleep. fold first.
    rewrite <- Nat.add_1_r, H1.
    change (2 <? 3) with true. cbn match.
    rewrite (proj2 (Z.ltb_ge _ _)) by lia.
    rewrite status_update_loop_cons, count_requests_post_sleep,
      count_requests_post_sleep. fold first.
    replace (S (S first)) with (first + 2)%nat by lia. rewrite H2.
    change (3 <? 3) with false. cbn match.
    by rewrite <- !app_assoc.
  - intros max_retries text Hdelay Hmax Hfirst Hsecond.
    rewrite (seqZ_cons 1 max_retries) by lia.
    rewrite status_update_loop_cons. fold first. rewrite Hfirst.
    rewrite (proj2 (Z.ltb_lt 1 max_retries)) by lia.
    rewrite (proj2 (Z.ltb_ge _ _)) by lia.
    rewrite (seqZ_cons (Z.succ 1)) by lia.
    rewrite status_update_loop_cons, count_requests_post_sleep. fold first.
    rewrite Hsecond. change (200 =? 200) with true. cbn match.
    by rewrite <- !app_assoc.
  - intros max_retries Hmax Hfirst.
    rewrite (seqZ_cons 1 max_retries) by lia.
    rewrite status_update_loop_cons. fold first. by rewrite Hfirst.
  - intros max_retries Hdelay Hmax Hfirst.
    rewrite (seqZ_cons 1 max_retries) by lia.
    rewrite status_update_loop_cons. fold first. rewrite Hfirst.
    rewrite (proj2 (Z.ltb_lt 1 max_retries)) by lia.
    by rewrite (proj2 (Z.ltb_lt _ _)) by lia.
  - intros max_retries status_code text Hdelay Hmax Hfirst Hretry.
    rewrite (seqZ_cons 1 max_retries) by lia.
    rewrite status_update_loop_cons. fold first. rewrite Hfirst.
    rewrite (proj2 (Z.eqb_neq _ _) (retryable_not_200 _ Hretry)).
    rewrite bool_decide_eq_true_2 by done.
    rewrite (proj2 (Z.ltb_lt 1 max_retries)) by lia.
    by rewrite (proj2 (Z.ltb_lt _ _)) by lia.
Qed.

(** A connection that fails three times running, with the default
    delay of 3 seconds. *)
Lemma send_status_update_request_on_exceptions_example :
  Confirmations.send_status_update_request
    (fun _ => Confirmations.RequestException) one_order_payload "CAMPAIGN" []
    3 3 []
  = (Ok (Some false),
     [HttpPost (Confirmations.status_update_url "CAMPAIGN") one_order_payload;
      Sleep 3;
      HttpPost (Confirmations.status_update_url "CAMPAIGN") one_order_payload;
      Sleep 6;
      HttpPost (Confirmations.status_update_url "CAMPAIGN") one_order_payload]).
Proof.
  apply (proj1 (send_status_update_request_on_exceptions
                  (fun _ => Confirmations.RequestException) one_order_payload
                  "CAMPAIGN" [] 3 [])).
  - discriminate.
  - reflexivity.
Defined.

(** ** Ingestion of confirmation files *)

Section IngestionFacts.
Import Confirmations.





End IngestionFacts.



(** The table read in that example. *)
Lemma append_data_from_file_example_table :
  Confirmations.append_data_from_file disk_with_gap "inbox/7.xls" None
  = Some (Sheet ["HDRTAG2"; "QNT"]%string
                [ {[ "HDRTAG2"%string := VInt 7;
                     "QNT"%string := VStr "нет данных" ]} ]).
Proof.
  unfold Confirmations.append_data_from_file, Confirmations.read_excel,
    disk_with_gap.
  rewrite lookup_singleton_eq. unfold Confirmations.fillna, sheet_with_gap.
  cbn [columns rows map]. by rewrite ?fmap_insert, ?fmap_singleton.
Qed.


Section UnreadableFacts.
Import Confirmations.
Variable os_error : os_call -> option exn.

Lemma walk_as_one_loop (processed_dir : string)
    (listing : list (string * list string))
    (st : list (option DataFrame) * gmap string file) :
  foldl (fun st '(root, files) =>
           foldl (fun st file_name =>
                    process_one os_error processed_dir root file_name st)
                 st files)
        st listing
  = foldl (fun st entry =>
             process_one os_error processed_dir entry.1 entry.2 st)
          st (walked_files listing).
Proof.
  revert st. induction listing as [|[root names] listing IH]; intros st;
    [done|].
  cbn [foldl walked_files flat_map fst snd]. rewrite foldl_app, IH. f_equal.
  clear IH. revert st. induction names as [|name names IH]; intros st; [done|].
  cbn [foldl map]. apply IH.
Qed.

Lemma shutil_move_no_workbook (src dst : string) (fs : gmap string file) :
  no_workbook fs -> no_workbook (shutil_move os_error src dst fs).
Proof.
  intros Hfs p t. unfold shutil_move.
  destruct (fs !! src) as [content|] eqn:Hsrc; [|apply Hfs].
  destruct (os_error (Move src dst)); [apply Hfs|].
  destruct (decide (p = dst)) as [->|Hne].
  - rewrite lookup_insert_eq. intros [= ->]. by eapply Hfs.
  - rewrite lookup_insert_ne by done.
    destruct (decide (p = src)) as [->|Hne'].
    + by rewrite lookup_delete_eq.
    + rewrite lookup_delete_ne by done. apply Hfs.
Qed.

Lemma process_one_cases (processed_dir root file_name : string)
    (dfs : list (option DataFrame)) (fs : gmap string file) :
  no_workbook fs ->
  (~ is_new processed_dir fs file_name
   /\ process_one os_error processed_dir root file_name (dfs, fs) = (dfs, fs))
  \/ (is_new processed_dir fs file_name
      /\ exists fs1,
          process_one os_error processed_dir root file_name (dfs, fs)
          = (dfs ++ [None], fs1)
          /\ no_workbook fs1).
Proof.
  intros Hfs. unfold process_one, is_new.
  destruct (endswith file_name ".xls"); cbn [negb].
  - case_bool_decide as Hpresent.
    + left. split; [|done]. intros [_ Hnone]. rewrite Hnone in Hpresent.
      by destruct Hpresent.
    + right. split.
      { split; [done|]. destruct (fs !! _) eqn:E; [|done].
        destruct Hpresent. by eexists. }
      eexists. split; [|by apply shutil_move_no_workbook].
      unfold append_data_from_file, read_excel.
      destruct (fs !! path_join root file_name) as [[t|]|] eqn:E; [|done|done].
      by destruct (Hfs _ _ E).
  - left. split; [|done]. by intros [? _].
Qed.

Lemma walk_unreadable (processed_dir : string) (l : list (string * string))
    (dfs dfs' : list (option DataFrame)) (fs fs' : gmap string file) :
  no_workbook fs ->
  foldl (fun st entry =>
           process_one os_error processed_dir entry.1 entry.2 st)
        (dfs, fs) l = (dfs', fs') ->
  no_workbook fs'
  /\ exists extra,
      dfs' = dfs ++ extra
      /\ Forall (fun df => df = None) extra
      /\ (extra = [] -> fs' = fs)
      /\ ((exists entry, entry ∈ l /\ is_new processed_dir fs entry.2) ->
          extra <> [])
      /\ ((forall entry, entry ∈ l -> ~ is_new processed_dir fs entry.2) ->
          extra = []).
Proof.
  revert dfs fs. induction l as [|[root name] l IH]; intros dfs fs Hfs.
  - cbn. intros [= <- <-]. split; [done|]. exists [].
    rewrite app_nil_r. repeat split; [constructor|].
    intros (entry & Hin & _). by apply elem_of_nil in Hin.
  - cbn [foldl fst snd].
    destruct (process_one_cases processed_dir root name dfs fs Hfs)
      as [[Hold ->]|[Hnew (fs1 & -> & Hfs1)]].
    + intros (Hfs' & extra & -> & Hnone & Hsame & Hsome & Hnothing)%IH;
        [|done].
      split; [done|]. exists extra. repeat split; [done|done| |].
      * intros (entry & [->|Hin]%elem_of_cons & Hentry); [done|].
        apply Hsome. by exists entry.
      * intros Hold'. apply Hnothing. intros entry Hin.
        apply Hold'. by right.
    + intros (Hfs' & extra & -> & Hnone & _ & _)%IH; [|done].
      split; [done|]. exists (None :: extra).
      split; [by rewrite <- app_assoc|].
      split; [by constructor|]. split; [done|]. split; [done|].
      intros Hold'. destruct (Hold' (root, name)); [left|done].
Qed.

Lemma omap_all_none (l : list (option DataFrame)) :
  Forall (fun df => df = None) l -> omap id l = [].
Proof. induction 1 as [|? ? -> _ IH]; [done|]. exact IH. Qed.

(** The disk after one walked file: a new name has its file moved. *)
Lemma process_one_disk (processed_dir : string) (entry : string * string)
    (dfs : list (option DataFrame)) (fs : gmap string file) :
  (process_one os_error processed_dir entry.1 entry.2 (dfs, fs)).2
  = if endswith entry.2 ".xls"
       && negb (bool_decide (is_Some (fs !! archive_path processed_dir entry)))
    then shutil_move os_error (source_path entry)
           (archive_path processed_dir entry) fs
    else fs.
Proof.
  unfold process_one, archive_path, source_path.
  destruct (endswith entry.2 ".xls"); [|done]. cbn [negb andb].
  by case_bool_decide.
Qed.

(** A file that is on the disk and that the walk does not list stays
    as it is. *)
Lemma walk_keeps (processed_dir p : string) (l : list (string * string))
    (dfs : list (option DataFrame)) (fs : gmap string file) :
  is_Some (fs !! p) ->
  (forall e, e ∈ l -> source_path e <> p) ->
  (foldl (fun st entry =>
            process_one os_error processed_dir entry.1 entry.2 st)
         (dfs, fs) l).2 !! p
  = fs !! p.
Proof.
  revert dfs fs. induction l as [|e l IH]; intros dfs fs Hp Hl; [done|].
  cbn [foldl].
  pose proof (process_one_disk processed_dir e dfs fs) as Hdisk.
  destruct (process_one os_error processed_dir e.1 e.2 (dfs, fs))
    as [dfs1 fs1]. cbn [snd] in Hdisk.
  assert (Hsame : fs1 !! p = fs !! p).
  { rewrite Hdisk. destruct (endswith e.2 ".xls"); [|done]. cbn [andb].
    case_bool_decide as Hdst; [done|]. cbn [negb]. unfold shutil_move.
    destruct (fs !! source_path e); [|done].
    destruct (os_error _); [done|].
    rewrite lookup_insert_ne by (intros Heq; apply Hdst; by rewrite Heq).
    apply lookup_delete_ne. apply Hl. left. }
  rewrite <- Hsame. apply IH.
  - by rewrite Hsame.
  - intros e' He'. apply Hl. by right.
Qed.

(** A path that holds no file and is no archive path of a walked file
    still holds none afterwards. *)
Lemma walk_adds_to_archive_only (processed_dir p : string)
    (l : list (string * string))
    (dfs : list (option DataFrame)) (fs : gmap string file) :
  fs !! p = None ->
  (forall e, e ∈ l -> archive_path processed_dir e <> p) ->
  (foldl (fun st entry =>
            process_one os_error processed_dir entry.1 entry.2 st)
         (dfs, fs) l).2 !! p
  = None.
Proof.
  revert dfs fs. induction l as [|e l IH]; intros dfs fs Hp Hl; [done|].
  cbn [foldl].
  pose proof (process_one_disk processed_dir e dfs fs) as Hdisk.
  destruct (process_one os_error processed_dir e.1 e.2 (dfs, fs))
    as [dfs1 fs1]. cbn [snd] in Hdisk.
  apply IH; [|intros e' He'; apply Hl; by right].
  rewrite Hdisk. destruct (endswith e.2 ".xls"); [|done]. cbn [andb].
  case_bool_decide as Hdst; [done|]. cbn [negb]. unfold shutil_move.
  destruct (fs !! source_path e); [|done].
  destruct (os_error _); [done|].
  rewrite lookup_insert_ne by (apply Hl; left).
  apply lookup_delete_None. by right.
Qed.

(** What the walk does with one of its files that is on the disk. *)
Lemma walk_moves (processed_dir : string) (l : list (string * string))
    (entry : string * string) (fs : gmap string file) :
  NoDup (map source_path l) ->
  (forall e1 e2, e1 ∈ l -> e2 ∈ l ->
                 source_path e1 <> archive_path processed_dir e2) ->
  (forall e, e ∈ l ->
             os_error (Move (source_path e) (archive_path processed_dir e))
             = None) ->
  entry ∈ l ->
  is_new processed_dir fs entry.2 ->
  is_Some (fs !! source_path entry) ->
  let fs' := (foldl (fun st entry =>
                       process_one os_error processed_dir entry.1 entry.2 st)
                    ([], fs) l).2 in
  is_Some (fs' !! archive_path processed_dir entry)
  /\ (NoDup (map (archive_path processed_dir) l) ->
      fs' !! source_path entry = None).
Proof.
  intros Hsources Hapart Hmoves Hin [Hxls Hnew] Hthere fs'.
  apply list_elem_of_split in Hin as (l1 & l2 & ->).
  subst fs'. rewrite foldl_app. cbn [foldl].
  rewrite map_app in Hsources. cbn [map] in Hsources.
  apply NoDup_app in Hsources as (_ & Hbefore & _).
  assert (Hkept :
    (foldl (fun st entry =>
              process_one os_error processed_dir entry.1 entry.2 st)
           ([], fs) l1).2 !! source_path entry
    = fs !! source_path entry).
  { apply walk_keeps; [done|]. intros e He Heq.
    apply (Hbefore (source_path entry)).
    - rewrite <- Heq. apply list_elem_of_fmap. by exists e.
    - left. }
  destruct (foldl _ ([], fs) l1) as [dfs_a fs_a] eqn:Hwalk1. cbn [snd] in Hkept.
  pose proof (process_one_disk processed_dir entry dfs_a fs_a) as Hdisk.
  destruct (process_one os_error processed_dir entry.1 entry.2 (dfs_a, fs_a))
    as [dfs_b fs_b]. cbn [snd] in Hdisk.
  assert (Hlater : forall e, e ∈ l2 -> e ∈ l1 ++ entry :: l2).
  { intros e He. apply elem_of_app. right. by right. }
  assert (Hself : entry ∈ l1 ++ entry :: l2).
  { apply elem_of_app. right. left. }
  assert (Harchived : is_Some (fs_b !! archive_path processed_dir entry)).
  { rewrite Hdisk, Hxls. cbn [andb].
    case_bool_decide as Hdst; [done|]. cbn [negb]. unfold shutil_move.
    rewrite Hkept. destruct Hthere as [content ->].
    rewrite (Hmoves entry Hself). by rewrite lookup_insert_eq. }
  split.
  - rewrite walk_keeps; [done|done|].
    intros e He. apply Hapart; [by apply Hlater|done].
  - intros Hnames. rewrite map_app in Hnames. cbn [map] in Hnames.
    apply NoDup_app in Hnames as (_ & Hnames & _).
    assert (Hfresh : fs_a !! archive_path processed_dir entry = None).
    { replace fs_a with
        (foldl (fun st entry =>
                  process_one os_error processed_dir entry.1 entry.2 st)
               ([], fs) l1).2 by (by rewrite Hwalk1).
      apply walk_adds_to_archive_only; [done|]. intros e He Heq.
      apply (Hnames (archive_path processed_dir entry)).
      - rewrite <- Heq. apply list_elem_of_fmap. by exists e.
      - left. }
    apply walk_adds_to_archive_only.
    + rewrite Hdisk, Hxls. cbn [andb]. rewrite Hfresh.
      rewrite bool_decide_eq_false_2 by (by intros [? ?]). cbn [negb].
      unfold shutil_move. rewrite Hkept. destruct Hthere as [content ->].
      rewrite (Hmoves entry Hself).
      rewrite lookup_insert_ne
        by (intros Heq; by apply (Hapart entry entry Hself Hself)).
      apply lookup_delete_eq.
    + intros e He Heq. apply (Hapart entry e Hself (Hlater e He)). done.
Qed.

End UnreadableFacts.

(** X7.  On a disk without a readable spreadsheet, once the archive
    directory is made, [process_confirmation_files] does not come back
    with a table as soon as the walk meets one new ".xls" file: every
    new file yields [None] and [pd.concat] refuses the list of nothing
    but [None] with ValueError.  The new files are moved to the archive
    all the same: when the walk lists each file once and none that lies
    in the archive, and the operating system lets them be moved, every
    new file that is on the disk is in the archive afterwards, and no
    longer in the inbox when no two walked files share an archive
    path.  The disk still holds no readable spreadsheet afterwards. *)
Theorem process_confirmation_files_unreadable
    (os_error : os_call -> option exn)
    (os_walk : gmap string Confirmations.file -> string
               -> list (string * list string))
    (source_dir processed_dir : string)
    (fs fs' : gmap string Confirmations.file)
    (r : result Confirmations.DataFrame) :
  let walked := walked_files (os_walk fs source_dir) in
  no_workbook fs ->
  os_error (Makedirs processed_dir) = None ->
  Confirmations.process_confirmation_files os_error os_walk source_dir
    processed_dir fs
  = (r, fs') ->
  no_workbook fs'
  /\ ((exists entry, entry ∈ walked /\ is_new processed_dir fs entry.2) ->
      r = Raise ValueError)
  /\ ((forall entry, entry ∈ walked -> ~ is_new processed_dir fs entry.2) ->
      r = Ok Confirmations.empty_frame /\ fs' = fs)
  /\ (NoDup (map source_path walked) ->
      (forall e1 e2, e1 ∈ walked -> e2 ∈ walked ->
                     source_path e1 <> archive_path processed_dir e2) ->
      (forall e, e ∈ walked ->
                 os_error (Move (source_path e) (archive_path processed_dir e))
                 = None) ->
      forall entry,
        entry ∈ walked ->
        is_new processed_dir fs entry.2 ->
        is_Some (fs !! source_path entry) ->
        fs' !! archive_path processed_dir entry = Some Confirmations.Unreadable
        /\ (NoDup (map (archive_path processed_dir) walked) ->
            fs' !! source_path entry = None)).
Proof.
  intros walked Hfs Hmakedirs.
  unfold Confirmations.process_confirmation_files.
  rewrite Hmakedirs, walk_as_one_loop. fold walked.
  pose proof (fun entry => walk_moves os_error processed_dir walked entry fs)
    as Hmoved.
  cbv zeta in Hmoved.
  destruct (foldl _ _ _) as [dfs fs1] eqn:Hwalk. cbn [snd] in Hmoved.
  apply walk_unreadable in Hwalk
    as (Hfs1 & extra & -> & Hnone & Hsame & Hsome & Hnothing); [|done].
  cbn [app]. intros Hresult.
  assert (Hdisk : fs' = fs1) by (destruct extra; by injection Hresult as _ <-).
  subst fs1.
  split; [done|]. split; [|split].
  - intros Hnew. specialize (Hsome Hnew).
    destruct extra as [|df extra]; [done|]. injection Hresult as <-.
    unfold Confirmations.pd_concat. by rewrite (omap_all_none _ Hnone).
  - intros Hold. rewrite (Hnothing Hold) in Hresult, Hsame.
    injection Hresult as <-. split; [done|]. by apply Hsame.
  - intros Hsources Hapart Hallowed entry Hin Hnew Hthere.
    destruct (Hmoved entry Hsources Hapart Hallowed Hin Hnew Hthere)
      as [[content Harchived] Hgone].
    split; [|exact Hgone].
    rewrite Harchived. destruct content as [t|]; [|done].
    by destruct (Hfs1 _ _ Harchived).
Qed.

(** The inbox with one damaged confirmation: the run raises, and the
    file has gone from the inbox to the archive. *)
Lemma process_confirmation_files_unreadable_example :
  exists fs',
    Confirmations.process_confirmation_files (fun _ => None) walk_damaged
      "inbox" "processed" disk_damaged
    = (Raise ValueError, fs')
    /\ fs' !! "processed/9.xls"%string = Some Confirmations.Unreadable
    /\ fs' !! "inbox/9.xls"%string = None.
Proof.
  destruct (Confirmations.process_confirmation_files (fun _ => None)
              walk_damaged "inbox" "processed" disk_damaged)
    as [r fs'] eqn:Hrun.
  assert (Hdisk : no_workbook disk_damaged).
  { intros p t. unfold disk_damaged.
    destruct (decide (p = "inbox/9.xls"%string)) as [->|Hne].
    - by rewrite lookup_singleton_eq.
    - by rewrite lookup_singleton_ne. }
  assert (Hnew : is_new "processed" disk_damaged "9.xls").
  { split; [reflexivity|]. vm_compute. reflexivity. }
  destruct (process_confirmation_files_unreadable (fun _ => None)
              walk_damaged "inbox" "processed" disk_damaged fs' r
              Hdisk eq_refl Hrun)
    as (_ & Hraises & _ & Hmoved).
  exists fs'. split.
  - f_equal. apply Hraises.
    exists ("inbox"%string, "9.xls"%string). split; [left|exact Hnew].
  - destruct (Hmoved ltac:(apply NoDup_singleton)
                ltac:(intros ? ? ->%list_elem_of_singleton
                             ->%list_elem_of_singleton; discriminate)
                ltac:(done)
                ("inbox"%string, "9.xls"%string) ltac:(left) Hnew
                ltac:(by eexists))
      as [Harchived Hgone].
    split; [exact Harchived|].
    apply Hgone. apply NoDup_singleton.
Defined.

(** ** The recap workbook *)

Lemma result_bind_raise {A B} (f : A -> result B) (e : exn) :
  (Raise e ≫= f) = Raise e.
Proof. reflexivity. Qed.

Section RecapFacts.
Import Confirmations.





End RecapFacts.



(** The empty table: no sheet is written, closing the writer raises
    IndexError and the file it opened is left. *)
Lemma save_orders_to_excel_empty_table :
  Confirmations.save_orders_to_excel (fun _ => None) (fun _ _ df => df)
    (fun _ _ => []) "031125-101500" Confirmations.empty_frame "recaps" []
  = (Raise IndexError, [WorkbookSaved "recap-YANDEX-031125-101500.xlsx"]).
Proof. vm_compute. reflexivity. Qed.

(** A table that has the columns of the first pivot only: the first
    sheet is saved and the KeyError of the second pivot goes on. *)
Lemma save_orders_to_excel_partial :
  Confirmations.save_orders_to_excel (fun _ => None) (fun _ _ df => df)
    (fun _ _ => []) "031125-101500"
    (Sheet ["QNT"; "HDRTAG2"; "HDRTAG1"]%string []) "recaps" []
  = (Raise (KeyError "FIRM"),
     [WorkbookSaved "recap-YANDEX-031125-101500.xlsx"]).
Proof. vm_compute. reflexivity. Qed.

Section OrchestratorFacts.
Import Confirmations.
Variable int_of_str : string -> option Z.
Variable server : nat -> outcome.

Lemma update_order_statuses_trace (df : DataFrame) (campaign_id : string)
    (hdrs : list (string * string)) (max_retries retry_delay : Z)
    (log log' : list event) (r : result (option (list Z))) :
  update_order_statuses int_of_str server df campaign_id hdrs max_retries
    retry_delay log = (r, log') ->
  exists net,
    log' = log ++ net
    /\ Forall (status_update_event (status_update_url campaign_id)) net.
Proof.
  assert (Hnil : forall r0, (r0, log) = (r, log') ->
            exists net, log' = log ++ net
              /\ Forall (status_update_event (status_update_url campaign_id))
                        net).
  { intros r0 [= _ <-]. exists []. by rewrite app_nil_r. }
  unfold update_order_statuses.
  destruct (negb (validate_dataframe df)); [apply Hnil|].
  destruct (extract_unique_orders df) as [unique_df|]; [|apply Hnil].
  destruct (build_order_payload int_of_str unique_df _ _)
    as [orders ids_sent].
  destruct orders as [|o orders]; [apply Hnil|].
  unfold send_status_update_request.
  destruct (status_update_loop _ _ _ _ _ _ _) as [r1 lg] eqn:Hloop.
  apply status_update_loop_trace in Hloop as (net & -> & Hnet & _).
  assert (Hev : Forall (status_update_event (status_update_url campaign_id))
                       net).
  { eapply Forall_impl; [exact Hnet|]. intros e [->|Hd]; [left|right]; eauto. }
  destruct r1 as [[[]|]|e]; intros [= _ <-]; by exists net.
Qed.

Lemma save_orders_to_excel_trace
    (os_error : os_call -> option exn)
    (pivot_sum : list string -> string -> DataFrame -> DataFrame)
    (groups : string -> DataFrame -> list (value * DataFrame))
    (id_recap : string) (dataframe : DataFrame) (output_path : string)
    (log log' : list event) (r : result string) :
  save_orders_to_excel os_error pivot_sum groups id_recap dataframe
    output_path log
  = (r, log') ->
  (exists file_name, r = Ok file_name /\ log' = log ++ [WorkbookSaved file_name])
  \/ (exists e file_name,
         r = Raise e
         /\ (log' = log \/ log' = log ++ [WorkbookSaved file_name])).
Proof.
  unfold save_orders_to_excel.
  destruct (os_error (Makedirs output_path));
    [intros [= <- <-]; right; eexists _, ""%string; eauto|].
  destruct (os_error (OpenWrite _));
    [intros [= <- <-]; right; eexists _, ""%string; eauto|].
  destruct (recap_sheets pivot_sum groups dataframe).
  - intros [= <- <-]. left. eauto.
  - destruct (is_ok _); intros [= <- <-]; right; eexists _, _; eauto.
Qed.

Lemma unique_values_NoDup (label : string) (df : DataFrame)
    (vs : list value) :
  unique_values label df = Ok vs -> NoDup vs.
Proof.
  unfold unique_values. destruct (missing_label _ df); [done|].
  intros [= <-]. apply NoDup_remove_dups.
Qed.

End OrchestratorFacts.

(** X9.  Whatever the inbox, the tables and the server, a run of the
    confirmations [main] adds to the event log nothing, or the saved
    workbook alone, or the saved workbook, then one request for the
    labels of pairwise distinct order ids, then only status-update
    requests to the campaign's URL and pauses; a run that returns has
    added the workbook and the label request.  So no status update is
    ever sent before the recap is saved and the labels are asked for. *)
Theorem confirmations_main_event_order
    (os_error : os_call -> option exn)
    (os_walk : gmap string Confirmations.file -> string
               -> list (string * list string))
    (pivot_sum : list string -> string -> Confirmations.DataFrame
                 -> Confirmations.DataFrame)
    (groups : string -> Confirmations.DataFrame
              -> list (value * Confirmations.DataFrame))
    (id_recap : string) (int_of_str : string -> option Z)
    (server : nat -> Confirmations.outcome)
    (download_from_ftp : gmap string Confirmations.file
                         -> result unit * gmap string Confirmations.file)
    (format_report_sheets : string -> result unit)
    (CONFIRMATION_DIR CONFIRMATION_PROCESSED RECAPS_DIR CAMPAIGN_ID : string)
    (HEADERS : list (string * string))
    (w w' : Confirmations.world) (r : result unit) :
  Confirmations.main os_error os_walk pivot_sum groups id_recap int_of_str
    server download_from_ftp format_report_sheets CONFIRMATION_DIR
    CONFIRMATION_PROCESSED RECAPS_DIR CAMPAIGN_ID HEADERS w = (r, w') ->
  exists evs,
    Confirmations.log w' = Confirmations.log w ++ evs
    /\ orchestrated (Confirmations.status_update_url CAMPAIGN_ID) evs
    /\ (r = Ok tt ->
        exists file_name order_ids net,
          evs = WorkbookSaved file_name :: LabelsRequested order_ids :: net).
Proof.
  unfold Confirmations.main.
  destruct (download_from_ftp (Confirmations.files w)) as [[[]|e] fs0].
  2: { intros [= <- <-]. exists []. cbn. rewrite app_nil_r.
       split; [done|]. split; [by left|done]. }
  destruct (Confirmations.process_confirmation_files _ _ _ _ _)
    as [[confirmations_df|e] fs].
  2: { intros [= <- <-]. exists []. cbn. rewrite app_nil_r.
       split; [done|]. split; [by left|done]. }
  destruct (Confirmations.save_orders_to_excel _ _ _ _ _ _ _)
    as [saved lg] eqn:Hsave.
  apply save_orders_to_excel_trace in Hsave
    as [(file_name & -> & ->)|(e & file_name & -> & [->| ->])].
  2: { intros [= <- <-]. exists []. cbn. rewrite app_nil_r.
       split; [done|]. split; [by left|done]. }
  2: { intros [= <- <-]. exists [WorkbookSaved file_name]. cbn.
       split; [done|]. split; [right; left; by eexists|done]. }
  destruct (format_report_sheets _) as [[]|e].
  2: { intros [= <- <-]. exists [WorkbookSaved file_name]. cbn.
       split; [done|]. split; [right; left; by eexists|done]. }
  destruct (Confirmations.unique_values _ _) as [orders_id|e] eqn:Hids.
  2: { intros [= <- <-]. exists [WorkbookSaved file_name]. cbn.
       split; [done|]. split; [right; left; by eexists|done]. }
  apply unique_values_NoDup in Hids.
  destruct (negb (Confirmations.df_empty confirmations_df)).
  - destruct (Confirmations.update_order_statuses _ _ _ _ _ _ _ _)
      as [r1 lg] eqn:Hupdate.
    apply update_order_statuses_trace in Hupdate as (net & -> & Hnet).
    assert (Hshape :
      Confirmations.log (Confirmations.World fs
        (((Confirmations.log w ++ [WorkbookSaved file_name])
            ++ [LabelsRequested orders_id]) ++ net))
      = Confirmations.log w
        ++ WorkbookSaved file_name :: LabelsRequested orders_id :: net).
    { cbn. by rewrite <- !app_assoc. }
    destruct r1 as [res|e]; intros [= <- <-];
      (eexists; split; [exact Hshape|];
       split; [right; right; by eexists _, _, _|]; intros _;
       by eexists _, _, _).
  - intros [= <- <-].
    exists [WorkbookSaved file_name; LabelsRequested orders_id]. cbn.
    split; [by rewrite <- !app_assoc|].
    split; [right; right; eexists _, _, []; by repeat split|].
    intros _. by eexists _, _, _.
Qed.

(** One new confirmation and a server that accepts: the workbook, the
    label request, one status update. *)
Lemma confirmations_main_event_order_example :
  exists evs,
    Confirmations.log
      (Confirmations.main (fun _ => None) one_confirmation_walk
         (fun _ _ df => df) full_table_groups "031125-101500" (fun _ => None)
         (fun _ => Confirmations.Response 200 "OK") (fun fs => (Ok tt, fs))
         (fun _ => Ok tt) "inbox" "processed" "recaps" "CAMPAIGN" []
         one_confirmation).2
    = Confirmations.log one_confirmation ++ evs
    /\ orchestrated (Confirmations.status_update_url "CAMPAIGN") evs
    /\ (Ok tt = Ok tt ->
        exists file_name order_ids net,
          evs = WorkbookSaved file_name :: LabelsRequested order_ids :: net).
Proof.
  apply (confirmations_main_event_order (fun _ => None)
           one_confirmation_walk
           (fun _ _ df => df) full_table_groups "031125-101500"
           (fun _ => None) (fun _ => Confirmations.Response 200 "OK")
           (fun fs => (Ok tt, fs)) (fun _ => Ok tt) "inbox" "processed"
           "recaps" "CAMPAIGN" [] one_confirmation).
  vm_compute. reflexivity.
Defined.

(** ** The orders export *)

Lemma extract_order_data_snoc (orders : list json) (order : json) :
  Orders.extract_order_data (orders ++ [order])
  = (result ← Orders.extract_order_data orders;
     summary ← Orders.order_summary order;
     mret (result ++ [summary])).
Proof. unfold Orders.extract_order_data. by rewrite foldl_app. Qed.

(** X10.  [extract_order_data] is all or nothing: it returns the
    summaries of all the orders, one per order and in their order, or,
    as soon as one order cannot be summarised, the exception of the
    first such order and no summary at all. *)
Theorem extract_order_data_all_or_nothing (orders : list json) :
  match Orders.extract_order_data orders with
  | Ok result =>
      Forall2 (fun order summary => Orders.order_summary order = Ok summary)
              orders result
  | Raise e =>
      exists good bad rest,
        orders = good ++ bad :: rest
        /\ Forall (fun order => is_ok (Orders.order_summary order) = true) good
        /\ Orders.order_summary bad = Raise e
  end.
Proof.
  induction orders as [|order orders IH] using rev_ind; [constructor|].
  rewrite extract_order_data_snoc.
  destruct (Orders.extract_order_data orders) as [result|e].
  - rewrite result_bind_ok.
    destruct (Orders.order_summary order) as [summary|e] eqn:Hlast.
    + rewrite result_bind_ok. apply Forall2_app; [done|].
      by apply Forall2_cons.
    + rewrite result_bind_raise. exists orders, order, []. split; [done|].
      split; [|done]. eapply Forall2_Forall_l; [exact IH|].
      apply Forall_forall. intros summary _ order' ->. done.
  - rewrite result_bind_raise.
    destruct IH as (good & bad & rest & -> & Hgood & Hbad).
    exists good, bad, (rest ++ [order]). by rewrite <- app_assoc.
Qed.

Section FreshExportFacts.
Import Orders.
Context {date : Type}.
Variable strptime : string -> string -> option date.
Variable float_of_str : string -> option spec_float.
Variable int_of_str : string -> option Z.
Variable str_of_json : json -> string.
Variable dbf_accepts : dbf_record date -> bool.
Variables CUSTOMER_ID_IN_SUPPLIER_CRM DIVISION_ID : string.

Local Abbreviation record_of_item :=
  (record_of_item date float_of_str int_of_str str_of_json
                  CUSTOMER_ID_IN_SUPPLIER_CRM DIVISION_ID).
Local Abbreviation write_order_table :=
  (write_order_table date float_of_str int_of_str str_of_json dbf_accepts
                     CUSTOMER_ID_IN_SUPPLIER_CRM DIVISION_ID).



End FreshExportFacts.





(** ** The inbox download: the file-name rule *)

Section InboxFacts.
Import Inbox.
Local Open Scope string_scope.

Lemma append_cons (c : ascii) (s t : string) :
  String c s ++ t = String c (s ++ t).
Proof. reflexivity. Qed.

Lemma append_nil (t : string) : "" ++ t = t.
Proof. reflexivity. Qed.

Lemma contains_char_app (sep : ascii) (s t : string) :
  contains_char sep (s ++ t) = contains_char sep s || contains_char sep t.
Proof.
  induction s as [|c s IH]; [done|].
  rewrite append_cons. cbn [contains_char]. rewrite IH. by rewrite orb_assoc.
Qed.

Lemma rsplit_last_none (sep : ascii) (s : string) :
  contains_char sep s = false -> rsplit_last sep s = None.
Proof.
  induction s as [|c s IH]; [done|]. cbn [contains_char rsplit_last].
  intros [Hc Hs]%orb_false_iff. by rewrite (IH Hs), Hc.
Qed.

Lemma rsplit_last_app (sep : ascii) (s t : string) :
  contains_char sep t = false ->
  rsplit_last sep (s ++ String sep t) = Some (s, t).
Proof.
  intros Ht. induction s as [|c s IH].
  - rewrite append_nil. cbn [rsplit_last].
    by rewrite (rsplit_last_none sep t Ht), Ascii.eqb_refl.
  - rewrite append_cons. cbn [rsplit_last]. by rewrite IH.
Qed.

Lemma replace_xls_plain (d : string) :
  contains_char "." d = false -> replace ".xls" "" (d ++ ".xls") = d.
Proof.
  unfold replace. cbn [String.eqb].
  induction d as [|c d IH]; [done|].
  cbn [contains_char]. intros [Hc Hd]%orb_false_iff.
  rewrite append_cons. cbn [replace_from String.prefix].
  destruct (ascii_dec "." c) as [<-|_]; [done|].
  by rewrite (IH Hd).
Qed.

Lemma substring_app_r (s t : string) (m : nat) :
  String.substring (String.length s) m (s ++ t) = String.substring 0 m t.
Proof.
  induction s as [|c s IH]; [done|].
  rewrite append_cons. cbn [String.length String.substring]. exact IH.
Qed.

Lemma substring_all (t : string) :
  String.substring 0 (String.length t) t = t.
Proof.
  induction t as [|c t IH]; [done|].
  cbn [String.length String.substring]. by rewrite IH.
Qed.

Lemma length_app_string (s t : string) :
  String.length (s ++ t) = (String.length s + String.length t)%nat.
Proof.
  induction s as [|c s IH]; [done|].
  rewrite append_cons. cbn [String.length]. by rewrite IH.
Qed.

Lemma endswith_app (s suffix : string) : endswith (s ++ suffix) suffix = true.
Proof.
  unfold endswith. rewrite length_app_string.
  apply andb_true_iff. split; [apply Nat.leb_le; lia|].
  replace (String.length s + String.length suffix - String.length suffix)%nat
    with (String.length s) by lia.
  rewrite substring_app_r, substring_all. apply String.eqb_refl.
Qed.

Lemma append_assoc_string (s t u : string) : (s ++ t) ++ u = s ++ t ++ u.
Proof.
  induction s as [|c s IH]; [done|]. rewrite !append_cons. by rewrite IH.
Qed.

Lemma selected_parts (division_id order tail : string) :
  plain tail = true ->
  selected division_id (order ++ "_" ++ tail ++ ".xls")
  = String.eqb tail division_id
  /\ new_filename (order ++ "_" ++ tail ++ ".xls") = order ++ ".xls".
Proof.
  unfold plain. intros [Hu Hd]%andb_true_iff.
  apply negb_true_iff in Hu, Hd.
  assert (Hsplit : rsplit_last "_" (order ++ "_" ++ tail ++ ".xls")
                   = Some (order, tail ++ ".xls")).
  { apply (rsplit_last_app "_" order (tail ++ ".xls")).
    rewrite contains_char_app, Hu. reflexivity. }
  split.
  - unfold selected, rsplit1. rewrite Hsplit. cbn [List.last].
    rewrite (replace_xls_plain tail Hd).
    assert (Hends : endswith (order ++ "_" ++ tail ++ ".xls") ".xls" = true).
    { rewrite <- (append_assoc_string "_" tail ".xls").
      rewrite <- (append_assoc_string order ("_" ++ tail) ".xls").
      apply endswith_app. }
    rewrite Hends, contains_char_app.
    change ("_" ++ tail ++ ".xls") with (String "_" (tail ++ ".xls")).
    cbn [contains_char]. rewrite Ascii.eqb_refl.
    by rewrite orb_true_r.
  - unfold new_filename, order_number, rsplit1. by rewrite Hsplit.
Qed.

End InboxFacts.

(** X13.  The file-name rule of the inbox download.  For a division
    code without underscore and dot, the remote file
    "<order>_<division>.xls" is taken and stored locally as
    "<order>.xls", whatever the order part is (it may itself hold
    underscores); a file "<order>_<other>.xls" of another such division
    is not taken. *)
Theorem inbox_file_name_rule (division_id order other : string) :
  Inbox.plain division_id = true ->
  Inbox.selected division_id (order ++ "_" ++ division_id ++ ".xls")%string
  = true
  /\ Inbox.new_filename (order ++ "_" ++ division_id ++ ".xls")%string
     = (order ++ ".xls")%string
  /\ (Inbox.plain other = true -> other <> division_id ->
      Inbox.selected division_id (order ++ "_" ++ other ++ ".xls")%string
      = false).
Proof.
  intros Hplain.
  destruct (selected_parts division_id order division_id Hplain)
    as [Hsel Hname].
  split; [by rewrite Hsel, String.eqb_refl|]. split; [done|].
  intros Hother Hne.
  destruct (selected_parts division_id order other Hother) as [-> _].
  by apply String.eqb_neq.
Qed.

(** The confirmation of order 10_01 for the division F1. *)
Lemma inbox_file_name_rule_example :
  Inbox.selected "F1" "10_01_F1.xls" = true
  /\ Inbox.new_filename "10_01_F1.xls" = "10_01.xls"%string
  /\ Inbox.selected "F1" "10_01_F2.xls" = false.
Proof.
  destruct (inbox_file_name_rule "F1" "10_01" "F2" eq_refl)
    as (Hsel & Hname & Hother).
  split; [exact Hsel|]. split; [exact Hname|].
  apply Hother; [reflexivity|discriminate].
Defined.

(** ** The shipping labels *)

Section LabelFacts.
Import Labels.
Variable api : nat -> reply.
Variable storage : nat -> download.
Variable str_of_json : json -> string.

Lemma requests_sent_app (l1 l2 : list net_event) :
  requests_sent (l1 ++ l2) = (requests_sent l1 + requests_sent l2)%nat.
Proof. unfold requests_sent. by rewrite filter_app, length_app. Qed.

Lemma requests_sent_get (l : list net_event) (url : string) :
  requests_sent (l ++ [Get url]) = S (requests_sent l).
Proof.
  rewrite requests_sent_app. change (requests_sent [Get url]) with 1%nat. lia.
Qed.

Lemma requests_sent_get_pause (l : list net_event) (url : string) (d : Z) :
  requests_sent ((l ++ [Get url]) ++ [Pause d]) = S (requests_sent l).
Proof.
  rewrite !requests_sent_app. change (requests_sent [Get url]) with 1%nat.
  change (requests_sent [Pause d]) with 0%nat. lia.
Qed.

Lemma requests_sent_stream (l : list net_event) (url : json) (t : Z) :
  requests_sent (l ++ [GetStream url t]) = S (requests_sent l).
Proof.
  rewrite requests_sent_app.
  change (requests_sent [GetStream url t]) with 1%nat. lia.
Qed.

Lemma requests_sent_stream_pause (l : list net_event) (url : json)
    (t d : Z) :
  requests_sent ((l ++ [GetStream url t]) ++ [Pause d])
  = S (requests_sent l).
Proof.
  rewrite !requests_sent_app.
  change (requests_sent [GetStream url t]) with 1%nat.
  change (requests_sent [Pause d]) with 0%nat. lia.
Qed.

(** One round of the polling on a pending report. *)
Lemma poll_loop_pending (attempt : Z) (rest : list Z) (url : string)
    (retry_delay : Z) (w : world) :
  0 <= retry_delay ->
  pending (api (requests_sent (log w))) ->
  poll_loop api (attempt :: rest) url retry_delay w
  = poll_loop api rest url retry_delay
      (World (disk w) ((log w ++ [Get url]) ++ [Pause retry_delay])).
Proof.
  intros Hdelay (status_data & result & status & Hreply & Hres & Hst & Hpend).
  cbn [poll_loop]. rewrite Hreply, Hres, Hst.
  assert (Hnot : is_text status "DONE" = false).
  { destruct status as [| | | |s| |]; try done. cbn in *.
    destruct (String.eqb_spec s "DONE") as [->|]; [done|done]. }
  rewrite Hnot, Hpend.
  destruct (Z.ltb_spec retry_delay 0); [lia|done].
Qed.

Lemma poll_loop_done (attempt : Z) (rest : list Z) (url : string)
    (retry_delay : Z) (file : json) (w : world) :
  done file (api (requests_sent (log w))) ->
  poll_loop api (attempt :: rest) url retry_delay w
  = (Ok file, World (disk w) (log w ++ [Get url])).
Proof.
  intros (status_data & result & status & Hreply & Hres & Hst & Hdone & Hfile).
  cbn [poll_loop]. by rewrite Hreply, Hres, Hst, Hdone, Hfile.
Qed.

Lemma poll_loop_rounds (k : nat) (attempts : list Z) (url : string)
    (retry_delay : Z) (w : world) :
  0 <= retry_delay ->
  (k <= length attempts)%nat ->
  (forall i, (i < k)%nat -> pending (api (requests_sent (log w) + i))) ->
  poll_loop api attempts url retry_delay w
  = poll_loop api (drop k attempts) url retry_delay
      (World (disk w) (log w ++ pending_rounds k url retry_delay)).
Proof.
  intros Hdelay. revert attempts w.
  induction k as [|k IH]; intros attempts w Hlen Hpending.
  - cbn. rewrite app_nil_r. by destruct w.
  - destruct attempts as [|attempt rest]; [cbn in Hlen; lia|].
    rewrite poll_loop_pending; [|done|].
    2: { specialize (Hpending 0%nat). rewrite Nat.add_0_r in Hpending.
         apply Hpending. lia. }
    rewrite IH.
    + cbn [drop pending_rounds disk log]. by rewrite <- !app_assoc.
    + cbn in Hlen. lia.
    + intros i Hi. cbn [log]. rewrite requests_sent_get_pause.
      replace (S (requests_sent (log w)) + i)%nat
        with (requests_sent (log w) + S i)%nat by lia.
      apply Hpending. lia.
Qed.

Lemma requests_sent_pending_rounds (k : nat) (url : string) (d : Z) :
  requests_sent (pending_rounds k url d) = k.
Proof.
  induction k as [|k IH]; [done|].
  change (pending_rounds (S k) url d)
    with ([Get url; Pause d] ++ pending_rounds k url d).
  rewrite requests_sent_app, IH.
  by change (requests_sent [Get url; Pause d]) with 1%nat.
Qed.

(** What the polling can add, whatever the answers. *)
Lemma poll_loop_trace (attempts : list Z) (url : string) (retry_delay : Z)
    (w w' : world) (r : result json) :
  poll_loop api attempts url retry_delay w = (r, w') ->
  disk w' = disk w
  /\ exists evs,
       log w' = log w ++ evs
       /\ Forall (poll_event url retry_delay) evs
       /\ (requests_sent evs <= length attempts)%nat
       /\ (forall file, r = Ok file -> file <> JNull ->
           done file (api (pred (requests_sent (log w'))))).
Proof.
  revert w. induction attempts as [|attempt rest IH]; intros w.
  - intros [= <- <-]. split; [done|]. exists []. rewrite app_nil_r.
    split; [done|]. split; [constructor|]. split; [done|].
    by intros file [= <-].
  - cbn [poll_loop].
    assert (Hone : forall r0,
              (forall file, r0 = Ok file -> file <> JNull ->
                 done file (api (requests_sent (log w)))) ->
              (r0, World (disk w) (log w ++ [Get url])) = (r, w') ->
              disk w' = disk w
              /\ exists evs,
                   log w' = log w ++ evs
                   /\ Forall (poll_event url retry_delay) evs
                   /\ (requests_sent evs <= length (attempt :: rest))%nat
                   /\ (forall file, r = Ok file -> file <> JNull ->
                       done file (api (pred (requests_sent (log w')))))).
    { intros r0 Hdone [= <- <-]. split; [done|]. exists [Get url].
      split; [done|].
      split; [apply Forall_cons; split; [by left|constructor]|].
      split; [change (requests_sent [Get url]) with 1%nat; cbn [length]; lia|].
      cbn [log]. rewrite requests_sent_get. exact Hdone. }
    destruct (api (requests_sent (log w))) as [status_data| |e] eqn:Hreply.
    + destruct (dict_get status_data "result" (JObj [])) as [result|e]
        eqn:Hres; [|by apply Hone].
      destruct (dict_get result "status" JNull) as [status|e] eqn:Hst;
        [|by apply Hone].
      destruct (is_text status "DONE") eqn:Hdone.
      { apply Hone. intros file Hfile _.
        exists status_data, result, status. by repeat split. }
      destruct (_ || _); [|apply Hone; by intros file [= <-]].
      destruct (retry_delay <? 0); [by apply Hone|].
      intros (Hdisk & evs & Hlog & Hevs & Hcount & Hfile)%IH.
      cbn [disk log] in Hdisk, Hlog. split; [done|].
      exists ([Get url; Pause retry_delay] ++ evs).
      split; [by rewrite Hlog, <- !app_assoc|].
      split.
      { cbn [app]. apply Forall_cons; split; [by left|].
        apply Forall_cons; split; [by right|done]. }
      split; [|done].
      rewrite requests_sent_app. cbn [length].
      change (requests_sent [Get url; Pause retry_delay]) with 1%nat. lia.
    + apply Hone. by intros file [= <-].
    + by apply Hone.
Qed.

End LabelFacts.

(** X14.  [poll_report_status], with a non-negative delay, on a report
    that is pending for the first [k] polls and done at the next one,
    [k] being below [max_retries], returns the file named by that
    answer after [k] rounds of request and pause and one more request.
    On a report pending at each of the [max_retries] polls it returns
    [None] after [max_retries] rounds: it pauses after the last poll
    too. *)
Theorem poll_report_status_rounds
    (api : nat -> Labels.reply) (str_of_json : json -> string)
    (report_id : json) (hdrs : list (string * string))
    (max_retries retry_delay : Z) (k : nat) (w : Labels.world) :
  0 <= retry_delay ->
  (forall i, (i < k)%nat ->
     Labels.pending (api (Labels.requests_sent (Labels.log w) + i)%nat)) ->
  (forall file,
     Z.of_nat k < max_retries ->
     Labels.done file (api (Labels.requests_sent (Labels.log w) + k)%nat) ->
     Labels.poll_report_status api str_of_json report_id hdrs max_retries
       retry_delay w
     = (Ok file,
        Labels.World (Labels.disk w)
          (Labels.log w
             ++ Labels.pending_rounds k (Labels.status_url str_of_json report_id)
                  retry_delay
             ++ [Labels.Get (Labels.status_url str_of_json report_id)])))
  /\ (Z.of_nat k = max_retries ->
      Labels.poll_report_status api str_of_json report_id hdrs max_retries
        retry_delay w
      = (Ok JNull,
         Labels.World (Labels.disk w)
           (Labels.log w
              ++ Labels.pending_rounds k
                   (Labels.status_url str_of_json report_id) retry_delay))).
Proof.
  intros Hdelay Hpending. unfold Labels.poll_report_status. split.
  - intros file Hk Hdone.
    rewrite (poll_loop_rounds api k) by
      (try done; rewrite length_seqZ; lia).
    destruct (drop k (seqZ 0 max_retries)) as [|attempt rest] eqn:Hdrop.
    { apply (f_equal length) in Hdrop.
      rewrite length_drop, length_seqZ in Hdrop. cbn in Hdrop. lia. }
    rewrite (poll_loop_done api attempt rest _ _ file).
    + cbn [Labels.disk Labels.log]. by rewrite <- app_assoc.
    + cbn [Labels.log]. rewrite requests_sent_app, requests_sent_pending_rounds.
      exact Hdone.
  - intros Hk.
    rewrite (poll_loop_rounds api k) by
      (try done; rewrite length_seqZ; lia).
    rewrite drop_ge by (rewrite length_seqZ; lia). done.
Qed.

(** A report done at the third poll, with the default three polls. *)
Lemma poll_report_status_rounds_example :
  Labels.poll_report_status Labels.api_done_third Orders.str_of_id (JInt 77)
    [] 3 5 (Labels.World ∅ [])
  = (Ok (JStr "https://files/labels.pdf"),
     Labels.World ∅
       ([] ++ Labels.pending_rounds 2
                (Labels.status_url Orders.str_of_id (JInt 77)) 5
           ++ [Labels.Get (Labels.status_url Orders.str_of_id (JInt 77))])).
Proof.
  refine (proj1 (poll_report_status_rounds Labels.api_done_third
                   Orders.str_of_id (JInt 77) [] 3 5 2 (Labels.World ∅ [])
                   _ _) _ _ _).
  - lia.
  - intros i Hi. destruct i as [|[|i]]; [| |lia];
      eexists _, _, _; repeat split; reflexivity.
  - lia.
  - eexists _, _, _. repeat split; reflexivity.
Defined.

(** X15.  Whatever the API answers, [poll_report_status] leaves the
    disk alone, adds to the log only status requests to the report's
    address and pauses of [retry_delay], sends at most [max_retries]
    requests, and returns a file only when its last request was
    answered with the status DONE naming that file. *)
Theorem poll_report_status_bounded
    (api : nat -> Labels.reply) (str_of_json : json -> string)
    (report_id : json) (hdrs : list (string * string))
    (max_retries retry_delay : Z) (w w' : Labels.world) (r : result json) :
  Labels.poll_report_status api str_of_json report_id hdrs max_retries
    retry_delay w = (r, w') ->
  Labels.disk w' = Labels.disk w
  /\ exists evs,
       Labels.log w' = Labels.log w ++ evs
       /\ Forall (Labels.poll_event (Labels.status_url str_of_json report_id)
                    retry_delay) evs
       /\ (Labels.requests_sent evs <= Z.to_nat max_retries)%nat
       /\ (forall file, r = Ok file -> file <> JNull ->
           Labels.done file
             (api (pred (Labels.requests_sent (Labels.log w'))))).
Proof.
  unfold Labels.poll_report_status.
  intros (Hdisk & evs & Hlog & Hevs & Hcount & Hfile)%poll_loop_trace.
  rewrite length_seqZ in Hcount. split; [done|]. by exists evs.
Qed.

(** The same run, seen through the bound. *)
Lemma poll_report_status_bounded_example :
  Labels.done (JStr "https://files/labels.pdf") (Labels.api_done_third 2).
Proof.
  destruct (poll_report_status_bounded Labels.api_done_third
              Orders.str_of_id (JInt 77) [] 3 5 (Labels.World ∅ [])
              (Labels.World ∅
                 (Labels.pending_rounds 2
                    (Labels.status_url Orders.str_of_id (JInt 77)) 5
                  ++ [Labels.Get
                        (Labels.status_url Orders.str_of_id (JInt 77))]))
              (Ok (JStr "https://files/labels.pdf")))
    as (_ & evs & _ & _ & _ & Hfile).
  - vm_compute. reflexivity.
  - exact (Hfile _ eq_refl ltac:(discriminate)).
Defined.

Section DownloadFacts.
Import Labels.
Variable storage : nat -> download.
Variable os_error : os_call -> option exn.

Lemma try_download_cases (file_path : string) (disk disk' : gmap string string)
    (n : nat) (how : attempt_end) :
  try_download storage os_error file_path disk n = (disk', how) ->
  (forall p, p <> file_path -> disk' !! p = disk !! p)
  /\ match how with
     | Returned =>
         os_error (OpenWrite file_path) = None
         /\ exists content,
              storage n = Saved content
              /\ disk' !! file_path = Some content
     | Caught => forall content, storage n <> Saved content
     | Escaped e =>
         os_error (OpenWrite file_path) = Some e
         \/ exists partial, storage n = Unwritten partial e
     end.
Proof.
  unfold try_download.
  destruct (storage n) as [content|partial|partial e|];
    [..|by intros [= <- <-]];
    (destruct (os_error (OpenWrite file_path)) as [refused|];
     [intros [= <- <-]; split; [done|by left]|]);
    intros [= <- <-];
    (split; [intros p Hp; by rewrite lookup_insert_ne|]).
  - split; [done|]. exists content. by rewrite lookup_insert_eq.
  - done.
  - right. by exists partial.
Qed.

Lemma download_loop_trace (n : nat) (first : Z) (file_url : json)
    (file_path : string) (timeout download_retries retry_delay : Z)
    (w w' : world) (r : result json) :
  first + Z.of_nat n = download_retries + 1 ->
  download_loop storage os_error (seqZ first (Z.of_nat n)) file_url file_path
    timeout download_retries retry_delay w = (r, w') ->
  (forall p, p <> file_path -> disk w' !! p = disk w !! p)
  /\ exists evs,
       log w' = log w ++ evs
       /\ Forall (stream_event file_url timeout retry_delay) evs
       /\ (requests_sent evs <= n)%nat
       /\ match r with
          | Ok (JStr p) =>
              p = file_path
              /\ os_error (OpenWrite file_path) = None
              /\ exists content,
                   storage (pred (requests_sent (log w'))) = Saved content
                   /\ disk w' !! file_path = Some content
          | Ok JNull =>
              requests_sent evs = n /\ length evs = (n + pred n)%nat
              /\ forall i content, (i < n)%nat ->
                   storage (requests_sent (log w) + i)%nat <> Saved content
          | Ok _ => False
          | Raise e =>
              (e = ValueError /\ retry_delay < 0)
              \/ os_error (OpenWrite file_path) = Some e
              \/ exists k partial, storage k = Unwritten partial e
          end.
Proof.
  revert first w. induction n as [|n IH]; intros first w Hlast.
  - cbn. intros [= <- <-]. split; [done|]. exists []. rewrite app_nil_r.
    split; [done|]. split; [constructor|]. split; [done|].
    split; [done|]. split; [done|]. intros i content Hi. lia.
  - rewrite seqZ_cons by lia. cbn [download_loop].
    replace (Z.pred (Z.of_nat (S n))) with (Z.of_nat n) by lia.
    destruct (try_download storage os_error file_path (disk w)
                (requests_sent (log w))) as [disk1 how] eqn:Htry.
    apply try_download_cases in Htry as [Hlocal Hhow].
    assert (Hone : requests_sent [GetStream file_url timeout] = 1%nat)
      by reflexivity.
    destruct how as [| |e].
    + destruct Hhow as (Hopen & content & Hsaved & Hfile).
      intros [= <- <-]. split; [exact Hlocal|].
      exists [GetStream file_url timeout]. split; [done|].
      split; [apply Forall_cons; split; [by left|constructor]|].
      split; [rewrite Hone; lia|].
      split; [done|]. split; [done|]. exists content. cbn [log disk].
      rewrite requests_sent_stream. cbn [pred]. done.
    + destruct (Z.ltb_spec first download_retries) as [Hlt|Hge].
      * destruct (Z.ltb_spec retry_delay 0) as [Hneg|Hpos].
        { intros [= <- <-]. split; [exact Hlocal|].
          exists [GetStream file_url timeout]. split; [done|].
          split; [apply Forall_cons; split; [by left|constructor]|].
          split; [rewrite Hone; lia|]. by left. }
        intros (Hother & evs & Hlog & Hevs & Hcount & Hres)%IH; [|lia].
        cbn [disk log] in Hother, Hlog. split.
        { intros p Hp. rewrite (Hother p Hp). by apply Hlocal. }
        exists ([GetStream file_url timeout; Pause retry_delay] ++ evs).
        split; [by rewrite Hlog, <- !app_assoc|].
        split.
        { cbn [app]. apply Forall_cons; split; [by left|].
          apply Forall_cons; split; [by right|done]. }
        rewrite requests_sent_app.
        change (requests_sent [GetStream file_url timeout; Pause retry_delay])
          with 1%nat.
        split; [lia|].
        destruct r as [[| | | |p| |]|e]; try done.
        destruct Hres as (Hall & Hlen & Hnone).
        split; [lia|]. split; [rewrite length_app; cbn [length]; lia|].
        intros i content Hi. destruct i as [|i].
        { rewrite Nat.add_0_r. apply Hhow. }
        specialize (Hnone i content). cbn [log] in Hnone.
        rewrite requests_sent_stream_pause in Hnone.
        replace (requests_sent (log w) + S i)%nat
          with (S (requests_sent (log w)) + i)%nat by lia.
        apply Hnone. lia.
      * assert (n = 0%nat) as -> by lia. cbn [Z.of_nat seqZ].
        change (seqZ (Z.succ first) 0) with (@nil Z). cbn [download_loop].
        intros [= <- <-]. split; [exact Hlocal|].
        exists [GetStream file_url timeout]. split; [done|].
        split; [apply Forall_cons; split; [by left|constructor]|].
        rewrite Hone.
        split; [lia|]. split; [done|]. split; [done|].
        intros i content Hi. assert (i = 0%nat) as -> by lia.
        rewrite Nat.add_0_r. apply Hhow.
    + intros [= <- <-]. split; [exact Hlocal|].
      exists [GetStream file_url timeout]. split; [done|].
      split; [apply Forall_cons; split; [by left|constructor]|].
      split; [rewrite Hone; lia|]. right.
      destruct Hhow as [Hopen|[partial Hwrite]]; [by left|right].
      by eexists _, _.
Qed.

End DownloadFacts.

(** X16.  Whatever the file server and the operating system do,
    [download_file] touches no file but
    "<save_path>/labels_<report id>.pdf", adds to the log only requests
    for the file and pauses of [retry_delay], and sends at most
    [download_retries] requests.  It returns the path only when the
    directory could be made, the file opened, and its last request
    delivered the whole file, which is then on the disk; it returns
    [None] only after [download_retries] requests none of which
    delivered the file, with a pause between them but none after the
    last.  It raises only ValueError, on a negative delay, or what the
    operating system raised: when it refused the directory, before any
    request, or when it refused to open the file or to write to it. *)
Theorem download_file_outcome
    (storage : nat -> Labels.download) (str_of_json : json -> string)
    (os_error : os_call -> option exn)
    (file_url : json) (save_path : string) (report_id : json)
    (timeout download_retries retry_delay : Z)
    (w w' : Labels.world) (r : result json) :
  Labels.download_file storage str_of_json os_error file_url save_path
    report_id timeout download_retries retry_delay w = (r, w') ->
  let file_path :=
    path_join save_path ("labels_" +:+ str_of_json report_id +:+ ".pdf") in
  let n := Z.to_nat download_retries in
  (forall p, p <> file_path -> Labels.disk w' !! p = Labels.disk w !! p)
  /\ exists evs,
       Labels.log w' = Labels.log w ++ evs
       /\ Forall (Labels.stream_event file_url timeout retry_delay) evs
       /\ (Labels.requests_sent evs <= n)%nat
       /\ match r with
          | Ok (JStr p) =>
              p = file_path
              /\ os_error (Makedirs save_path) = None
              /\ os_error (OpenWrite file_path) = None
              /\ exists content,
                   storage (pred (Labels.requests_sent (Labels.log w')))
                   = Labels.Saved content
                   /\ Labels.disk w' !! file_path = Some content
          | Ok JNull =>
              os_error (Makedirs save_path) = None
              /\ Labels.requests_sent evs = n
              /\ length evs = (n + pred n)%nat
              /\ forall i content, (i < n)%nat ->
                   storage (Labels.requests_sent (Labels.log w) + i)%nat
                   <> Labels.Saved content
          | Ok _ => False
          | Raise e =>
              (e = ValueError /\ retry_delay < 0)
              \/ (os_error (Makedirs save_path) = Some e
                  /\ evs = [] /\ Labels.disk w' = Labels.disk w)
              \/ os_error (OpenWrite file_path) = Some e
              \/ exists k partial, storage k = Labels.Unwritten partial e
          end.
Proof.
  intros Hrun file_path n. unfold Labels.download_file in Hrun.
  fold file_path in Hrun.
  destruct (os_error (Makedirs save_path)) as [refused|] eqn:Hmakedirs.
  { injection Hrun as <- <-. split; [done|]. exists [].
    rewrite app_nil_r. split; [done|]. split; [constructor|].
    split; [cbn; lia|]. right. by left. }
  assert (Hloop :
    (forall p, p <> file_path -> Labels.disk w' !! p = Labels.disk w !! p)
    /\ exists evs,
         Labels.log w' = Labels.log w ++ evs
         /\ Forall (Labels.stream_event file_url timeout retry_delay) evs
         /\ (Labels.requests_sent evs <= n)%nat
         /\ match r with
            | Ok (JStr p) =>
                p = file_path
                /\ os_error (OpenWrite file_path) = None
                /\ exists content,
                     storage (pred (Labels.requests_sent (Labels.log w')))
                     = Labels.Saved content
                     /\ Labels.disk w' !! file_path = Some content
            | Ok JNull =>
                Labels.requests_sent evs = n
                /\ length evs = (n + pred n)%nat
                /\ forall i content, (i < n)%nat ->
                     storage (Labels.requests_sent (Labels.log w) + i)%nat
                     <> Labels.Saved content
            | Ok _ => False
            | Raise e =>
                (e = ValueError /\ retry_delay < 0)
                \/ os_error (OpenWrite file_path) = Some e
                \/ exists k partial, storage k = Labels.Unwritten partial e
            end).
  { destruct (Z.le_gt_cases 0 download_retries) as [Hpos|Hneg].
    - replace download_retries with (Z.of_nat n) in Hrun at 1 by lia.
      eapply download_loop_trace; [|exact Hrun]. lia.
    - replace n with 0%nat by lia.
      rewrite (seqZ_nil 1 download_retries) in Hrun by lia.
      cbn in Hrun. injection Hrun as <- <-. split; [done|].
      exists []. rewrite app_nil_r. split; [done|]. split; [constructor|].
      split; [done|]. split; [done|]. split; [done|].
      intros i content Hi. lia. }
  destruct Hloop as (Hlocal & evs & Hlog & Hevs & Hcount & Hres).
  split; [exact Hlocal|]. exists evs.
  split; [done|]. split; [done|]. split; [done|].
  destruct r as [[| | | |p| |]|e]; try done.
  - destruct Hres as (? & ? & ?). done.
  - destruct Hres as [?|[?|?]]; auto.
Qed.

(** A stream that breaks once: the second request saves the file. *)
Lemma download_file_outcome_example :
  Labels.disk
    (Labels.download_file Labels.storage_second Orders.str_of_id
       (fun _ => None)
       (JStr "https://files/labels.pdf") "stickers" (JInt 77) 15 3 5
       (Labels.World ∅ [])).2
  !! "stickers/labels_77.pdf"%string = Some "%PDF-1.4 labels"%string.
Proof.
  destruct (download_file_outcome Labels.storage_second Orders.str_of_id
              (fun _ => None)
              (JStr "https://files/labels.pdf") "stickers" (JInt 77) 15 3 5
              (Labels.World ∅ [])
              (Labels.download_file Labels.storage_second Orders.str_of_id
                 (fun _ => None)
                 (JStr "https://files/labels.pdf") "stickers" (JInt 77) 15 3 5
                 (Labels.World ∅ [])).2
              (Ok (JStr "stickers/labels_77.pdf")))
    as (_ & evs & _ & _ & _ & _ & _ & _ & content & Hsaved & Hdisk).
  - vm_compute. reflexivity.
  - vm_compute in Hsaved. injection Hsaved as <-. exact Hdisk.
Defined.

(** A directory the operating system refuses to make (the empty path
    is one): [download_file] raises before any request. *)
Lemma download_file_refused_directory :
  Labels.download_file Labels.storage_second Orders.str_of_id
    (fun call => match call with
                 | Makedirs _ => Some (OSError "FileNotFoundError")
                 | _ => None
                 end)
    (JStr "https://files/labels.pdf") "" (JInt 77) 15 3 5
    (Labels.World ∅ [])
  = (Raise (OSError "FileNotFoundError"), Labels.World ∅ []).
Proof. reflexivity. Qed.

Section GenerateFacts.
Import Labels.
Variable api : nat -> reply.
Variable str_of_json : json -> string.

Lemma request_report_generation_trace (order_ids business_id : json)
    (hdrs : list (string * string)) (format_pdf : string)
    (w w' : world) (r : result json) :
  request_report_generation api order_ids business_id hdrs format_pdf w
  = (r, w') ->
  disk w' = disk w
  /\ log w' = log w
              ++ [Post generate_url [("format", format_pdf)]%string
                    (JObj [("businessId", business_id);
                           ("orderIds", order_ids);
                           ("sortingType",
                            JStr "SORT_BY_GIVEN_ORDER")]%string)]
  /\ (api (requests_sent (log w)) = RequestException -> r = Ok JNull).
Proof.
  unfold request_report_generation.
  destruct (api (requests_sent (log w))); intros [= <- <-]; by repeat split.
Qed.

End GenerateFacts.

(** X17.  [generate_order_labels] first posts the request for the
    labels of the given orders, and after it sends at most
    [max_retries] status requests and three file requests.  When the
    generation request fails with a request exception it returns [None]
    at once: nothing is polled and nothing is downloaded.  Without a
    directory to save into the disk is left as it was; with one, a
    returned path names a file that is on the disk. *)
Theorem generate_order_labels_flow
    (api : nat -> Labels.reply) (storage : nat -> Labels.download)
    (str_of_json : json -> string) (os_error : os_call -> option exn)
    (order_ids business_id : json)
    (hdrs : list (string * string)) (format_pdf : string)
    (max_retries retry_delay : Z) (save_path : option string)
    (download_timeout : Z) (w w' : Labels.world) (r : result json) :
  Labels.generate_order_labels api storage str_of_json os_error order_ids
    business_id hdrs format_pdf max_retries retry_delay save_path
    download_timeout w
  = (r, w') ->
  exists rest,
    Labels.log w'
    = Labels.log w
      ++ Labels.Post Labels.generate_url [("format", format_pdf)]%string
           (JObj [("businessId", business_id);
                  ("orderIds", order_ids);
                  ("sortingType", JStr "SORT_BY_GIVEN_ORDER")]%string)
         :: rest
    /\ (Labels.requests_sent rest <= Z.to_nat max_retries + 3)%nat
    /\ (api (Labels.requests_sent (Labels.log w)) = Labels.RequestException ->
        r = Ok JNull /\ rest = [])
    /\ (save_path = None -> Labels.disk w' = Labels.disk w)
    /\ (forall dir p, save_path = Some dir -> dir <> ""%string ->
        r = Ok (JStr p) -> is_Some (Labels.disk w' !! p)).
Proof.
  unfold Labels.generate_order_labels.
  destruct (Labels.request_report_generation _ _ _ _ _ _)
    as [r0 w0] eqn:Hgen.
  apply request_report_generation_trace in Hgen as (Hdisk0 & Hlog0 & Hfail).
  assert (Hstop : forall r1,
            (api (Labels.requests_sent (Labels.log w))
             = Labels.RequestException -> r1 = Ok JNull) ->
            (forall p, r1 <> Ok (JStr p)) ->
            (r1, w0) = (r, w') ->
            exists rest,
              Labels.log w'
              = Labels.log w
                ++ Labels.Post Labels.generate_url
                     [("format", format_pdf)]%string
                     (JObj [("businessId", business_id);
                            ("orderIds", order_ids);
                            ("sortingType",
                             JStr "SORT_BY_GIVEN_ORDER")]%string)
                   :: rest
              /\ (Labels.requests_sent rest <= Z.to_nat max_retries + 3)%nat
              /\ (api (Labels.requests_sent (Labels.log w))
                  = Labels.RequestException -> r = Ok JNull /\ rest = [])
              /\ (save_path = None -> Labels.disk w' = Labels.disk w)
              /\ (forall dir p, save_path = Some dir -> dir <> ""%string ->
                  r = Ok (JStr p) -> is_Some (Labels.disk w' !! p))).
  { intros r1 Hnull Hnopath [= <- <-]. exists [].
    split; [done|]. split; [cbn; lia|]. split; [by auto|].
    split; [done|]. intros dir p _ _ Hp. by destruct (Hnopath p). }
  destruct r0 as [report_id|e]; [|by apply Hstop].
  destruct (truthy report_id) eqn:Hid; cbn [negb]; [|by apply Hstop].
  assert (Hreq : api (Labels.requests_sent (Labels.log w))
                 <> Labels.RequestException).
  { intros Hex. specialize (Hfail Hex). injection Hfail as ->. done. }
  unfold Labels.poll_report_status.
  destruct (Labels.poll_loop _ _ _ _ _) as [r1 w1] eqn:Hpoll.
  apply poll_loop_trace in Hpoll as (Hdisk1 & evs & Hlog1 & _ & Hcount1 & _).
  rewrite length_seqZ in Hcount1.
  assert (Hlog : Labels.log w1
                 = Labels.log w
                   ++ Labels.Post Labels.generate_url
                        [("format", format_pdf)]%string
                        (JObj [("businessId", business_id);
                               ("orderIds", order_ids);
                               ("sortingType",
                                JStr "SORT_BY_GIVEN_ORDER")]%string)
                      :: evs).
  { by rewrite Hlog1, Hlog0, <- app_assoc. }
  assert (Hpolled : forall r2,
            (forall dir p, save_path = Some dir -> dir <> ""%string ->
               r2 <> Ok (JStr p)) ->
            (r2, w1) = (r, w') ->
            exists rest,
              Labels.log w'
              = Labels.log w
                ++ Labels.Post Labels.generate_url
                     [("format", format_pdf)]%string
                     (JObj [("businessId", business_id);
                            ("orderIds", order_ids);
                            ("sortingType",
                             JStr "SORT_BY_GIVEN_ORDER")]%string)
                   :: rest
              /\ (Labels.requests_sent rest <= Z.to_nat max_retries + 3)%nat
              /\ (api (Labels.requests_sent (Labels.log w))
                  = Labels.RequestException -> r = Ok JNull /\ rest = [])
              /\ (save_path = None -> Labels.disk w' = Labels.disk w)
              /\ (forall dir p, save_path = Some dir -> dir <> ""%string ->
                  r = Ok (JStr p) -> is_Some (Labels.disk w' !! p))).
  { intros r2 Hnopath [= <- <-]. exists evs.
    split; [done|]. split; [lia|]. split; [done|]. split; [congruence|].
    intros dir p Hdir Hne Hp. by destruct (Hnopath dir p). }
  destruct r1 as [file_url|e]; [|by apply Hpolled].
  destruct (truthy file_url) eqn:Hurl; cbn [negb]; [|by apply Hpolled].
  destruct save_path as [dir|]; [|by apply Hpolled].
  destruct (String.eqb_spec dir "") as [->|Hdir]; cbn [negb].
  { apply Hpolled. by intros dir p [= <-]. }
  unfold Labels.download_file.
  destruct (os_error (Makedirs dir)); [by apply Hpolled|]. intros Hdown.
  apply (download_loop_trace storage os_error 3 1) in Hdown
    as (_ & evs2 & Hlog2 & _ & Hcount2 & Hres); [|done].
  exists (evs ++ evs2).
  split; [by rewrite Hlog2, Hlog, <- !app_assoc|].
  split; [rewrite requests_sent_app; lia|].
  split; [done|]. split; [done|].
  intros dir' p [= <-] _ ->. destruct Hres as (-> & _ & content & _ & Hfile).
  by eexists.
Qed.

(** The labels of the orders 1001 and 1002, saved under "stickers". *)
Lemma generate_order_labels_flow_example :
  Labels.generate_order_labels Labels.api_report_77 Labels.storage_delivers
    Orders.str_of_id (fun _ => None) (JArr [JInt 1001; JInt 1002]) (JInt 5)
    [] "A7" 3 5
    (Some "stickers"%string) 15 (Labels.World ∅ [])
  = (Ok (JStr "stickers/labels_77.pdf"),
     Labels.World {[ "stickers/labels_77.pdf"%string
                     := "%PDF-1.4 labels"%string ]}
       [Labels.Post Labels.generate_url [("format", "A7")]%string
          (JObj [("businessId", JInt 5);
                 ("orderIds", JArr [JInt 1001; JInt 1002]);
                 ("sortingType", JStr "SORT_BY_GIVEN_ORDER")]%string);
        Labels.Get (Labels.status_url Orders.str_of_id (JInt 77));
        Labels.Pause 5;
        Labels.Get (Labels.status_url Orders.str_of_id (JInt 77));
        Labels.GetStream (JStr "https://files/labels.pdf") 15])
  /\ is_Some
       (Labels.disk
          (Labels.World {[ "stickers/labels_77.pdf"%string
                           := "%PDF-1.4 labels"%string ]} [])
        !! "stickers/labels_77.pdf"%string).
Proof.
  assert (Hrun :
    Labels.generate_order_labels Labels.api_report_77 Labels.storage_delivers
      Orders.str_of_id (fun _ => None) (JArr [JInt 1001; JInt 1002]) (JInt 5)
      [] "A7" 3 5
      (Some "stickers"%string) 15 (Labels.World ∅ [])
    = (Ok (JStr "stickers/labels_77.pdf"),
       Labels.World {[ "stickers/labels_77.pdf"%string
                       := "%PDF-1.4 labels"%string ]}
         [Labels.Post Labels.generate_url [("format", "A7")]%string
            (JObj [("businessId", JInt 5);
                   ("orderIds", JArr [JInt 1001; JInt 1002]);
                   ("sortingType", JStr "SORT_BY_GIVEN_ORDER")]%string);
          Labels.Get (Labels.status_url Orders.str_of_id (JInt 77));
          Labels.Pause 5;
          Labels.Get (Labels.status_url Orders.str_of_id (JInt 77));
          Labels.GetStream (JStr "https://files/labels.pdf") 15]))
    by (vm_compute; reflexivity).
  split; [exact Hrun|].
  destruct (generate_order_labels_flow _ _ _ _ _ _ _ _ _ _ _ _ _ _ _ Hrun)
    as (rest & _ & _ & _ & _ & Hfile).
  exact (Hfile "stickers"%string _ eq_refl ltac:(discriminate) eq_refl).
Defined.

(** ** The listing of orders *)

Section FetchFacts.
Import Fetch.
Variable server : nat -> list (string * json) -> reply.

(** The loop passes over the pages that name a next page. *)
Lemma orders_loop_pages (script : list (list json * json)) :
  forall (fuel : nat) (url : string) (params : list (string * json))
         (all_orders : list json) (sent : list request),
    serves server (length sent) params script ->
    orders_loop server (length script + fuel) url params all_orders sent
    = orders_loop server fuel url (params_after params script)
        (all_orders ++ concat (map fst script))
        (sent ++ requests_for url params script).
Proof.
  induction script as [|[orders next_page_token] script IH];
    intros fuel url params all_orders sent Hserves.
  - cbn. by rewrite !app_nil_r.
  - destruct Hserves as ((data & Hreply & Horders & Hnext) & Htoken & Hrest).
    cbn [length Nat.add orders_loop]. rewrite Hreply.
    cbn [Z.eqb Pos.eqb negb]. rewrite Horders, Hnext, Htoken. cbn [negb].
    rewrite IH.
    + cbn [params_after requests_for map fst concat].
      by rewrite <- !app_assoc.
    + by rewrite length_app, Nat.add_1_r.
Qed.

Lemma orders_loop_last_page (fuel : nat) (url : string)
    (params : list (string * json)) (all_orders : list json)
    (sent : list request) (data : json) (orders : list json)
    (next_page_token : json) :
  server (length sent) params = Response 200 (Some data) ->
  page data orders next_page_token ->
  truthy next_page_token = false ->
  orders_loop server (S fuel) url params all_orders sent
  = Some (all_orders ++ orders, sent ++ [(url, params)]).
Proof.
  intros Hreply [Horders Hnext] Htoken. cbn [orders_loop].
  rewrite Hreply. cbn [Z.eqb Pos.eqb negb].
  by rewrite Horders, Hnext, Htoken.
Qed.

Lemma orders_loop_fails (fuel : nat) (url : string)
    (params : list (string * json)) (all_orders : list json)
    (sent : list request) :
  fails (server (length sent) params) ->
  orders_loop server (S fuel) url params all_orders sent
  = Some (all_orders, sent ++ [(url, params)]).
Proof.
  cbn [orders_loop]. destruct (server (length sent) params)
    as [status_code body|]; [|done].
  intros [Hcode| ->].
  - by destruct (Z.eqb_spec status_code 200).
  - by destruct (negb _).
Qed.

Lemma length_requests_for (url : string) (params : list (string * json))
    (script : list (list json * json)) :
  length (requests_for url params script) = length script.
Proof.
  revert params. induction script as [|[orders next] script IH];
    intros params; [done|]. cbn. by rewrite IH.
Qed.

End FetchFacts.

(** X18.  [get_orders] follows the paging: when the server answers
    with pages that each name a next page and then with a page that
    names none, the call returns the orders of all these pages in their
    order, after one request per page, each request carrying the token
    the page before it named.  When instead of the last page the server
    fails (an exception, a status other than 200, a body that does not
    decode), the call returns the orders of the pages before, as a plain
    list: the caller cannot tell the listing is incomplete.  In both
    cases the loop ends. *)
Theorem get_orders_follows_paging
    (server : nat -> list (string * json) -> Fetch.reply)
    (campaign_id api_token : string) (limit page_token offer_ids : json)
    (params : list (string * json)) (script : list (list json * json))
    (fuel : nat) (sent : list Fetch.request) :
  Fetch.build_params limit page_token offer_ids = Ok params ->
  Fetch.serves server (length sent) params script ->
  (length script < fuel)%nat ->
  let last :=
    server (length sent + length script)%nat
           (Fetch.params_after params script) in
  let requests :=
    sent ++ Fetch.requests_for (Fetch.orders_url campaign_id) params script
         ++ [(Fetch.orders_url campaign_id,
              Fetch.params_after params script)] in
  (forall data orders next_page_token,
      last = Fetch.Response 200 (Some data) ->
      Fetch.page data orders next_page_token ->
      truthy next_page_token = false ->
      Fetch.get_orders server fuel campaign_id api_token limit page_token
        offer_ids sent
      = Ok (Some (concat (map fst script) ++ orders, requests)))
  /\ (Fetch.fails last ->
      Fetch.get_orders server fuel campaign_id api_token limit page_token
        offer_ids sent
      = Ok (Some (concat (map fst script), requests))).
Proof.
  intros Hparams Hserves Hfuel last requests.
  unfold Fetch.get_orders. rewrite Hparams, result_bind_ok.
  change (mret ?x) with (Ok x).
  destruct (Nat.le_exists_sub (S (length script)) fuel Hfuel)
    as (extra & -> & _).
  replace (extra + S (length script))%nat
    with (length script + S extra)%nat by lia.
  rewrite (orders_loop_pages server script (S extra) _ _ _ _ Hserves).
  cbn [app]. split.
  - intros data orders next_page_token Hlast Hpage Htoken.
    erewrite orders_loop_last_page; [| |exact Hpage|exact Htoken].
    + unfold requests. by rewrite <- app_assoc.
    + rewrite length_app, length_requests_for. exact Hlast.
  - intros Hfails. rewrite orders_loop_fails.
    + unfold requests. by rewrite <- app_assoc.
    + rewrite length_app, length_requests_for. exact Hfails.
Qed.

(** Two pages; and the same listing when the second request is
    answered with 503: the first page alone comes back. *)
Lemma get_orders_follows_paging_example :
  Fetch.get_orders Fetch.two_pages 5 "C" "T" (JInt 20) JNull JNull []
  = Ok (Some ([JObj [("id", JInt 1)]%string; JObj [("id", JInt 2)]%string;
               JObj [("id", JInt 3)]%string],
              [(Fetch.orders_url "C",
                [("limit", JInt 20); ("fake", JStr "false");
                 ("status", JStr "PROCESSING");
                 ("substatus", JStr "STARTED")]%string);
               (Fetch.orders_url "C",
                [("limit", JInt 20); ("fake", JStr "false");
                 ("status", JStr "PROCESSING");
                 ("substatus", JStr "STARTED");
                 ("page_token", JStr "p2")]%string)]))
  /\ Fetch.get_orders Fetch.second_page_fails 5 "C" "T" (JInt 20) JNull JNull
       []
     = Ok (Some ([JObj [("id", JInt 1)]%string; JObj [("id", JInt 2)]%string],
                 [(Fetch.orders_url "C",
                   [("limit", JInt 20); ("fake", JStr "false");
                    ("status", JStr "PROCESSING");
                    ("substatus", JStr "STARTED")]%string);
                  (Fetch.orders_url "C",
                   [("limit", JInt 20); ("fake", JStr "false");
                    ("status", JStr "PROCESSING");
                    ("substatus", JStr "STARTED");
                    ("page_token", JStr "p2")]%string)])).
Proof.
  split.
  - refine (proj1 (get_orders_follows_paging Fetch.two_pages "C" "T"
                     (JInt 20) JNull JNull _
                     [([JObj [("id", JInt 1)]%string;
                        JObj [("id", JInt 2)]%string], JStr "p2")]
                     5 [] eq_refl _ _)
                  _ [JObj [("id", JInt 3)]%string] JNull eq_refl _ eq_refl).
    + cbn. split; [|done]. eexists. split; [reflexivity|]. by split.
    + cbn. lia.
    + by split.
  - refine (proj2 (get_orders_follows_paging Fetch.second_page_fails "C" "T"
                     (JInt 20) JNull JNull _
                     [([JObj [("id", JInt 1)]%string;
                        JObj [("id", JInt 2)]%string], JStr "p2")]
                     5 [] eq_refl _ _) _).
    + cbn. split; [|done]. eexists. split; [reflexivity|]. by split.
    + cbn. lia.
    + cbn. left. lia.
Defined.

Lemma extract_order_data_ok_all (orders result : list json) :
  Orders.extract_order_data orders = Ok result ->
  Forall (fun order => is_ok (Orders.order_summary order) = true) orders.
Proof.
  revert result. induction orders as [|order orders IH] using rev_ind;
    intros result; [constructor|].
  rewrite extract_order_data_snoc.
  destruct (Orders.extract_order_data orders) as [summaries|e]; [|done].
  rewrite result_bind_ok.
  destruct (Orders.order_summary order) as [summary|e] eqn:Hlast; [|done].
  intros _. apply Forall_app. split; [by eapply IH|].
  apply Forall_cons. split; [by rewrite Hlast|constructor].
Qed.

(** X19.  [main] of [orders.py] summarises the listed orders before it
    exports them, so one listed order that cannot be summarised (an
    order with no planned shipment, for one) makes the run raise with
    the directory and the upload log as they were: none of the listed
    orders is exported. *)
Theorem orders_main_blocked_by_one_order
    {date : Type} (strptime : string -> string -> option date)
    (float_of_str : string -> option spec_float)
    (int_of_str : string -> option Z) (str_of_json : json -> string)
    (dbf_accepts : Orders.dbf_record date -> bool)
    (server : nat -> list (string * json) -> Fetch.reply)
    (CAMPAIGN_ID API_TOKEN ORDERS_DIR : string)
    (CUSTOMER_ID_IN_SUPPLIER_CRM DIVISION_ID : string)
    (fuel : nat) (w : Orders.world date) (sent sent' : list Fetch.request)
    (orders : list json) (order : json) :
  Fetch.get_orders server fuel CAMPAIGN_ID API_TOKEN (JInt 20) JNull JNull
    sent = Ok (Some (orders, sent')) ->
  order ∈ orders ->
  is_ok (Orders.order_summary order) = false ->
  exists e,
    Fetch.main date strptime float_of_str int_of_str str_of_json dbf_accepts
      server CAMPAIGN_ID API_TOKEN ORDERS_DIR CUSTOMER_ID_IN_SUPPLIER_CRM
      DIVISION_ID fuel w sent
    = Some (Raise e, w, sent').
Proof.
  intros Hlisted Hin Hbad. unfold Fetch.main. rewrite Hlisted.
  destruct (Orders.extract_order_data orders) as [data_orders|e] eqn:Hdata;
    [|by exists e].
  apply extract_order_data_ok_all in Hdata.
  rewrite Forall_forall in Hdata. specialize (Hdata order Hin). congruence.
Qed.

(** Two listed orders, the second without a planned shipment: the run
    raises IndexError and the first order is not exported either. *)
Lemma orders_main_blocked_by_one_order_example :
  exists e,
    Fetch.main string (fun _ s => Some s) (fun _ => None) (fun _ => None)
      Orders.str_of_id (fun _ => true) Fetch.one_page_mixed "C" "T"
      "dbf_orders" "CRM-7" "F1" 5 (Orders.World ∅ []) []
    = Some (Raise e, Orders.World ∅ [],
            [(Fetch.orders_url "C",
              [("limit", JInt 20); ("fake", JStr "false");
               ("status", JStr "PROCESSING");
               ("substatus", JStr "STARTED")]%string)]).
Proof.
  apply (orders_main_blocked_by_one_order (fun _ s => Some s) (fun _ => None)
           (fun _ => None) Orders.str_of_id (fun _ => true)
           Fetch.one_page_mixed "C" "T" "dbf_orders" "CRM-7" "F1" 5
           (Orders.World ∅ []) [] _
           [Orders.order_with_shipment; Orders.order_without_shipments]
           Orders.order_without_shipments).
  - vm_compute. reflexivity.
  - apply list_elem_of_In. right. left. reflexivity.
  - reflexivity.
Defined.

(** ** The FTP session of the inbox download *)

Section SessionFacts.
Import Session.
Variable srv : server.
Variable os_error : os_call -> option exn.
Variables local_directory division_id : string.
Variables max_retries retry_delay : Z.

Local Abbreviation orderly := (orderly srv local_directory division_id).
Local Abbreviation fetch_files :=
  (fetch_files srv local_directory division_id).
Local Abbreviation session :=
  (session srv os_error local_directory division_id retry_delay).
Local Abbreviation sessions :=
  (sessions srv os_error local_directory division_id max_retries retry_delay).

Lemma careful_app (n : nat) (a b : list ftp_event) :
  careful srv n a -> careful srv (n + length a) b -> careful srv n (a ++ b).
Proof.
  induction 1 as [n|n e rest He _ IH|n filename content rest Hretr _ IH];
    cbn [app length].
  - by rewrite Nat.add_0_r.
  - intros Hb. apply careful_other; [done|]. apply IH.
    by replace (S n + length rest)%nat with (n + S (length rest))%nat by lia.
  - intros Hb. eapply careful_pair; [done|]. apply IH.
    by replace (S (S n) + length rest)%nat
      with (n + S (S (length rest)))%nat by lia.
Qed.

Lemma touched_app (a b : list ftp_event) :
  touched (a ++ b) = touched a ++ touched b.
Proof. unfold touched. by rewrite flat_map_app. Qed.

Lemma connections_app (a b : list ftp_event) :
  connections (a ++ b) = (connections a + connections b)%nat.
Proof. unfold connections. by rewrite filter_app, length_app. Qed.

Lemma orderly_refl (w : world) : orderly 0 w w.
Proof.
  exists []. rewrite app_nil_r. split; [done|]. split; [constructor|].
  split; [constructor|]. by split.
Qed.

Lemma orderly_trans (k1 k2 : nat) (w1 w2 w3 : world) :
  orderly k1 w1 w2 -> orderly k2 w2 w3 -> orderly (k1 + k2) w1 w3.
Proof.
  intros (evs1 & Hlog1 & Hcare1 & Hsel1 & Hdisk1 & Hconn1)
         (evs2 & Hlog2 & Hcare2 & Hsel2 & Hdisk2 & Hconn2).
  exists (evs1 ++ evs2). split; [by rewrite Hlog2, Hlog1, app_assoc|].
  split.
  { apply careful_app; [done|]. by rewrite Hlog1, length_app in Hcare2. }
  split; [rewrite touched_app; by apply Forall_app|].
  split.
  - intros p Hp. rewrite Hdisk2, Hdisk1; [done| |].
    + intros f Hf. apply Hp. rewrite touched_app. apply elem_of_app. by left.
    + intros f Hf. apply Hp. rewrite touched_app. apply elem_of_app. by right.
  - by rewrite connections_app, Hconn1, Hconn2.
Qed.

(** A command that neither retrieves nor deletes. *)
Lemma orderly_say (c : command) (w : world) :
  (forall filename, c <> Retr filename /\ c <> Dele filename) ->
  orderly (if decide (c = Connect) then 1 else 0) w (say c w).
Proof.
  intros Hc. exists [Cmd c]. split; [done|]. split.
  { apply careful_other; [|constructor]. intros f [= ->]. by destruct (Hc f). }
  assert (Htouched : touched [Cmd c] = []).
  { destruct c; try done; by destruct (Hc filename). }
  rewrite Htouched. split; [constructor|]. split; [done|].
  unfold connections. rewrite filter_cons, filter_nil.
  destruct (decide (c = Connect)) as [->|Hne].
  - by rewrite decide_True.
  - rewrite decide_False; [done|]. by intros [= ->].
Qed.

Lemma orderly_sleep (w w' : world) (r : result unit) :
  sleep retry_delay w = (r, w') -> orderly 0 w w'.
Proof.
  unfold sleep. destruct (Z.ltb_spec retry_delay 0); intros [= <- <-].
  - apply orderly_refl.
  - exists [Wait retry_delay]. split; [done|].
    split; [apply careful_other; [done|constructor]|].
    split; [constructor|]. by split.
Qed.

(** A retrieval, complete or not, that is not followed by a deletion. *)
Lemma orderly_retr (filename : string) (w : world)
    (leftover : option Confirmations.file) :
  Inbox.selected division_id filename = true ->
  orderly 0 w
    (World (match leftover with
            | Some content =>
                <[path_join local_directory (Inbox.new_filename filename)
                  := content]> (disk w)
            | None => disk w
            end) (log w ++ [Cmd (Retr filename)])).
Proof.
  intros Hsel. exists [Cmd (Retr filename)]. split; [done|].
  split; [apply careful_other; [done|constructor]|].
  split; [by repeat constructor|]. split; [|done].
  intros p Hp. destruct leftover as [content|]; [|done]. cbn [disk].
  rewrite lookup_insert_ne; [done|]. intros <-.
  apply (Hp filename); [cbn; left|done].
Qed.

(** A complete retrieval followed by the deletion. *)
Lemma orderly_retr_dele (filename : string) (w : world)
    (content : Confirmations.file) :
  Inbox.selected division_id filename = true ->
  retr srv (length (log w)) filename = Complete content ->
  orderly 0 w
    (World (<[path_join local_directory (Inbox.new_filename filename)
              := content]> (disk w))
           ((log w ++ [Cmd (Retr filename)]) ++ [Cmd (Dele filename)])).
Proof.
  intros Hsel Hretr. exists [Cmd (Retr filename); Cmd (Dele filename)].
  split; [by rewrite <- app_assoc|].
  split; [eapply careful_pair; [done|constructor]|].
  split; [by repeat constructor|]. split; [|done].
  intros p Hp. cbn [disk].
  rewrite lookup_insert_ne; [done|]. intros <-.
  apply (Hp filename); [cbn; left|done].
Qed.

Lemma fetch_files_orderly (files : list string) (w w' : world)
    (r : result unit) :
  fetch_files files w = (r, w') -> orderly 0 w w'.
Proof.
  revert w. induction files as [|filename rest IH]; intros w.
  - intros [= <- <-]. apply orderly_refl.
  - cbn [Session.fetch_files].
    destruct (Inbox.selected division_id filename) eqn:Hsel; [|apply IH].
    destruct (retr srv (length (log w)) filename) as [content|leftover]
      eqn:Hretr.
    + pose proof (orderly_retr_dele filename w content Hsel Hretr) as Hstep.
      cbn [say disk log].
      destruct (dele srv _ filename).
      * intros Hrest%IH. by apply (orderly_trans 0 0 _ _ _ Hstep).
      * by intros [= <- <-].
    + intros [= <- <-]. apply (orderly_retr filename w leftover Hsel).
Qed.

Lemma refused_orderly (attempt : Z) (w w' : world) (o : outcome) :
  refused srv retry_delay attempt w = (o, w') ->
  orderly 0 w w' /\ progresses attempt o.
Proof.
  unfold refused, connection_error.
  destruct (sleep retry_delay w) as [[[]|e] w1] eqn:Hsleep;
    apply orderly_sleep in Hsleep as Hwait;
    pose proof (orderly_say Quit w1 ltac:(done)) as Hquit;
    rewrite decide_False in Hquit by done;
    pose proof (orderly_trans 0 0 _ _ _ Hwait Hquit) as Hboth.
  - destruct (quit srv _); intros [= <- <-]; (split; [done|]); cbn; [lia|done].
  - by intros [= <- <-].
Qed.

Lemma session_orderly (attempt : Z) (w w' : world) (o : outcome) :
  session attempt w = (o, w') ->
  orderly 1 w w' /\ progresses attempt o.
Proof.
  unfold Session.session, connection_error.
  pose proof (orderly_say Connect w ltac:(done)) as H1.
  rewrite decide_True in H1 by done.
  assert (Hsay : forall c k w0,
            (forall filename, c <> Retr filename /\ c <> Dele filename) ->
            c <> Connect ->
            orderly k w w0 -> orderly k w (say c w0)).
  { intros c k w0 Hc Hne Hk.
    pose proof (orderly_say c w0 Hc) as Hstep.
    rewrite decide_False in Hstep by done.
    replace k with (k + 0)%nat by lia. by eapply orderly_trans. }
  assert (Href : forall w0 o0 w1,
            orderly 1 w w0 ->
            refused srv retry_delay attempt w0 = (o0, w1) ->
            orderly 1 w w1 /\ progresses attempt o0).
  { intros w0 o0 w1 Hk [Hstep Ho]%refused_orderly.
    split; [|done]. by apply (orderly_trans 1 0 _ _ _ Hk). }
  destruct (connect srv _); cbn [negb]; [|by intros [= <- <-]].
  pose proof (Hsay Login 1%nat _ ltac:(done) ltac:(done) H1) as H2.
  destruct (login srv _).
  2: { by apply Href. }
  2: { intros [= <- <-]. split; [|done]. by apply Hsay. }
  pose proof (Hsay (Cwd remote_directory) 1%nat _ ltac:(done) ltac:(done) H2)
    as H3.
  destruct (cwd srv _).
  2: { by apply Href. }
  2: { intros [= <- <-]. split; [|done]. by apply Hsay. }
  destruct (os_error (Makedirs local_directory)).
  { intros [= <- <-]. split; [|done]. by apply Hsay. }
  pose proof (Hsay Nlst 1%nat _ ltac:(done) ltac:(done) H3) as H4.
  destruct (nlst srv _) as [files|].
  2: { intros [= <- <-]. split; [|done]. by apply Hsay. }
  destruct (Session.fetch_files _ _ _ files _) as [[[]|e] w5] eqn:Hfetch;
    apply fetch_files_orderly in Hfetch as Hfiles;
    pose proof (orderly_trans 1 0 _ _ _ H4 Hfiles) as H5.
  - destruct (quit srv _); intros [= <- <-]; (split; [|done]); by apply Hsay.
  - intros [= <- <-]. split; [|done]. by apply Hsay.
Qed.

Lemma sessions_orderly (fuel : nat) :
  forall (attempt : Z) (w : world),
    (Z.to_nat (max_retries - attempt) <= fuel)%nat ->
    exists r w' k,
      sessions fuel attempt w = Some (r, w')
      /\ orderly k w w'
      /\ (k <= Z.to_nat (max_retries - attempt))%nat
      /\ match r with
         | Ok _ => True
         | Raise e => e = TypeError
         end.
Proof.
  induction fuel as [|fuel IH]; intros attempt w Hfuel.
  - cbn [Session.sessions].
    destruct (Z.ltb_spec attempt max_retries); [lia|].
    exists (Ok tt), w, 0%nat. split; [done|].
    split; [apply orderly_refl|]. split; [lia|done].
  - cbn [Session.sessions].
    destruct (Z.ltb_spec attempt max_retries) as [Hlt|Hge].
    2: { exists (Ok tt), w, 0%nat. split; [done|].
         split; [apply orderly_refl|]. split; [lia|done]. }
    destruct (Session.session _ _ _ _ _ attempt w) as [o w1] eqn:Hsession.
    apply session_orderly in Hsession as [Hone Ho].
    destruct o as [|attempt'|e]; cbn in Ho.
    + exists (Ok tt), w1, 1%nat. split; [done|]. split; [done|].
      split; [lia|done].
    + destruct (IH attempt' w1) as (r & w' & k & Hrun & Hrest & Hk & Hr);
        [lia|].
      exists r, w', (1 + k)%nat. split; [done|].
      split; [by eapply orderly_trans|]. split; [lia|done].
    + exists (Raise e), w1, 1%nat. split; [done|]. split; [done|].
      split; [lia|done].
Qed.

(** A connection that fails ends the run at once. *)
Lemma sessions_connection_fails (fuel : nat) (w : world) :
  0 < max_retries ->
  connect srv (length (log w)) = false ->
  sessions (S fuel) 0 w = Some (Raise TypeError, say Connect w).
Proof.
  intros Hpos Hconnect. cbn [Session.sessions].
  destruct (Z.ltb_spec 0 max_retries); [|lia].
  unfold Session.session. by rewrite Hconnect.
Qed.

End SessionFacts.

(** X20.  The inbox download always comes to an end, and whatever the
    FTP server, the line and the operating system do: it deletes a
    remote file only directly after retrieving that very file in full;
    it retrieves and deletes only files the file-name rule takes for
    the division; it changes local files only where such a file is
    stored; it opens at most [max_retries] connections.  It raises
    nothing but TypeError: its clause
    [except (ftplib.all_errors, ConnectionError)] names a tuple inside
    a tuple, so that an error it was written to catch is not caught,
    and a connection that fails ends the run with TypeError at once,
    without a pause and without another attempt. *)
Theorem download_from_ftp_orderly
    (srv : Session.server) (os_error : os_call -> option exn)
    (local_directory division_id : string)
    (max_retries retry_delay : Z) (w : Session.world) :
  exists r w' evs,
    Session.download_from_ftp srv os_error local_directory division_id
      max_retries retry_delay w = Some (r, w')
    /\ Session.log w' = Session.log w ++ evs
    /\ Session.careful srv (length (Session.log w)) evs
    /\ Forall (fun filename => Inbox.selected division_id filename = true)
              (Session.touched evs)
    /\ (forall p,
          (forall filename, filename ∈ Session.touched evs ->
             p <> path_join local_directory (Inbox.new_filename filename)) ->
          Session.disk w' !! p = Session.disk w !! p)
    /\ (Session.connections evs <= Z.to_nat max_retries)%nat
    /\ match r with
       | Ok _ => True
       | Raise e => e = TypeError
       end
    /\ (0 < max_retries ->
        Session.connect srv (length (Session.log w)) = false ->
        r = Raise TypeError /\ evs = [Session.Cmd Session.Connect]).
Proof.
  unfold Session.download_from_ftp.
  destruct (sessions_orderly srv os_error local_directory division_id
              max_retries retry_delay (Z.to_nat max_retries) 0 w)
    as (r & w' & k & Hrun & (evs & Hlog & Hcare & Hsel & Hdisk & Hconn)
        & Hk & Hr).
  { replace (max_retries - 0) with max_retries by lia. lia. }
  exists r, w', evs. rewrite Z.sub_0_r in Hk.
  repeat (split; [done|]). split; [lia|]. split; [done|].
  intros Hpos Hconnect.
  destruct (Z.to_nat max_retries) as [|fuel] eqn:Hfuel; [lia|].
  rewrite (sessions_connection_fails srv os_error local_directory division_id
             max_retries retry_delay fuel w Hpos Hconnect) in Hrun.
  injection Hrun as <- <-. split; [done|].
  cbn [Session.say Session.log] in Hlog. by apply app_inv_head in Hlog.
Qed.

(** ** The archive copy *)

Section ArchiveFacts.
Import Archive.
Local Open Scope string_scope.

Lemma rsplit_last_spec (sep : ascii) (s : string) :
  match Inbox.rsplit_last sep s with
  | Some (before, after) =>
      s = before ++ String sep after /\ Inbox.contains_char sep after = false
  | None => Inbox.contains_char sep s = false
  end.
Proof.
  induction s as [|c s IH]; [done|]. cbn [Inbox.rsplit_last Inbox.contains_char].
  destruct (Inbox.rsplit_last sep s) as [[before after]|].
  - destruct IH as [-> Hafter]. by rewrite append_cons.
  - destruct (Ascii.eqb_spec c sep) as [->|Hne]; [by rewrite append_nil|done].
Qed.

Lemma rsplit_last_app_r (sep : ascii) (s t : string) :
  Inbox.contains_char sep t = false ->
  Inbox.rsplit_last sep (s ++ t)
  = match Inbox.rsplit_last sep s with
    | Some (before, after) => Some (before, after ++ t)
    | None => None
    end.
Proof.
  intros Ht. induction s as [|c s IH].
  - rewrite append_nil. by apply rsplit_last_none.
  - rewrite append_cons. cbn [Inbox.rsplit_last]. rewrite IH.
    destruct (Inbox.rsplit_last sep s) as [[before after]|]; [done|].
    by destruct (Ascii.eqb c sep).
Qed.

Lemma basename_app (s t : string) :
  Inbox.contains_char "/" t = false -> basename (s ++ t) = basename s ++ t.
Proof.
  intros Ht. unfold basename. rewrite (rsplit_last_app_r "/" s t Ht).
  by destruct (Inbox.rsplit_last "/" s) as [[before after]|].
Qed.

Lemma basename_no_separator (p : string) :
  Inbox.contains_char "/" (basename p) = false.
Proof.
  unfold basename. pose proof (rsplit_last_spec "/" p) as Hspec.
  destruct (Inbox.rsplit_last "/" p) as [[before after]|]; [by destruct Hspec|done].
Qed.

Lemma splitext_join (name : string) :
  (splitext name).1 ++ (splitext name).2 = name.
Proof.
  unfold splitext. pose proof (rsplit_last_spec "." name) as Hspec.
  destruct (Inbox.rsplit_last "." name) as [[stem tail]|].
  - destruct (all_dots stem); cbn [fst snd].
    + clear. induction name as [|c name IH]; [done|].
      by rewrite append_cons, IH.
    + by destruct Hspec as [-> _].
  - cbn [fst snd]. clear. induction name as [|c name IH]; [done|].
    by rewrite append_cons, IH.
Qed.

(** The destination is never the source. *)
Lemma dest_file_differs (timestamp src_file dest_folder : string) :
  Inbox.contains_char "/" timestamp = false ->
  dest_file_of timestamp src_file dest_folder <> src_file.
Proof.
  intros Hstamp. unfold dest_file_of.
  set (name := basename src_file).
  pose proof (splitext_join name) as Hjoin.
  pose proof (basename_no_separator src_file) as Hname. fold name in Hname.
  destruct (splitext name) as [base_name ext]. cbn [fst snd] in *.
  rewrite <- Hjoin, contains_char_app in Hname.
  apply orb_false_iff in Hname as [Hbase Hext].
  set (new_file_name := base_name ++ "_" ++ timestamp ++ ext).
  assert (Hnew : Inbox.contains_char "/" new_file_name = false).
  { unfold new_file_name. rewrite !contains_char_app, Hbase, Hstamp, Hext.
    reflexivity. }
  assert (Hprefix : exists prefix,
             path_join dest_folder new_file_name = prefix ++ new_file_name).
  { unfold path_join.
    destruct (String.prefix "/" new_file_name); [by exists ""|].
    destruct (String.eqb dest_folder ""); [by exists ""|].
    destruct (String.eqb _ "/").
    - by exists dest_folder.
    - exists (dest_folder ++ "/"). by rewrite append_assoc_string. }
  destruct Hprefix as [prefix ->]. intros Hsame.
  apply (f_equal basename) in Hsame. rewrite (basename_app _ _ Hnew) in Hsame.
  fold name in Hsame. rewrite <- Hjoin in Hsame.
  apply (f_equal String.length) in Hsame. unfold new_file_name in Hsame.
  rewrite !length_app_string in Hsame. cbn [String.length] in Hsame. lia.
Qed.

Lemma copy_loop_all (os_error : os_call -> option exn)
    (src_file dest_file : string) (fuel : nat) :
  (forall call, os_error call = None) ->
  forall (n : nat) (rest written : list Byte.byte),
    (length rest < fuel)%nat ->
    copy_loop os_error fuel src_file dest_file n rest written
    = Some ((written ++ rest)%list, None).
Proof.
  intros Hos.
  induction fuel as [|fuel IH]; intros n rest written Hfuel; [lia|].
  cbn [copy_loop]. rewrite !Hos.
  destruct (take 4096 rest) as [|b chunk] eqn:Hchunk.
  - destruct rest as [|b rest]; [by rewrite app_nil_r|done].
  - rewrite IH.
    + by rewrite <- Hchunk, <- app_assoc, take_drop.
    + rewrite length_drop. destruct rest as [|b' rest]; [done|].
      cbn [length] in *. lia.
Qed.

Lemma copy_loop_ends (os_error : os_call -> option exn)
    (src_file dest_file : string) (fuel : nat) :
  forall (n : nat) (rest written : list Byte.byte),
    (length rest < fuel)%nat ->
    exists result,
      copy_loop os_error fuel src_file dest_file n rest written
      = Some result.
Proof.
  induction fuel as [|fuel IH]; intros n rest written Hfuel; [lia|].
  cbn [copy_loop].
  destruct (os_error (ReadChunk src_file n)); [by eexists|].
  destruct (take 4096 rest) as [|b chunk] eqn:Hchunk; [by eexists|].
  destruct (os_error (WriteChunk dest_file n)); [by eexists|].
  apply IH. rewrite length_drop. destruct rest as [|b' rest]; [done|].
  cbn [length] in *. lia.
Qed.

End ArchiveFacts.

(** X21.  [copy_file_with_timestamp] always comes to an end and
    changes no file but "<dest_folder>/<stem>_<timestamp><extension>",
    which differs from the source.  On a source that is no file it
    raises FileNotFoundError and leaves the disk as it was.  On a
    source that is a file: when the operating system refuses to make
    the folder or to open one of the two files, that exception is
    raised and nothing is copied; when it refuses nothing, the path is
    returned and the disk afterwards is the disk before with that one
    file added or replaced, holding byte for byte what the source
    holds, the source itself being unchanged. *)
Theorem copy_file_with_timestamp_exact
    (os_error : os_call -> option exn)
    (timestamp src_file dest_folder : string)
    (disk : gmap string (list Byte.byte)) :
  Inbox.contains_char "/" timestamp = false ->
  let dest_file := Archive.dest_file_of timestamp src_file dest_folder in
  let copy :=
    Archive.copy_file_with_timestamp os_error timestamp src_file dest_folder
      disk in
  dest_file <> src_file
  /\ (exists r disk',
        copy = Some (r, disk')
        /\ forall p, p <> dest_file -> disk' !! p = disk !! p)
  /\ match disk !! src_file with
     | None => copy = Some (Raise (OSError "FileNotFoundError"), disk)
     | Some content =>
         match os_error (Makedirs dest_folder), os_error (OpenRead src_file),
               os_error (OpenWrite dest_file) with
         | Some e, _, _ | None, Some e, _ | None, None, Some e =>
             copy = Some (Raise e, disk)
         | None, None, None =>
             (forall call, os_error call = None) ->
             copy = Some (Ok dest_file, <[dest_file := content]> disk)
             /\ (<[dest_file := content]> disk) !! src_file = Some content
         end
     end.
Proof.
  intros Hstamp dest_file copy.
  pose proof (dest_file_differs timestamp src_file dest_folder Hstamp) as Hne.
  split; [exact Hne|].
  subst copy dest_file.
  unfold Archive.copy_file_with_timestamp, Archive.dest_file_of in *.
  destruct (disk !! src_file) as [content|] eqn:Hsrc;
    [|split; [by eexists _, _|done]].
  destruct (os_error (Makedirs dest_folder)) as [e|];
    [split; [by eexists _, _|done]|].
  destruct (Archive.splitext (Archive.basename src_file))
    as [base_name ext]. cbn [fst snd] in *.
  destruct (os_error (OpenRead src_file)) as [e|];
    [split; [by eexists _, _|done]|].
  destruct (os_error (OpenWrite _)) as [e|];
    [split; [by eexists _, _|done]|].
  rewrite lookup_insert_ne by done. rewrite Hsrc. cbn [default].
  change (id content) with content.
  split.
  - match goal with
    | |- context [Archive.copy_loop os_error ?fuel ?src ?dst 0 content []] =>
        destruct (copy_loop_ends os_error src dst fuel 0 content [])
          as [[written [e|]] ->]; [lia| |]
    end;
      eexists _, _; (split; [done|]); intros p Hp;
      by rewrite !lookup_insert_ne.
  - intros Hos. rewrite (copy_loop_all os_error _ _ _ Hos) by lia. cbn [app].
    rewrite insert_insert_eq. split; [done|].
    by rewrite lookup_insert_ne.
Qed.

(** The supplier's file archived under a stamped name. *)
Lemma copy_file_with_timestamp_exact_example :
  Archive.copy_file_with_timestamp (fun _ => None) "03-11-2025_10-15-00"
    "supplier/stock.xls" "done"
    {[ "supplier/stock.xls"%string := [Byte.x50; Byte.x4b] ]}
  = Some (Ok "done/stock_03-11-2025_10-15-00.xls"%string,
          <["done/stock_03-11-2025_10-15-00.xls"%string
            := [Byte.x50; Byte.x4b]]>
            {[ "supplier/stock.xls"%string := [Byte.x50; Byte.x4b] ]}).
Proof.
  pose proof (copy_file_with_timestamp_exact (fun _ => None)
                "03-11-2025_10-15-00"
                "supplier/stock.xls" "done"
                {[ "supplier/stock.xls"%string := [Byte.x50; Byte.x4b] ]}
                eq_refl) as Hcopy.
  cbv zeta in Hcopy. destruct Hcopy as (_ & _ & Hcopy).
  rewrite lookup_singleton_eq in Hcopy. exact (proj1 (Hcopy (fun _ => eq_refl))).
Defined.

(** A folder the operating system refuses to make (the empty path is
    one): the exception is raised and nothing is copied. *)
Lemma copy_file_with_timestamp_refused_folder :
  Archive.copy_file_with_timestamp
    (fun call => match call with
                 | Makedirs _ => Some (OSError "FileNotFoundError")
                 | _ => None
                 end)
    "03-11-2025_10-15-00" "supplier/stock.xls" ""
    {[ "supplier/stock.xls"%string := [Byte.x50; Byte.x4b] ]}
  = Some (Raise (OSError "FileNotFoundError"),
          {[ "supplier/stock.xls"%string := [Byte.x50; Byte.x4b] ]}).
Proof.
  unfold Archive.copy_file_with_timestamp.
  by rewrite lookup_singleton_eq.
Qed.

(** ** The download of the supplier's file *)

Section SupplierFacts.
Import Session Supplier.
Variable srv : server.
Variable os_error : os_call -> option exn.
Variables filename local_directory : string.
Variables max_retries retry_delay : Z.
Variable remote_directory : string.

Local Abbreviation local_path := (path_join local_directory filename).
Local Abbreviation steady := (steady srv filename local_path).

Lemma retrievals_app (a b : list ftp_event) :
  retrievals (a ++ b) = (retrievals a + retrievals b)%nat.
Proof. unfold retrievals. by rewrite touched_app, length_app. Qed.

Lemma steady_refl (w : world) : steady 0 w w.
Proof.
  exists []. rewrite app_nil_r. split; [done|]. split; [constructor|].
  by repeat split.
Qed.

Lemma steady_trans (k1 k2 : nat) (w1 w2 w3 : world) :
  steady k1 w1 w2 -> steady k2 w2 w3 -> steady (k1 + k2) w1 w3.
Proof.
  intros (evs1 & Hlog1 & Hev1 & Hdisk1 & Hconn1 & Hsame1 & Hnone1)
         (evs2 & Hlog2 & Hev2 & Hdisk2 & Hconn2 & Hsame2 & Hnone2).
  exists (evs1 ++ evs2). split; [by rewrite Hlog2, Hlog1, app_assoc|].
  split; [by apply Forall_app|].
  split; [intros p Hp; by rewrite Hdisk2, Hdisk1|].
  split; [by rewrite connections_app, Hconn1, Hconn2|].
  rewrite retrievals_app. split.
  - intros Hzero. rewrite Hsame2, Hsame1; [done|lia|lia].
  - intros Hnever. rewrite Hnone1, Hnone2; done.
Qed.

(** An event that is no retrieval and no deletion. *)
Lemma steady_event (e : ftp_event) (w : world) :
  (forall f, e <> Cmd (Retr f) /\ e <> Cmd (Dele f)) ->
  steady (if decide (e = Cmd Connect) then 1 else 0) w
         (World (disk w) (log w ++ [e])).
Proof.
  intros He. exists [e]. split; [done|].
  assert (Htouched : touched [e] = []).
  { destruct e as [[]|]; try done; by destruct (He filename0). }
  split.
  { apply Forall_cons. split; [|constructor].
    destruct e as [[]|]; try done; by destruct (He filename0). }
  split; [done|]. split.
  { unfold connections. rewrite filter_cons, filter_nil.
    by destruct (decide (e = Cmd Connect)). }
  unfold retrievals. rewrite Htouched. by split.
Qed.

Lemma steady_say (c : command) (k : nat) (w w0 : world) :
  (forall f, c <> Retr f /\ c <> Dele f) -> c <> Connect ->
  steady k w w0 -> steady k w (say c w0).
Proof.
  intros Hc Hne Hk.
  pose proof (steady_event (Cmd c) w0) as Hstep.
  rewrite decide_False in Hstep by (by intros [= ->]).
  replace k with (k + 0)%nat by lia. eapply steady_trans; [done|].
  apply Hstep. intros f. split; intros [= ->]; by destruct (Hc f).
Qed.

Lemma steady_sleep (w w' : world) (r : result unit) :
  sleep retry_delay w = (r, w') -> steady 0 w w'.
Proof.
  unfold sleep. destruct (Z.ltb_spec retry_delay 0); intros [= <- <-].
  - apply steady_refl.
  - by apply (steady_event (Wait retry_delay) w).
Qed.

Lemma steady_refused (attempt : Z) (w w' : world) (o : outcome) :
  refused srv retry_delay attempt w = (o, w') ->
  steady 0 w w' /\ progresses attempt o.
Proof.
  unfold refused, connection_error.
  destruct (sleep retry_delay w) as [[[]|e] w1] eqn:Hsleep;
    apply steady_sleep in Hsleep as Hwait;
    pose proof (steady_say Quit 0 w w1 ltac:(done) ltac:(done) Hwait)
      as Hboth.
  - destruct (quit srv _); intros [= <- <-]; (split; [done|]); cbn; [lia|done].
  - by intros [= <- <-].
Qed.

Lemma steady_leave (attempt : Z) (w w' : world) (o : outcome) :
  leave srv w = (o, w') ->
  steady 0 w w' /\ progresses attempt o.
Proof.
  unfold leave, connection_error.
  pose proof (steady_say Quit 0 w w ltac:(done) ltac:(done) (steady_refl w))
    as Hquit.
  destruct (quit srv _); by intros [= <- <-].
Qed.

(** A retrieval of a file that some listing names. *)
Lemma steady_retr (w : world) (leftover : option Confirmations.file)
    (n : nat) (files : list string) :
  nlst srv n = Some files -> filename ∈ files ->
  steady 0 w
    (World (match leftover with
            | Some content => <[local_path := content]> (disk w)
            | None => disk w
            end) (log w ++ [Cmd (Retr filename)])).
Proof.
  intros Hlist Hin. exists [Cmd (Retr filename)]. split; [done|].
  split; [by repeat constructor|]. split.
  { intros p Hp. destruct leftover; [|done]. cbn [disk].
    by rewrite lookup_insert_ne. }
  split; [done|]. split; [done|].
  intros Hnever. by destruct (Hnever n files Hlist).
Qed.

Lemma retrieve_steady (attempts : list Z) (w w' : world) (r : result bool)
    (n : nat) (files : list string) :
  nlst srv n = Some files -> filename ∈ files ->
  retrieve srv filename local_directory attempts w = (r, w') ->
  steady 0 w w'.
Proof.
  intros Hlist Hin. destruct attempts as [|attempt rest].
  - intros [= <- <-]. apply steady_refl.
  - cbn [retrieve say disk log].
    destruct (retr srv (length (log w)) filename) as [content|leftover];
      intros [= <- <-].
    + apply (steady_retr w (Some content) n files Hlist Hin).
    + apply (steady_retr w leftover n files Hlist Hin).
Qed.

Lemma session_steady (attempt : Z) (w w' : world) (o : outcome) :
  Supplier.session srv os_error filename local_directory max_retries
    retry_delay remote_directory attempt w = (o, w') ->
  steady 1 w w' /\ progresses attempt o.
Proof.
  unfold Supplier.session, connection_error.
  pose proof (steady_event (Cmd Connect) w ltac:(done)) as H1.
  rewrite decide_True in H1 by done. fold (say Connect w) in H1.
  assert (Href : forall w0 o0 w1,
            steady 1 w w0 ->
            refused srv retry_delay attempt w0 = (o0, w1) ->
            steady 1 w w1 /\ progresses attempt o0).
  { intros w0 o0 w1 Hk [Hstep Ho]%steady_refused.
    split; [|done]. by apply (steady_trans 1 0 _ _ _ Hk). }
  assert (Hleave : forall w0 o0 w1,
            steady 1 w w0 ->
            leave srv w0 = (o0, w1) ->
            steady 1 w w1 /\ progresses attempt o0).
  { intros w0 o0 w1 Hk [Hstep Ho]%(steady_leave attempt).
    split; [|done]. by apply (steady_trans 1 0 _ _ _ Hk). }
  destruct (connect srv _); cbn [negb]; [|by intros [= <- <-]].
  pose proof (steady_say Login 1 _ _ ltac:(done) ltac:(done) H1) as H2.
  destruct (login srv _).
  2: { by apply Href. }
  2: { intros [= <- <-]. split; [|done]. by apply steady_say. }
  pose proof (steady_say (Cwd remote_directory) 1 _ _ ltac:(done) ltac:(done)
                H2) as H3.
  destruct (cwd srv _).
  2: { by apply Href. }
  2: { intros [= <- <-]. split; [|done]. by apply steady_say. }
  destruct (os_error (Makedirs local_directory)).
  { intros [= <- <-]. split; [|done]. by apply steady_say. }
  pose proof (steady_say Nlst 1 _ _ ltac:(done) ltac:(done) H3) as H4.
  destruct (nlst srv _) as [files|] eqn:Hlist.
  2: { intros [= <- <-]. split; [|done]. by apply steady_say. }
  case_bool_decide as Hin; cbn [negb]; [|by apply Hleave].
  destruct (retrieve _ _ _ _ _) as [[found|e] w5] eqn:Hretrieve;
    apply (retrieve_steady _ _ _ _ _ files Hlist Hin) in Hretrieve
      as Hfile.
  - apply Hleave. by apply (steady_trans 1 0 _ _ _ H4).
  - intros [= <- <-]. split; [|done]. apply steady_say; [done|done|].
    by apply (steady_trans 1 0 _ _ _ H4).
Qed.

Lemma sessions_steady (fuel : nat) :
  forall (attempt : Z) (w : world),
    (Z.to_nat (max_retries - attempt) <= fuel)%nat ->
    exists r w' k,
      Supplier.sessions srv os_error filename local_directory max_retries
        retry_delay remote_directory fuel attempt w = Some (r, w')
      /\ steady k w w'
      /\ (k <= Z.to_nat (max_retries - attempt))%nat
      /\ match r with
         | Ok _ => True
         | Raise e => e = TypeError
         end.
Proof.
  induction fuel as [|fuel IH]; intros attempt w Hfuel.
  - cbn [Supplier.sessions].
    destruct (Z.ltb_spec attempt max_retries); [lia|].
    exists (Ok tt), w, 0%nat. split; [done|].
    split; [apply steady_refl|]. split; [lia|done].
  - cbn [Supplier.sessions].
    destruct (Z.ltb_spec attempt max_retries) as [Hlt|Hge].
    2: { exists (Ok tt), w, 0%nat. split; [done|].
         split; [apply steady_refl|]. split; [lia|done]. }
    destruct (Supplier.session _ _ _ _ _ _ _ attempt w) as [o w1]
      eqn:Hsession.
    apply session_steady in Hsession as [Hone Ho].
    destruct o as [|attempt'|e]; cbn in Ho.
    + exists (Ok tt), w1, 1%nat. split; [done|]. split; [done|].
      split; [lia|done].
    + destruct (IH attempt' w1) as (r & w' & k & Hrun & Hrest & Hk & Hr);
        [lia|].
      exists r, w', (1 + k)%nat. split; [done|].
      split; [by eapply steady_trans|]. split; [lia|done].
    + exists (Raise e), w1, 1%nat. split; [done|]. split; [done|].
      split; [lia|done].
Qed.

(** A connection that fails ends the run at once. *)
Lemma supplier_connection_fails (fuel : nat) (w : world) :
  0 < max_retries ->
  connect srv (length (log w)) = false ->
  Supplier.sessions srv os_error filename local_directory max_retries
    retry_delay remote_directory (S fuel) 0 w
  = Some (Raise TypeError, say Connect w).
Proof.
  intros Hpos Hconnect. cbn [Supplier.sessions].
  destruct (Z.ltb_spec 0 max_retries); [|lia].
  unfold Supplier.session. by rewrite Hconnect.
Qed.

End SupplierFacts.

(** X22.  The download of the supplier's file always comes to an end,
    and whatever the FTP server, the line and the operating system do:
    it deletes nothing on the server and retrieves no file but the one
    asked for; it changes no local file but
    "<local_directory>/<filename>"; it opens at most [max_retries]
    connections; when no listing of the server names the file, it
    retrieves nothing and leaves the disk as it was.  It raises nothing
    but TypeError: its clause
    [except (ftplib.all_errors, ConnectionError)] names a tuple inside
    a tuple, so that an error it was written to catch is not caught,
    and a connection that fails ends the run with TypeError at once,
    without a pause and without another attempt. *)
Theorem supplier_download_steady
    (srv : Session.server) (os_error : os_call -> option exn)
    (filename local_directory : string)
    (max_retries retry_delay : Z) (remote_directory : string)
    (w : Session.world) :
  exists r w' evs,
    Supplier.download_from_ftp srv os_error filename local_directory
      max_retries retry_delay remote_directory w = Some (r, w')
    /\ Session.log w' = Session.log w ++ evs
    /\ Forall (Supplier.harmless filename) evs
    /\ (forall p, p <> path_join local_directory filename ->
        Session.disk w' !! p = Session.disk w !! p)
    /\ (Session.connections evs <= Z.to_nat max_retries)%nat
    /\ match r with
       | Ok _ => True
       | Raise e => e = TypeError
       end
    /\ (Supplier.never_listed srv filename ->
        Supplier.retrievals evs = 0%nat
        /\ Session.disk w' = Session.disk w)
    /\ (0 < max_retries ->
        Session.connect srv (length (Session.log w)) = false ->
        r = Raise TypeError /\ evs = [Session.Cmd Session.Connect]).
Proof.
  unfold Supplier.download_from_ftp.
  destruct (sessions_steady srv os_error filename local_directory max_retries
              retry_delay remote_directory (Z.to_nat max_retries) 0 w)
    as (r & w' & k & Hrun
        & (evs & Hlog & Hev & Hdisk & Hconn & Hsame & Hnone) & Hk & Hr).
  { replace (max_retries - 0) with max_retries by lia. lia. }
  exists r, w', evs. rewrite Z.sub_0_r in Hk.
  repeat (split; [done|]). split; [lia|]. split; [done|].
  split.
  { intros Hnever. split; [by apply Hnone|]. apply Hsame. by apply Hnone. }
  intros Hpos Hconnect.
  destruct (Z.to_nat max_retries) as [|fuel] eqn:Hfuel; [lia|].
  rewrite (supplier_connection_fails srv os_error filename local_directory
             max_retries retry_delay remote_directory fuel w Hpos Hconnect)
    in Hrun.
  injection Hrun as <- <-. split; [done|].
  cbn [Session.say Session.log] in Hlog. by apply app_inv_head in Hlog.
Qed.
